(** * alea-web-survey: the sampling-and-crawl pipeline

    A shallow embedding of the core of [alea_web_survey]:

    - [models/web_resource.py]  the [WebResource] record, its on-disk
      encoding ([save] / [from_file]) and the URL-derived cache path;
    - [config.py]  the dataclass [WebSurveyConfig] with the fields it
      declares, and the attribute look-up on [CONFIG];
    - [collection/http/web_client.py]  [WebResourceCollector]: the liveness
      probe, the render-fallback test, [fetch_resource], the completion
      index and the per-domain generator [get_resources], its fetches
      run as tasks of the event loop;
    - [tasks/collect_web_parallel.py]  [collect_domain] and the batch loop
      of [collect_sites_parallel] on a small model of the asyncio loop;
    - [collection/dns/domain_generator.py]  the six strategies and
      [DomainGenerator.generate];
    - [tasks/collect_web.py]  [size_to_str] and the loop of
      [collect_sites];
    - [storage/s3.py], [tasks/push_s3.py], [tasks/get_resource.py]
      [copy_object], [get_completed_paths], [push_cache] and
      [get_resource] over the files of the cache and the objects of the
      bucket.

    Conventions.  Python [bytes] and [str] are both Rocq [string]s (a [str]
    holds characters below code point 256); a [float] is an IEEE 754
    double with its rounding, [Float.t].  A call that may raise returns
    an [outcome]; stateful code runs in the monad [M], whose state holds the
    files of the cache, the coroutines that [functools.cache] has already
    handed out and that were awaited, and the trace of observable events.
    What lies outside the repository (hashing, compression, base64, ISO
    dates, URL and robots.txt parsing, pydantic's validation) is the
    interface [PyLib]; what the network answers is the record [World]. *)

From Stdlib Require Import Ascii String QArith Qminmax.
From stdpp Require Import gmap strings list pretty.

Set Warnings "-register-all".

Local Open Scope string_scope.

(** ** Python values shared by all modules *)

(** [bytes] and [str]. *)
Abbreviation bytes := string (only parsing).

(** The result of a call: a value, or an exception that escaped it. *)
Inductive outcome (A : Type) : Type :=
| Ret (a : A)
| Raise (exn : string).
Arguments Ret {A} a.
Arguments Raise {A} exn.

Module Py.

(** [c] is an ASCII upper-case letter. *)
Definition is_upper (c : ascii) : bool :=
  let n := nat_of_ascii c in (65 <=? n)%nat && (n <=? 90)%nat.

Definition is_lower (c : ascii) : bool :=
  let n := nat_of_ascii c in (97 <=? n)%nat && (n <=? 122)%nat.

Definition is_digit (c : ascii) : bool :=
  let n := nat_of_ascii c in (48 <=? n)%nat && (n <=? 57)%nat.

(** [str.isalnum()] on one character below code point 256, from the
    Unicode tables. *)
Definition str_isalnum (c : ascii) : bool :=
  let n := nat_of_ascii c in
  is_digit c || is_upper c || is_lower c
  || (n =? 170)%nat || (178 <=? n)%nat && (n <=? 179)%nat || (n =? 181)%nat
  || (185 <=? n)%nat && (n <=? 186)%nat || (188 <=? n)%nat && (n <=? 190)%nat
  || (192 <=? n)%nat && (n <=? 214)%nat || (216 <=? n)%nat && (n <=? 246)%nat
  || (248 <=? n)%nat.

(** [str.lower()] on one character below code point 256. *)
Definition str_lower_char (c : ascii) : ascii :=
  let n := nat_of_ascii c in
  if is_upper c || (192 <=? n)%nat && (n <=? 214)%nat
     || (216 <=? n)%nat && (n <=? 222)%nat
  then ascii_of_nat (n + 32) else c.

(** [str.lower()]. *)
Fixpoint str_lower (s : string) : string :=
  match s with
  | EmptyString => EmptyString
  | String c t => String (str_lower_char c) (str_lower t)
  end.

(** [bytes.lower()] on one byte: only A-Z change. *)
Definition lower_byte (c : ascii) : ascii :=
  if is_upper c then ascii_of_nat (nat_of_ascii c + 32) else c.

(** [bytes.lower()]. *)
Fixpoint bytes_lower (s : string) : string :=
  match s with
  | EmptyString => EmptyString
  | String c t => String (lower_byte c) (bytes_lower t)
  end.

(** [s[n:]]. *)
Fixpoint drop_str (n : nat) (s : string) : string :=
  match n, s with
  | O, _ => s
  | S n', String _ t => drop_str n' t
  | S _, EmptyString => EmptyString
  end.

(** [s[:n]]. *)
Fixpoint take_str (n : nat) (s : string) : string :=
  match n, s with
  | O, _ => EmptyString
  | S n', String c t => String c (take_str n' t)
  | S _, EmptyString => EmptyString
  end.

(** [s[i:j]] for non-negative [i], [j]. *)
Definition slice (i j : nat) (s : string) : string :=
  take_str (j - i) (drop_str i s).

(** Scan [hay] for [needle]; [i] is the index of the head of [hay]. *)
Fixpoint find_aux (needle hay : string) (i : nat) : option nat :=
  if String.prefix needle hay then Some i
  else match hay with
       | EmptyString => None
       | String _ t => find_aux needle t (S i)
       end.

(** [hay.find(needle, start)], with [None] for Python's [-1]. *)
Definition find (needle hay : string) (start : nat) : option nat :=
  if (start <=? String.length hay)%nat
  then find_aux needle (drop_str start hay) start
  else None.

(** [needle in hay]. *)
Definition contains (needle hay : string) : bool :=
  match find needle hay 0 with Some _ => true | None => false end.

(** [sep.join(parts)]. *)
Fixpoint join (sep : string) (parts : list string) : string :=
  match parts with
  | [] => ""
  | [p] => p
  | p :: rest => p ++ sep ++ join sep rest
  end.

(** [s.split(sep)] for a one-character separator: never empty. *)
Fixpoint split_on (sep : ascii) (s : string) : list string :=
  match s with
  | EmptyString => [""]
  | String c t =>
      if Ascii.eqb c sep then "" :: split_on sep t
      else match split_on sep t with
           | [] => [String c ""]
           | w :: ws => String c w :: ws
           end
  end.

(** [s.endswith(suffix)]. *)
Definition endswith (s suffix : string) : bool :=
  (String.length suffix <=? String.length s)%nat
  && String.eqb (drop_str (String.length s - String.length suffix) s) suffix.

(** [s.rstrip(".")]. *)
Fixpoint rstrip_dot (s : string) : string :=
  match s with
  | EmptyString => EmptyString
  | String c t =>
      match rstrip_dot t with
      | EmptyString => if Ascii.eqb c "." then EmptyString else String c EmptyString
      | t' => String c t'
      end
  end.

(** [min(a, b)] of Python: the first argument unless the second is
    strictly smaller. *)
Definition min (a b : Q) : Q :=
  if Qlt_le_dec b a then b else a.

End Py.

(** ** [WebResourceCollector.requires_playwright] *)

Module Render.

(** [web_client.py], [requires_playwright]: look at the first
    [<noscript>] of the lower-cased body, up to the next [</noscript>]
    or else over 256 bytes from the tag, for [javascript]. *)
Definition requires_playwright (content : bytes) : bool :=
  let lower_content := Py.bytes_lower content in
  match Py.find "<noscript>" lower_content 0 with
  | None => false
  | Some p0 =>
      let p1 :=
        match Py.find "</noscript>" lower_content p0 with
        | Some p1 => p1
        | None => Nat.min (p0 + 256) (String.length lower_content)
        end in
      Py.contains "javascript" (Py.slice p0 p1 lower_content)
  end.

End Render.

(** ** What the program takes from outside the repository *)

(** The part of [urllib.parse.urlparse]'s result that the program reads. *)
Record ParseResult : Type := {
  scheme : string;
  netloc : string;
  path : string;
}.

(** A parsed JSON document ([json.load] / [json.dumps]). *)
Inductive json : Type :=
| JNull
| JBool (b : bool)
| JInt (z : Z)
| JStr (s : string)
| JArr (items : list json)
| JObj (members : list (string * json)).

(** The Python libraries the program calls.  [None] stands for an
    exception raised by the library. *)
Class PyLib : Type := {
  (** [datetime.datetime] *)
  datetime : Type;
  (** [hashlib.blake2b(b).hexdigest()] *)
  blake2b_hexdigest : bytes -> string;
  (** [lzma.compress], [lzma.decompress] *)
  lzma_compress : bytes -> bytes;
  lzma_decompress : bytes -> option bytes;
  (** [base64.b64encode], [base64.b64decode] *)
  b64encode : bytes -> bytes;
  b64decode : string -> option bytes;
  (** [str.encode("utf-8")], [bytes.decode("utf-8")] *)
  utf8_encode : string -> bytes;
  utf8_decode : bytes -> option string;
  (** [datetime.isoformat], [datetime.fromisoformat] *)
  isoformat : datetime -> string;
  fromisoformat : string -> option datetime;
  (** [dateutil.parser.parse] *)
  dateutil_parse : string -> option datetime;
  (** [urllib.parse.urlparse], for a string it accepts *)
  urlparse : string -> ParseResult;
  (** whether [urllib.parse.urlparse] raises [ValueError] for a string
      (a bracket of an IPv6 address that is not closed, for one) *)
  urlparse_raises : string -> bool;
  (** whether [RobotFileParser.parse(text.splitlines())] raises
      [ValueError] (a crawl delay such as a superscript two, which passes
      [isdigit] and which [int] refuses) *)
  robots_parse_raises : string -> bool;
  (** after a [parse] that returned: [crawl_delay("*")] and
      [site_maps()] *)
  robots_crawl_delay : string -> option Q;
  robots_site_maps : string -> option (list string);
  (** what pydantic makes of a loaded value given for a field declared
      [str], [int] or [Dict[str, Any]], with the coercions it applies;
      [None] for a [ValidationError] *)
  validate_str : json -> option string;
  validate_int : json -> option Z;
  validate_dict : json -> option (list (string * json));
}.

(** What the documentation of these libraries promises and the program
    relies on. *)
Class PyLibLaws (L : PyLib) : Prop := {
  lzma_roundtrip : forall b, lzma_decompress (lzma_compress b) = Some b;
  b64_is_text : forall b, utf8_decode (b64encode b) = Some (b64encode b);
  b64_roundtrip : forall b, b64decode (b64encode b) = Some b;
  iso_roundtrip : forall d, fromisoformat (isoformat d) = Some d;
  iso_nonempty : forall d, isoformat d <> "";
  blake2b_length : forall b, String.length (blake2b_hexdigest b) = 128%nat;
  validate_str_id : forall s, validate_str (JStr s) = Some s;
  validate_int_id : forall z, validate_int (JInt z) = Some z;
  validate_dict_id : forall members, validate_dict (JObj members) = Some members;
}.

Module Json.

(** Truth value of the Python object a JSON value loads to. *)
Definition truthy (j : json) : bool :=
  match j with
  | JNull => false
  | JBool b => b
  | JInt z => negb (z =? 0)%Z
  | JStr s => negb (String.eqb s "")
  | JArr items => match items with [] => false | _ => true end
  | JObj members => match members with [] => false | _ => true end
  end.

(** Of several members with one key, [json.load] keeps the last. *)
Fixpoint lookup_last (k : string) (members : list (string * json)) : option json :=
  match members with
  | [] => None
  | (k', v) :: rest =>
      match lookup_last k rest with
      | Some v' => Some v'
      | None => if String.eqb k' k then Some v else None
      end
  end.

(** [file_data[k]]. *)
Definition getitem (j : json) (k : string) : outcome json :=
  match j with
  | JObj members =>
      match lookup_last k members with
      | Some v => Ret v
      | None => Raise "KeyError"
      end
  | _ => Raise "TypeError"
  end.

End Json.

(** ** State, events and the monad of effects *)

(** A file-system path, as its components below the user's home. *)
Abbreviation Path := (list string) (only parsing).

(** A coroutine object created by one of the [@cache]-decorated
    [async def]s, identified by the arguments it was created for. *)
Inductive Coro : Type :=
| CheckHost (domain : string)
| FetchResource (client : nat) (url : string) (ip_address : option string)
| FetchContentPlaywright (url : string).

Global Instance Coro_eq_dec : EqDecision Coro.
Proof. solve_decision. Defined.

(** What the program does to the outside, in order. *)
Inductive Event : Type :=
| EResolve (domain : string)
| EConnect (ip_address : string) (port : Z)
| EGet (url : string)
| ERender (url : string)
| ESleep (seconds : Q)
| EYield (url : string).

Record State : Type := mkState {
  (** the files under the cache root *)
  fs : gmap (list string) json;
  (** coroutines of the [functools.cache] tables that were awaited *)
  awaited : list Coro;
  (** identity of the next [httpx.AsyncClient] *)
  next_client : nat;
  (** number of clock readings and network answers so far *)
  clock : nat;
  (** events so far, latest first *)
  trace : list Event;
}.

Module Eff.

Definition M (A : Type) : Type := State -> outcome A * State.

Definition ret {A} (a : A) : M A := fun st => (Ret a, st).

Definition raise {A} (exn : string) : M A := fun st => (Raise exn, st).

Definition bind {A B} (m : M A) (k : A -> M B) : M B :=
  fun st =>
    match m st with
    | (Ret a, st') => k a st'
    | (Raise e, st') => (Raise e, st')
    end.

(** [try: m  except Exception as e: handler(e)]. *)
Definition try_except {A} (m : M A) (handler : string -> M A) : M A :=
  fun st =>
    match m st with
    | (Ret a, st') => (Ret a, st')
    | (Raise e, st') => handler e st'
    end.

(** Lift a library call. *)
Definition lift {A} (o : outcome A) : M A := fun st => (o, st).

Definition of_option {A} (exn : string) (o : option A) : M A :=
  match o with Some a => ret a | None => raise exn end.

Definition get_fs : M (gmap (list string) json) := fun st => (Ret (fs st), st).

Definition write_file (p : Path) (doc : json) : M unit :=
  fun st => (Ret tt, mkState (<[p := doc]> (fs st)) (awaited st)
                             (next_client st) (clock st) (trace st)).

Definition emit (e : Event) : M unit :=
  fun st => (Ret tt, mkState (fs st) (awaited st) (next_client st)
                             (clock st) (e :: trace st)).

(** Read the step counter and advance it. *)
Definition tick : M nat :=
  fun st => (Ret (clock st), mkState (fs st) (awaited st) (next_client st)
                                     (S (clock st)) (trace st)).

(** A new client object. *)
Definition new_client : M nat :=
  fun st => (Ret (next_client st), mkState (fs st) (awaited st)
                                           (S (next_client st)) (clock st) (trace st)).

(** [await c] for a coroutine [c] out of a [functools.cache] table, whose
    body is [body]: a coroutine can be awaited once. *)
Definition await {A} (c : Coro) (body : M A) : M A :=
  fun st =>
    if bool_decide (c ∈ awaited st)
    then (Raise "RuntimeError: cannot reuse already awaited coroutine", st)
    else body (mkState (fs st) (c :: awaited st) (next_client st)
                       (clock st) (trace st)).

(** The state once coroutine [c] has been awaited. *)
Definition mark (c : Coro) (st : State) : State :=
  mkState (fs st) (c :: awaited st) (next_client st) (clock st) (trace st).

End Eff.

Declare Scope eff_scope.
Delimit Scope eff_scope with eff.
Notation "x <- m ;; k" := (Eff.bind m (fun x => k))
  (at level 100, m at next level, right associativity) : eff_scope.
Notation "m ;;; k" := (Eff.bind m (fun _ => k))
  (at level 100, right associativity) : eff_scope.

Local Open Scope eff_scope.

(** ** [models/web_resource.py] *)

Module WebResource.
Section WithLib.
Context {L : PyLib}.

(** [class WebResource(BaseModel)].  [headers] holds JSON data. *)
Record t : Type := mk {
  url : string;
  ip : string;
  status : Z;
  hash : string;
  size : Z;
  content : bytes;
  content_type : string;
  headers : list (string * json);
  date_retrieved : datetime;
  date_modified : option datetime;
}.

(** [CACHE_PATH = Path().home() / ".alea" / "web-survey" / "cache"] *)
Definition CACHE_PATH : Path := [".alea"; "web-survey"; "cache"].

(** [p / s] of [pathlib] for a component [s] without a slash: an empty
    component and the component [.] add nothing. *)
Definition path_join (p : Path) (s : string) : Path :=
  if String.eqb s "" || String.eqb s "." then p else (p ++ [s])%list.

(** [p.parent] *)
Definition parent (p : Path) : Path := removelast p.

(** A value passed for a field that the model declares [str], [int] or
    [Dict[str, Any]]. *)
Definition as_str (j : json) : outcome string :=
  match validate_str j with Some s => Ret s | None => Raise "ValidationError" end.

Definition as_int (j : json) : outcome Z :=
  match validate_int j with Some z => Ret z | None => Raise "ValidationError" end.

Definition as_dict (j : json) : outcome (list (string * json)) :=
  match validate_dict j with
  | Some members => Ret members
  | None => Raise "ValidationError"
  end.

(** [datetime.datetime.fromisoformat(j)] on a loaded JSON value. *)
Definition fromisoformat_json (j : json) : outcome datetime :=
  match j with
  | JStr s =>
      match fromisoformat s with
      | Some d => Ret d
      | None => Raise "ValueError"
      end
  | _ => Raise "TypeError"
  end.

(** The body of [from_file] once the document is loaded. *)
Definition of_file_data (file_data : json) : Eff.M t :=
  c <- Eff.lift (Json.getitem file_data "content") ;;
  c <- Eff.lift (match c with JStr s => Ret s | _ => Raise "TypeError" end) ;;
  content <- Eff.of_option "binascii.Error" (b64decode c) ;;
  content <- Eff.of_option "LZMAError" (lzma_decompress content) ;;
  url <- Eff.lift (Json.getitem file_data "url") ;;
  ip <- Eff.lift (Json.getitem file_data "ip") ;;
  status <- Eff.lift (Json.getitem file_data "status") ;;
  hash <- Eff.lift (Json.getitem file_data "hash") ;;
  size <- Eff.lift (Json.getitem file_data "size") ;;
  content_type <- Eff.lift (Json.getitem file_data "content_type") ;;
  headers <- Eff.lift (Json.getitem file_data "headers") ;;
  dr <- Eff.lift (Json.getitem file_data "date_retrieved") ;;
  date_retrieved <- Eff.lift (fromisoformat_json dr) ;;
  dm <- Eff.lift (Json.getitem file_data "date_modified") ;;
  date_modified <-
    (if Json.truthy dm
     then d <- Eff.lift (fromisoformat_json dm) ;; Eff.ret (Some d)
     else Eff.ret None) ;;
  url <- Eff.lift (as_str url) ;;
  ip <- Eff.lift (as_str ip) ;;
  status <- Eff.lift (as_int status) ;;
  hash <- Eff.lift (as_str hash) ;;
  size <- Eff.lift (as_int size) ;;
  content_type <- Eff.lift (as_str content_type) ;;
  headers <- Eff.lift (as_dict headers) ;;
  Eff.ret (mk url ip status hash size content content_type headers
              date_retrieved date_modified).

(** [WebResource.from_file(path)] *)
Definition from_file (path : Path) : Eff.M t :=
  files <- Eff.get_fs ;;
  match files !! path with
  | None => Eff.raise "FileNotFoundError"
  | Some file_data => of_file_data file_data
  end.

(** The dictionary [file_data] that [save] serialises, given the base64
    text of the compressed content. *)
Definition file_data_of (self : t) (content : string) : json :=
  JObj [ ("url", JStr (url self));
         ("ip", JStr (ip self));
         ("status", JInt (status self));
         ("hash", JStr (hash self));
         ("size", JInt (size self));
         ("content", JStr content);
         ("content_type", JStr (content_type self));
         ("headers", JObj (headers self));
         ("date_retrieved", JStr (isoformat (date_retrieved self)));
         ("date_modified",
           match date_modified self with
           | Some d => JStr (isoformat d)
           | None => JNull
           end) ].

(** [self.save(path)] *)
Definition save (self : t) (path : Path) : Eff.M unit :=
  let content := lzma_compress (content self) in
  let content := b64encode content in
  content <- Eff.of_option "UnicodeDecodeError" (utf8_decode content) ;;
  Eff.write_file path (file_data_of self content).

(** [WebResource.get_cache_path(url, cache_path)] *)
Definition get_cache_path (url : string) (cache_path : option Path) : Path :=
  let cache_path :=
    match cache_path with None => CACHE_PATH | Some p => p end in
  let parsed_url := urlparse url in
  let domain := netloc parsed_url in
  let path := path parsed_url in
  let path_hash := blake2b_hexdigest (utf8_encode path) in
  path_join (path_join cache_path domain) (path_hash ++ ".json").

(** [self.save_to_cache(cache_path)] *)
Definition save_to_cache (self : t) (cache_path : option Path) : Eff.M unit :=
  let cache_file := get_cache_path (url self) cache_path in
  save self cache_file.

(** [WebResource.load_from_cache(url, cache_path)] *)
Definition load_from_cache (url : string) (cache_path : option Path)
  : Eff.M (option t) :=
  let cache_file := get_cache_path url cache_path in
  files <- Eff.get_fs ;;
  match files !! cache_file with
  | None => Eff.ret None
  | Some _ => r <- from_file cache_file ;; Eff.ret (Some r)
  end.

End WithLib.
End WebResource.

(** ** Python's floats

    An IEEE 754 double: a finite value [m * 2^e], an infinity or a NaN.
    Finite values are kept with [m] odd, or as [Finite 0 0]; the sign of
    a zero is not kept, as no comparison reads it. *)
Module Float.
Local Open Scope Z_scope.

Inductive t : Type :=
| Finite (m e : Z)
| Inf (negative : bool)
| NaN.

Definition zero : t := Finite 0 0.

(** [m * 2^e] with the factors of two moved out of [m]. *)
Fixpoint strip (fuel : nat) (m e : Z) : Z * Z :=
  match fuel with
  | O => (m, e)
  | S fuel => if Z.even m then strip fuel (m / 2) (e + 1) else (m, e)
  end.

Definition normal (m e : Z) : t :=
  if m =? 0 then zero
  else let (m', e') := strip (Z.to_nat (Z.log2 (Z.abs m))) m e in Finite m' e'.

(** The double nearest to [n / d] for [0 < n] and [0 < d], ties to the
    even significand: 53 bits above the exponent -1074, an infinity
    from [2^1024 - 2^970] on. *)
Definition nearest (n d : Z) : t :=
  let k := Z.log2 n - Z.log2 d in
  let floor_log2 :=
    if (if 0 <=? k then d * 2 ^ k <=? n else d <=? n * 2 ^ (- k))
    then k else k - 1 in
  let e := Z.max (floor_log2 - 52) (-1074) in
  let num := if 0 <=? e then n else n * 2 ^ (- e) in
  let den := if 0 <=? e then d * 2 ^ e else d in
  let m := num / den in
  let r := num mod den in
  let m :=
    if 2 * r <? den then m
    else if den <? 2 * r then m + 1
    else if Z.even m then m else m + 1 in
  if 2 ^ 1024 <=? m * 2 ^ e then Inf false else normal m e.

Definition neg (x : t) : t :=
  match x with
  | Finite m e => Finite (- m) e
  | Inf s => Inf (negb s)
  | NaN => NaN
  end.

(** The double nearest to [n / d] for [0 < d]. *)
Definition round (n d : Z) : t :=
  if n =? 0 then zero
  else if 0 <? n then nearest n d
  else neg (nearest (- n) d).

(** The double nearest to [m * 2^e]. *)
Definition round_dyadic (m e : Z) : t :=
  if 0 <=? e then round (m * 2 ^ e) 1 else round m (2 ^ (- e)).

(** [float(n)] of an [int] that is not too large *)
Definition of_int (n : Z) : option t :=
  match round n 1 with
  | Finite m e => Some (Finite m e)
  | _ => None
  end.

(** [x + y] *)
Definition add (x y : t) : t :=
  match x, y with
  | NaN, _ | _, NaN => NaN
  | Inf s, Inf s' => if Bool.eqb s s' then Inf s else NaN
  | Inf s, Finite _ _ | Finite _ _, Inf s => Inf s
  | Finite m e, Finite m' e' =>
      let e0 := Z.min e e' in
      round_dyadic (m * 2 ^ (e - e0) + m' * 2 ^ (e' - e0)) e0
  end.

(** [x * y] *)
Definition mul (x y : t) : t :=
  match x, y with
  | NaN, _ | _, NaN => NaN
  | Inf s, Inf s' => Inf (xorb s s')
  | Inf s, Finite m _ | Finite m _, Inf s =>
      if m =? 0 then NaN else Inf (xorb s (m <? 0))
  | Finite m e, Finite m' e' => round_dyadic (m * m') (e + e')
  end.

(** [x / y] for a divisor other than zero (on a zero divisor Python
    raises [ZeroDivisionError]) *)
Definition div (x y : t) : t :=
  match x, y with
  | NaN, _ | _, NaN => NaN
  | _, Finite 0 _ => NaN
  | Inf _, Inf _ => NaN
  | Inf s, Finite m _ => Inf (xorb s (m <? 0))
  | Finite _ _, Inf _ => zero
  | Finite m e, Finite m' e' =>
      let n := if 0 <? m' then m else - m in
      let d := Z.abs m' in
      if 0 <=? e - e' then round (n * 2 ^ (e - e')) d
      else round n (d * 2 ^ (e' - e))
  end.

(** [x < y] *)
Definition ltb (x y : t) : bool :=
  match x, y with
  | NaN, _ | _, NaN => false
  | Inf s, Inf s' => s && negb s'
  | Inf s, Finite _ _ => s
  | Finite _ _, Inf s => negb s
  | Finite m e, Finite m' e' =>
      let e0 := Z.min e e' in
      m * 2 ^ (e - e0) <? m' * 2 ^ (e' - e0)
  end.

(** [x == y] *)
Definition eqb (x y : t) : bool :=
  match x, y with
  | NaN, _ | _, NaN => false
  | Inf s, Inf s' => Bool.eqb s s'
  | Finite m e, Finite m' e' =>
      let e0 := Z.min e e' in
      m * 2 ^ (e - e0) =? m' * 2 ^ (e' - e0)
  | _, _ => false
  end.

(** [x <= y] *)
Definition leb (x y : t) : bool := ltb x y || eqb x y.

(** [math.isfinite(x)] *)
Definition isfinite (x : t) : bool :=
  match x with
  | Finite _ _ => true
  | _ => false
  end.

(** [x < n] for a float and an [int], which Python compares by value *)
Definition lt_int (x : t) (n : Z) : bool :=
  match x with
  | NaN => false
  | Inf s => s
  | Finite m e => if 0 <=? e then m * 2 ^ e <? n else m <? n * 2 ^ (- e)
  end.

End Float.

(** A number as [json.load] returns it: an [int] or a [float]. *)
Inductive Number : Type :=
| Int (n : Z)
| Flt (x : Float.t).

Module Number.

Definition overflow : string := "OverflowError: int too large to convert to float".

(** [float(n)] *)
Definition float_of_int (n : Z) : outcome Float.t :=
  match Float.of_int n with
  | Some x => Ret x
  | None => Raise overflow
  end.

(** [a + b]: two [int]s add exactly; an [int] that meets a [float] is
    converted first. *)
Definition add (a b : Number) : outcome Number :=
  match a, b with
  | Int n, Int n' => Ret (Int (n + n'))
  | Flt x, Flt y => Ret (Flt (Float.add x y))
  | Int n, Flt y =>
      match float_of_int n with
      | Ret x => Ret (Flt (Float.add x y))
      | Raise e => Raise e
      end
  | Flt x, Int n =>
      match float_of_int n with
      | Ret y => Ret (Flt (Float.add x y))
      | Raise e => Raise e
      end
  end.

(** [a + 0.0] *)
Definition plus_zero (a : Number) : outcome Float.t :=
  match a with
  | Int n =>
      match float_of_int n with
      | Ret x => Ret (Float.add x Float.zero)
      | Raise e => Raise e
      end
  | Flt x => Ret (Float.add x Float.zero)
  end.

(** [x < a] for a [float] [x]: Python compares a [float] and an [int]
    by their values. *)
Definition float_lt (x : Float.t) (a : Number) : bool :=
  match a with
  | Int n => Float.lt_int x n
  | Flt y => Float.ltb x y
  end.

End Number.

(** ** [config.py] *)

(** [WebSurveyConfig]: the thirteen fields of the dataclass, each with a
    value of the type its annotation names (the weights being numbers).
    [from_json] passes the members of the JSON document to the
    constructor as keyword arguments, which takes these names and no
    other, so [CONFIG] has these attributes and no other. *)
Record Config : Type := {
  s3_bucket : string;
  domain_path : string;
  user_agent : string;
  dns_resolve_timeout : Q;
  http_pool_size : Z;
  http_keep_alive : Z;
  http_network_timeout : Z;
  http_connect_timeout : Z;
  http_read_timeout : Z;
  http_write_timeout : Z;
  playwright_timeout : Z;
  path_list : list string;
  domain_weights : list (string * Number);
}.

(** The names of the fields that hold a number, with their values. *)
Definition config_numbers (CONFIG : Config) : list (string * Q) :=
  [ ("dns_resolve_timeout", dns_resolve_timeout CONFIG);
    ("http_pool_size", inject_Z (http_pool_size CONFIG));
    ("http_keep_alive", inject_Z (http_keep_alive CONFIG));
    ("http_network_timeout", inject_Z (http_network_timeout CONFIG));
    ("http_connect_timeout", inject_Z (http_connect_timeout CONFIG));
    ("http_read_timeout", inject_Z (http_read_timeout CONFIG));
    ("http_write_timeout", inject_Z (http_write_timeout CONFIG));
    ("playwright_timeout", inject_Z (playwright_timeout CONFIG)) ].

(** The message of the [AttributeError] for a name that is no field. *)
Definition no_attribute (name : string) : string :=
  "AttributeError: 'WebSurveyConfig' object has no attribute '" ++ name ++ "'".

(** [CONFIG.name] where the program goes on to use the value as a
    number of seconds: an [AttributeError] for a name that the dataclass
    does not declare. *)
Definition config_number (CONFIG : Config) (name : string) : outcome Q :=
  match List.find (fun field => String.eqb (fst field) name) (config_numbers CONFIG) with
  | Some field => Ret (snd field)
  | None =>
      if existsb (String.eqb name)
           ["s3_bucket"; "domain_path"; "user_agent"; "path_list"; "domain_weights"]
      then Raise "TypeError"
      else Raise (no_attribute name)
  end.

(** [n / 100.0] *)
Definition hundredths (n : Z) : Number :=
  Flt (Float.div (Float.round n 1) (Float.round 100 1)).

(** [default_weights()]; the names are those of the methods of
    [DomainGenerator]. *)
Definition default_weights : list (string * Number) :=
  [ ("get_random_known_domain", hundredths 90);
    ("get_random_known_domain_tld", hundredths 2);
    ("get_random_words_domain", hundredths 2);
    ("get_random_chars_domain", hundredths 2);
    ("get_random_domain_tld_suffix", hundredths 2);
    ("get_random_ipv4_domain", hundredths 2) ].

(** [default_path_list()] *)
Definition default_path_list : list string :=
  ["/"; "/robots.txt"; "/ai.txt"; "/humans.txt"; "/security.txt"; "/sitemap.xml"].

(** [WebSurveyConfig()]: every field at its default. *)
Definition default_config : Config := {|
  s3_bucket := "web-survey.aleainstitute.ai";
  domain_path := "domains.trie";
  user_agent :=
    "ALEA-AI-Web-Survey/0.1.0 (https://aleainstitute.ai; hello@aleainstitute.ai)";
  dns_resolve_timeout := 5;
  http_pool_size := 5;
  http_keep_alive := 10;
  http_network_timeout := 5;
  http_connect_timeout := 5;
  http_read_timeout := 5;
  http_write_timeout := 5;
  playwright_timeout := 5;
  path_list := default_path_list;
  domain_weights := default_weights;
|}.

(** ** [collection/http/web_client.py] *)

(** What the program reads of an [httpx.Response]. *)
Record Response : Type := {
  status_code : Z;
  response_content : bytes;
  response_headers : list (string * string);
  (** [extensions["network_stream"].get_extra_info("server_addr")[0]],
      [None] when that lookup raises *)
  server_addr : option string;
}.

(** The answers of the network and of the clock.  The [nat] argument is
    the value of the step counter when the question is asked, so that
    answers may change over time. *)
Record World {L : PyLib} : Type := {
  (** [dns.resolver.resolve(domain, "A")[0].address] *)
  dns_resolve : string -> option string;
  (** [asyncio.open_connection(ip, port)] within the time-out *)
  open_connection : string -> Z -> bool;
  (** [client.get(url, follow_redirects=True)] *)
  http_get : nat -> string -> option Response;
  (** the page content playwright returns, [""] when loading the page
      failed; [None] when the browser itself could not be started *)
  playwright_content : nat -> string -> option bytes;
  (** [utc_now()] *)
  utc_now : nat -> datetime;
  (** which of the pending fetches [asyncio.as_completed] hands over at
      its n-th step *)
  completes_next : nat -> nat;
}.
Arguments World L : clear implicits.

Module WebResourceCollector.
Section WithWorld.
Context {L : PyLib} (W : World L) (CONFIG : Config).

Definition DEFAULT_MAX_SITEMAPS : nat := 10.

(** The loop of [check_host] over [(443, "https"), (80, "http")]. *)
Fixpoint check_ports (ip_address : string) (ports : list (Z * string))
  : Eff.M (option (string * string)) :=
  match ports with
  | [] => Eff.ret None
  | (port, scheme) :: rest =>
      Eff.emit (EConnect ip_address port) ;;;
      if open_connection W ip_address port
      then Eff.ret (Some (scheme, ip_address))
      else check_ports ip_address rest
  end.

(** Body of [check_host]. *)
Definition check_host_body (domain : string) : Eff.M (option (string * string)) :=
  Eff.emit (EResolve domain) ;;;
  match dns_resolve W domain with
  | None => Eff.ret None
  | Some ip_address => check_ports ip_address [(443%Z, "https"); (80%Z, "http")]
  end.

(** [await WebResourceCollector.check_host(domain)] *)
Definition check_host (domain : string) : Eff.M (option (string * string)) :=
  Eff.await (CheckHost domain) (check_host_body domain).

(** [requires_playwright] is [Render.requires_playwright]; its
    [@cache] only saves recomputation. *)
Definition requires_playwright := Render.requires_playwright.

(** Body of [fetch_content_playwright]. *)
Definition fetch_content_playwright_body (url : string) : Eff.M bytes :=
  Eff.emit (ERender url) ;;;
  n <- Eff.tick ;;
  Eff.of_option "playwright.Error" (playwright_content W n url).

(** [await WebResourceCollector.fetch_content_playwright(url)] *)
Definition fetch_content_playwright (url : string) : Eff.M bytes :=
  Eff.await (FetchContentPlaywright url) (fetch_content_playwright_body url).

(** The scan of the response headers for [content-type] and
    [last-modified]; a date that does not parse leaves [last_modified]
    as it was. *)
Definition scan_headers (hs : list (string * string)) : string * option datetime :=
  fold_left
    (fun (acc : string * option datetime) (kv : string * string) =>
       let (content_type, last_modified) := acc in
       let (key, value) := kv in
       if String.eqb (Py.str_lower key) "content-type" then (value, last_modified)
       else if String.eqb (Py.str_lower key) "last-modified" then
         match dateutil_parse value with
         | Some d => (content_type, Some d)
         | None => (content_type, last_modified)
         end
       else (content_type, last_modified))
    hs ("text/plain", None).

(** [status_code in (200, 301)] *)
Definition renderable_status (status_code : Z) : bool :=
  (status_code =? 200)%Z || (status_code =? 301)%Z.

(** [ip_address or ""] *)
Definition ip_or_empty (ip_address : option string) : string :=
  match ip_address with Some a => a | None => "" end.

(** The [try] block of [fetch_resource]. *)
Definition fetch_uncached (url : string) (ip_address : option string)
  : Eff.M (option WebResource.t) :=
  Eff.emit (EGet url) ;;;
  n <- Eff.tick ;;
  response <- Eff.of_option "httpx.HTTPError" (http_get W n url) ;;
  let response_ip :=
    match server_addr response with
    | Some a => a
    | None => ip_or_empty ip_address
    end in
  let content := response_content response in
  let (content_type, last_modified) := scan_headers (response_headers response) in
  content <-
    (if requires_playwright content && renderable_status (status_code response)
     then fetch_content_playwright url
     else Eff.ret content) ;;
  let hash_value := blake2b_hexdigest content in
  n <- Eff.tick ;;
  let web_resource :=
    WebResource.mk url response_ip (status_code response) hash_value
      (Z.of_nat (String.length content)) content content_type []
      (utc_now W n) last_modified in
  WebResource.save_to_cache web_resource None ;;;
  Eff.ret (Some web_resource).

(** Body of [fetch_resource]: the cache is consulted outside the [try]. *)
Definition fetch_resource_body (url : string) (ip_address : option string)
  : Eff.M (option WebResource.t) :=
  cached_resource <- WebResource.load_from_cache url None ;;
  match cached_resource with
  | Some r => Eff.ret (Some r)
  | None =>
      Eff.try_except (fetch_uncached url ip_address) (fun _ => Eff.ret None)
  end.

(** [await WebResourceCollector.fetch_resource(client, url, ip_address)] *)
Definition fetch_resource (client : nat) (url : string) (ip_address : option string)
  : Eff.M (option WebResource.t) :=
  Eff.await (FetchResource client url ip_address) (fetch_resource_body url ip_address).

(** One entry of the completion index. *)
Definition page_summary (page : WebResource.t) : json :=
  JObj [ ("url", JStr (WebResource.url page));
         ("status", JInt (WebResource.status page));
         ("hash", JStr (WebResource.hash page));
         ("size", JInt (WebResource.size page));
         ("content_type", JStr (WebResource.content_type page));
         ("ip_address", JStr (WebResource.ip page));
         ("date_retrieved", JStr (isoformat (WebResource.date_retrieved page)));
         ("date_modified",
           match WebResource.date_modified page with
           | Some d => JStr (isoformat d)
           | None => JNull
           end) ].

(** Where [save_domain_content] writes, given the first page. *)
Definition content_path (first : WebResource.t) : Path :=
  WebResource.path_join
    (WebResource.parent (WebResource.get_cache_path (WebResource.url first) None))
    "content.json".

(** [WebResourceCollector.save_domain_content(pages)] *)
Definition save_domain_content (pages : list WebResource.t) : Eff.M unit :=
  match pages with
  | [] => Eff.ret tt
  | first :: _ => Eff.write_file (content_path first) (JArr (map page_summary pages))
  end.

(** [asyncio.sleep(seconds)] *)
Definition sleep (seconds : Q) : Eff.M unit := Eff.emit (ESleep seconds).

(** The loop [for sitemap_url in site_maps[:DEFAULT_MAX_SITEMAPS]]: the
    path of each entry, or the [ValueError] of [urlparse]. *)
Fixpoint sitemap_paths (site_maps : list string) : outcome (list string) :=
  match site_maps with
  | [] => Ret []
  | sitemap_url :: rest =>
      if urlparse_raises sitemap_url then Raise "ValueError"
      else
        match sitemap_paths rest with
        | Ret paths => Ret (path (urlparse sitemap_url) :: paths)
        | Raise e => Raise e
        end
  end.

(** The [if robots_resource:] block of [get_resources], which no [try]
    encloses: the declared crawl delay replaces the default one, and the
    paths of the first [DEFAULT_MAX_SITEMAPS] sitemap entries are
    appended. *)
Definition read_robots (robots_resource : WebResource.t)
    (domain_delay : Q) (domain_paths : list string) : Eff.M (Q * list string) :=
  text <- Eff.of_option "UnicodeDecodeError"
            (utf8_decode (WebResource.content robots_resource)) ;;
  if robots_parse_raises text then Eff.raise "ValueError"
  else
    let domain_delay :=
      match robots_crawl_delay text with
      | Some d => d
      | None => domain_delay
      end in
    match robots_site_maps text with
    | Some (_ :: _ as site_maps) =>
        sitemaps <- Eff.lift (sitemap_paths (take DEFAULT_MAX_SITEMAPS site_maps)) ;;
        Eff.ret (domain_delay, (domain_paths ++ sitemaps)%list)
    | _ => Eff.ret (domain_delay, domain_paths)
    end.

(** The loop [for path in domain_paths] of [get_resources]: a coroutine
    object per path other than [/robots.txt], each followed by the
    politeness sleep, whose length is worked out from
    [CONFIG.http_delay_max] anew every time.  [fetch_resource(...)] only
    creates (or, for a repeated URL, hands out again) the coroutine;
    nothing runs yet. *)
Fixpoint dispatch (client : nat) (base_url ip_address : string) (domain_delay : Q)
    (domain_paths : list string) (tasks : list Coro) : Eff.M (list Coro) :=
  match domain_paths with
  | [] => Eff.ret tasks
  | path :: rest =>
      if String.eqb path "/robots.txt"
      then dispatch client base_url ip_address domain_delay rest tasks
      else
        let tasks :=
          (tasks ++ [FetchResource client (base_url ++ path) (Some ip_address)])%list in
        http_delay_max <- Eff.lift (config_number CONFIG "http_delay_max") ;;
        sleep (Py.min http_delay_max domain_delay) ;;;
        dispatch client base_url ip_address domain_delay rest tasks
  end.

(** *** The fetches as tasks of the event loop

    [asyncio.as_completed(tasks)] wraps every coroutine of [set(tasks)]
    in a task.  When the consumer first waits, the loop gives each task
    its first step, which ends at [await client.get(...)] or, on a cache
    hit, with the task; only then can an answer arrive.  The consumer is
    handed the tasks in the order in which they end. *)

(** A fetch that is under way: it waits for the answer to its request,
    or for the rendered page, or it has ended. *)
Inductive Fetch : Type :=
| Requested (url : string) (ip_address : option string)
| Rendering (url response_ip : string) (status : Z) (content_type : string)
    (last_modified : option datetime)
| Done (result : outcome (option WebResource.t)).

(** The end of the [try] block of [fetch_resource], from the digest on. *)
Definition store_resource (url response_ip : string) (status : Z) (content : bytes)
    (content_type : string) (last_modified : option datetime)
  : Eff.M (option WebResource.t) :=
  let hash_value := blake2b_hexdigest content in
  n <- Eff.tick ;;
  let web_resource :=
    WebResource.mk url response_ip status hash_value
      (Z.of_nat (String.length content)) content content_type []
      (utc_now W n) last_modified in
  WebResource.save_to_cache web_resource None ;;;
  Eff.ret (Some web_resource).

(** What is left of the [try] block ends the task; an exception makes
    the result [None]. *)
Definition finish (rest : Eff.M (option WebResource.t)) : Eff.M Fetch :=
  web_resource <- Eff.try_except rest (fun _ => Eff.ret None) ;;
  Eff.ret (Done (Ret web_resource)).

(** The first step of the task of a coroutine: the cache is consulted,
    and on a miss the request is sent. *)
Definition start_fetch (coro : Coro) : Eff.M Fetch :=
  match coro with
  | FetchResource client url ip_address =>
      fun st =>
        if bool_decide (coro ∈ awaited st)
        then (Ret (Done (Raise "RuntimeError: cannot reuse already awaited coroutine")), st)
        else
          match WebResource.load_from_cache url None (Eff.mark coro st) with
          | (Raise e, st') => (Ret (Done (Raise e)), st')
          | (Ret (Some cached_resource), st') => (Ret (Done (Ret (Some cached_resource))), st')
          | (Ret None, st') => (Ret (Requested url ip_address), snd (Eff.emit (EGet url) st'))
          end
  | _ => Eff.ret (Done (Raise "TypeError"))
  end.

(** A task is resumed with what it waited for. *)
Definition resume_fetch (fetch : Fetch) : Eff.M Fetch :=
  match fetch with
  | Requested url ip_address =>
      n <- Eff.tick ;;
      match http_get W n url with
      | None => Eff.ret (Done (Ret None))
      | Some response =>
          let response_ip :=
            match server_addr response with
            | Some a => a
            | None => ip_or_empty ip_address
            end in
          let content := response_content response in
          let (content_type, last_modified) := scan_headers (response_headers response) in
          if requires_playwright content && renderable_status (status_code response)
          then
            fun st =>
              if bool_decide (FetchContentPlaywright url ∈ awaited st)
              then (Ret (Done (Ret None)), st)
              else
                (Ret (Rendering url response_ip (status_code response) content_type
                        last_modified),
                 snd (Eff.emit (ERender url) (Eff.mark (FetchContentPlaywright url) st)))
          else
            finish (store_resource url response_ip (status_code response) content
                      content_type last_modified)
      end
  | Rendering url response_ip status content_type last_modified =>
      n <- Eff.tick ;;
      match playwright_content W n url with
      | None => Eff.ret (Done (Ret None))
      | Some content =>
          finish (store_resource url response_ip status content content_type last_modified)
      end
  | Done result => Eff.ret (Done result)
  end.

(** The first steps of the tasks, in the order in which the set hands
    out its members; the tasks that were started are [running]. *)
Fixpoint start_all (fuel : nat) (todo : list Coro) (running : list Fetch)
  : Eff.M (list Fetch) :=
  match fuel, todo with
  | S fuel, _ :: _ =>
      n <- Eff.tick ;;
      let i := (completes_next W n mod length todo)%nat in
      match todo !! i with
      | Some coro =>
          fetch <- start_fetch coro ;;
          start_all fuel (delete i todo) (running ++ [fetch])%list
      | None => Eff.ret running
      end
  | _, _ => Eff.ret running
  end.

(** The first of the tasks that has ended, and the other tasks. *)
Fixpoint first_done (running : list Fetch)
  : option (outcome (option WebResource.t) * list Fetch) :=
  match running with
  | [] => None
  | Done result :: rest => Some (result, rest)
  | fetch :: rest =>
      match first_done rest with
      | Some (result, others) => Some (result, fetch :: others)
      | None => None
      end
  end.

(** The loop [for coro in asyncio.as_completed(tasks)]: a task that has
    ended is handed to the consumer, which yields its resource if any and
    appends it to [pages]; when none has ended, one of the tasks is
    resumed. *)
Fixpoint as_completed_loop (fuel : nat) (running : list Fetch)
    (pages : list WebResource.t) : Eff.M (list WebResource.t) :=
  match fuel with
  | O => Eff.ret pages
  | S fuel =>
      match first_done running with
      | Some (Raise e, _) => Eff.raise e
      | Some (Ret (Some web_resource), others) =>
          Eff.emit (EYield (WebResource.url web_resource)) ;;;
          as_completed_loop fuel others (pages ++ [web_resource])%list
      | Some (Ret None, others) => as_completed_loop fuel others pages
      | None =>
          match running with
          | [] => Eff.ret pages
          | _ =>
              n <- Eff.tick ;;
              let i := (completes_next W n mod length running)%nat in
              match running !! i with
              | Some fetch =>
                  fetch <- resume_fetch fetch ;;
                  as_completed_loop fuel (<[i := fetch]> running) pages
              | None => Eff.ret pages
              end
          end
      end
  end.

(** [asyncio.as_completed(tasks)] works on [set(tasks)]: a coroutine
    object that occurs twice is run once.  A task is resumed at most
    twice and handed over once. *)
Definition as_completed (tasks : list Coro) : Eff.M (list WebResource.t) :=
  let todo := remove_dups tasks in
  running <- start_all (length todo) todo [] ;;
  as_completed_loop (3 * length todo) running [].

(** [get_resources(domain, paths)], drained by its consumer: the value is
    the list of the resources yielded, in order.  The first statement
    reads [CONFIG.http_delay]. *)
Definition get_resources (domain : string) (paths : option (list string))
  : Eff.M (list WebResource.t) :=
  domain_delay <- Eff.lift (config_number CONFIG "http_delay") ;;
  let paths := match paths with None => path_list CONFIG | Some p => p end in
  host_result <- check_host domain ;;
  match host_result with
  | None => Eff.ret []
  | Some (scheme, ip_address) =>
      let base_url := scheme ++ "://" ++ domain in
      client <- Eff.new_client ;;
      let domain_paths := paths in
      robots_resource <-
        fetch_resource client (base_url ++ "/robots.txt") (Some ip_address) ;;
      robots <-
        match robots_resource with
        | Some r => read_robots r domain_delay domain_paths
        | None => Eff.ret (domain_delay, domain_paths)
        end ;;
      let (domain_delay, domain_paths) := robots : Q * list string in
      tasks <- dispatch client base_url ip_address domain_delay domain_paths [] ;;
      pages <- as_completed tasks ;;
      save_domain_content pages ;;;
      Eff.ret pages
  end.

End WithWorld.
End WebResourceCollector.

(** ** [tasks/collect_web_parallel.py] *)

Module CollectWebParallel.
Section WithWorld.
Context {L : PyLib} (W : World L) (CONFIG : Config).

(** [sum(page.size for page in pages)] as [collect_domain] accumulates it. *)
Definition total_size (pages : list WebResource.t) : Z :=
  fold_left (fun acc page => (acc + WebResource.size page)%Z) pages 0%Z.

(** [collect_domain(domain)]: (number of pages, number of bytes, 1 if
    successful else 0). *)
Definition collect_domain (domain : string) : Eff.M (Z * Z * Z) :=
  Eff.try_except
    (pages <- WebResourceCollector.get_resources W CONFIG domain None ;;
     Eff.ret (Z.of_nat (length pages), total_size pages, 1%Z))
    (fun _ => Eff.ret (0%Z, 0%Z, 0%Z)).

(** An event at which a pipeline waits while the event loop runs other
    tasks.  The name resolution of [check_host] is a blocking call, and a
    resource that is yielded goes to the pipeline's own loop. *)
Definition suspends (e : Event) : bool :=
  match e with
  | EConnect _ _ | EGet _ | ERender _ | ESleep _ => true
  | EResolve _ | EYield _ => false
  end.

(** The events of a run that began in [st] and ended in [st']. *)
Definition events_since (st st' : State) : list Event :=
  take (length (trace st') - length (trace st)) (trace st').

(** How [collect_domain(domain)] behaves when it starts in [st]: how
    often it waits, and what it returns. *)
Definition behaviour (domain : string) (st : State) : nat * (Z * Z * Z) :=
  let run := collect_domain domain st in
  (length (filter (fun e => suspends e = true) (events_since st (snd run))),
   match fst run with
   | Ret res => res
   | Raise _ => (0%Z, 0%Z, 0%Z)
   end).

End WithWorld.

(** *** One batch of [collect_sites_parallel] on the asyncio event loop

    [asyncio.ensure_future(collect_domain(domain))] makes a task and puts
    its first step on the loop's ready queue; a task runs, when the loop
    calls it, up to its next suspension (an [await] on the network or on
    a timer) or to its end.  The consumer is the coroutine of
    [collect_sites_parallel] itself. *)

(** A [collect_domain] task: not yet run, suspended at an [await], or
    finished.  [k] is the number of suspensions the task still has ahead
    of it. *)
Inductive Progress : Type :=
| Pending (k : nat)
| Running (k : nat)
| Finished.

Record Task : Type := mkTask {
  progress : Progress;
  (** what [task.result()] will be *)
  result : Z * Z * Z;
}.

(** An entry of the ready queue. *)
Inductive Handle : Type :=
| HTask (i : nat)
| HConsumer.

(** Where the loop [for task in tasks: async with semaphore: await task]
    stands. *)
Inductive Consumer : Type :=
| Awaiting (i : nat)
| BlockedOnSemaphore (i : nat)
| Completed.

Record Loop : Type := mkLoop {
  tasks : list Task;
  ready : list Handle;
  (** the value of [asyncio.Semaphore(max_workers)] *)
  semaphore : nat;
  consumer : Consumer;
  num_sites : Z;
  (** the most pipelines seen in flight at once so far *)
  peak : nat;
}.

Definition is_running (t : Task) : bool :=
  match progress t with Running _ => true | _ => false end.

(** Pipelines started and not finished. *)
Definition in_flight (l : Loop) : nat :=
  length (filter (fun t => is_running t = true) (tasks l)).

Definition observe (l : Loop) : Loop :=
  mkLoop (tasks l) (ready l) (semaphore l) (consumer l) (num_sites l)
         (Nat.max (peak l) (in_flight l)).

(** [if success: num_sites += 1] *)
Definition tally (res : Z * Z * Z) (num_sites : Z) : Z :=
  let '(_, _, success) := res in
  if (success =? 0)%Z then num_sites else (num_sites + 1)%Z.

(** The consumer from the head of its loop body for [tasks[i]]:
    [async with semaphore] takes a unit when there is one, [await task]
    returns at once when the task is done, and the exit of the [with]
    gives the unit back. *)
Fixpoint consume (fuel : nat) (i : nat) (l : Loop) : Loop :=
  match fuel with
  | O => mkLoop (tasks l) (ready l) (semaphore l) Completed (num_sites l) (peak l)
  | S fuel =>
      match tasks l !! i with
      | None =>
          mkLoop (tasks l) (ready l) (semaphore l) Completed (num_sites l) (peak l)
      | Some t =>
          match semaphore l with
          | O =>
              mkLoop (tasks l) (ready l) O (BlockedOnSemaphore i)
                     (num_sites l) (peak l)
          | S free =>
              match progress t with
              | Finished =>
                  consume fuel (S i)
                    (mkLoop (tasks l) (ready l) (S free) (consumer l)
                            (tally (result t) (num_sites l)) (peak l))
              | _ =>
                  mkLoop (tasks l) (ready l) free (Awaiting i)
                         (num_sites l) (peak l)
              end
          end
      end
  end.

(** The consumer is woken: the task it awaited is done. *)
Definition resume_consumer (l : Loop) : Loop :=
  match consumer l with
  | Awaiting i =>
      match tasks l !! i with
      | Some t =>
          consume (length (tasks l) - i) (S i)
            (mkLoop (tasks l) (ready l) (S (semaphore l)) (consumer l)
                    (tally (result t) (num_sites l)) (peak l))
      | None => l
      end
  | _ => l
  end.

(** One step of task [i]: to its next suspension or to its end; the end
    wakes the consumer if it awaits this task. *)
Definition step_task (i : nat) (l : Loop) : Loop :=
  match tasks l !! i with
  | None => l
  | Some t =>
      let set p := <[i := mkTask p (result t)]> (tasks l) in
      match progress t with
      | Pending (S k) | Running (S k) =>
          mkLoop (set (Running k)) (ready l) (semaphore l) (consumer l)
                 (num_sites l) (peak l)
      | Pending O | Running O =>
          let woken :=
            match consumer l with
            | Awaiting j => if (i =? j)%nat then [HConsumer] else []
            | _ => []
            end in
          mkLoop (set Finished) (ready l ++ woken)%list (semaphore l) (consumer l)
                 (num_sites l) (peak l)
      | Finished => l
      end
  end.

Definition run_handle (h : Handle) (l : Loop) : Loop :=
  observe (match h with
           | HTask i => step_task i l
           | HConsumer => resume_consumer l
           end).

(** The suspended tasks whose awaited operation has completed. *)
Fixpoint woken_tasks (io_done : nat -> bool) (i : nat) (ts : list Task) : list Handle :=
  match ts with
  | [] => []
  | t :: rest =>
      (if is_running t && io_done i then [HTask i] else [])
      ++ woken_tasks io_done (S i) rest
  end%list.

(** One iteration of the event loop: the callbacks that were ready, then
    those of the operations that completed meanwhile, each run once;
    what they schedule waits for the next iteration. *)
Definition iteration (io_done : nat -> bool) (l : Loop) : Loop :=
  let batch := (ready l ++ woken_tasks io_done 0 (tasks l))%list in
  fold_left (fun l h => run_handle h l) batch
    (mkLoop (tasks l) [] (semaphore l) (consumer l) (num_sites l) (peak l)).

(** [n] iterations; [io n i] tells whether the operation task [i] waits
    for has completed by iteration [n]. *)
Fixpoint iterations (io : nat -> nat -> bool) (start n : nat) (l : Loop) : Loop :=
  match n with
  | O => l
  | S n' => iterations io (S start) n' (iteration (io start) l)
  end.

(** The loop when the consumer first suspends: the [max_workers * 4]
    tasks of the batch are on the ready queue, in order, none has run.
    [behaviours] gives, for each domain of the batch, the number of
    suspensions of its pipeline and its result. *)
Definition start_batch (max_workers : nat) (behaviours : list (nat * (Z * Z * Z)))
    (num_sites : Z) : Loop :=
  let ts := map (fun b => mkTask (Pending (fst b)) (snd b)) behaviours in
  consume (S (length ts)) 0
    (mkLoop ts (map HTask (seq 0 (length ts))) max_workers Completed num_sites 0).

(** The number of domains a batch holds: [range(max_workers * 4)]. *)
Definition batch_size (max_workers : nat) : nat := max_workers * 4.

End CollectWebParallel.

(** ** The module [random] *)

(** Random draws are read off a tape of integers, so that every run of
    the generator is a function of its tape. *)
Module Random.

Definition R (A : Type) : Type := list nat -> outcome A * list nat.

Definition ret {A} (a : A) : R A := fun tape => (Ret a, tape).

Definition raise {A} (exn : string) : R A := fun tape => (Raise exn, tape).

Definition bind {A B} (m : R A) (k : A -> R B) : R B :=
  fun tape =>
    match m tape with
    | (Ret a, tape') => k a tape'
    | (Raise e, tape') => (Raise e, tape')
    end.

(** The next integer of the tape; an exhausted tape yields zeros. *)
Definition next : R nat :=
  fun tape =>
    match tape with
    | [] => (Ret O, [])
    | n :: rest => (Ret n, rest)
    end.

(** [random.random()]: a multiple of 2^-53 in [0, 1). *)
Definition random : R Float.t :=
  bind next (fun n => ret (Float.normal (Z.of_nat n mod 2 ^ 53) (-53))).

(** [random.randint(a, b)] for [a <= b]. *)
Definition randint (a b : nat) : R nat :=
  bind next (fun n => ret (a + n mod (b - a + 1))%nat).

(** [random.choice(seq)] *)
Definition choice {A} (seq : list A) : R A :=
  match seq with
  | [] => raise "IndexError"
  | _ =>
      bind next (fun n =>
        match seq !! (n mod length seq)%nat with
        | Some x => ret x
        | None => raise "IndexError"
        end)
  end.

(** [k] draws without replacement. *)
Fixpoint sample_from {A} (population : list A) (k : nat) : R (list A) :=
  match k with
  | O => ret []
  | S k' =>
      bind next (fun n =>
        let i := (n mod length population)%nat in
        match population !! i with
        | Some x =>
            bind (sample_from (delete i population) k') (fun rest => ret (x :: rest))
        | None => raise "ValueError"
        end)
  end.

(** [random.sample(population, k)] *)
Definition sample {A} (population : list A) (k : nat) : R (list A) :=
  if (length population <? k)%nat
  then raise "ValueError: Sample larger than population"
  else sample_from population k.

(** [itertools.accumulate] after its first element: the running total,
    or the exception of an addition. *)
Fixpoint accumulate_from (total : Number) (weights : list Number)
  : outcome (list Number) :=
  match weights with
  | [] => Ret []
  | w :: rest =>
      match Number.add total w with
      | Ret total =>
          match accumulate_from total rest with
          | Ret totals => Ret (total :: totals)
          | Raise e => Raise e
          end
      | Raise e => Raise e
      end
  end.

(** [list(itertools.accumulate(weights))]: the first weight comes out as
    it is. *)
Definition accumulate (weights : list Number) : outcome (list Number) :=
  match weights with
  | [] => Ret []
  | w :: rest =>
      match accumulate_from w rest with
      | Ret totals => Ret (w :: totals)
      | Raise e => Raise e
      end
  end.

(** [bisect.bisect(a, x, lo, hi)] *)
Fixpoint bisect (fuel : nat) (a : list Number) (x : Float.t) (lo hi : nat) : nat :=
  match fuel with
  | O => lo
  | S fuel =>
      if (lo <? hi)%nat then
        let mid := ((lo + hi) / 2)%nat in
        match a !! mid with
        | Some am =>
            if Number.float_lt x am then bisect fuel a x lo mid
            else bisect fuel a x (S mid) hi
        | None => lo
        end
      else lo
  end.

(** [random.choices(population, weights=weights, k=1)[0]] for two lists
    of one length. *)
Definition choices_one {A} (population : list A) (weights : list Number) : R A :=
  match accumulate weights with
  | Raise e => raise e
  | Ret cum_weights =>
      match last cum_weights with
      | None => raise "IndexError"
      | Some last_weight =>
          match Number.plus_zero last_weight with
          | Raise e => raise e
          | Ret total =>
              if Float.leb total Float.zero
              then raise "ValueError: Total of weights must be greater than zero"
              else if negb (Float.isfinite total)
              then raise "ValueError: Total of weights must be finite"
              else
                bind random (fun u =>
                  let hi := (length population - 1)%nat in
                  match population !! bisect (S hi) cum_weights (Float.mul u total) 0 hi with
                  | Some x => ret x
                  | None => raise "IndexError"
                  end)
          end
      end
  end.

End Random.

Declare Scope rand_scope.
Delimit Scope rand_scope with rand.
Notation "x <- m ;; k" := (Random.bind m (fun x => k))
  (at level 100, m at next level, right associativity) : rand_scope.

(** ** [collection/dns/domain_generator.py] *)

Module DomainGenerator.
Local Open Scope rand_scope.

(** The attributes of a [DomainGenerator], and what lies outside it. *)
Record t : Type := mk {
  known_domains : list string;
  dictionary_words : list string;
  known_tlds : list string;
  (** [str(rr)] of the first record of
      [dns.resolver.resolve(qname, "PTR")] for an address, [None] when
      the lookup raises or has no record *)
  ptr_lookup : string -> option string;
  (** [getattr(self, name)()] for a [name] that is none of the six
      strategies *)
  other_attribute : string -> Random.R string;
}.

Section WithGenerator.
Context (self : t).

(** [get_random_known_domain] *)
Definition get_random_known_domain : Random.R string :=
  Random.choice (known_domains self).

(** [domain_parts[-1] = random_tld] *)
Fixpoint set_last (parts : list string) (x : string) : list string :=
  match parts with
  | [] => []
  | [_] => [x]
  | p :: rest => p :: set_last rest x
  end.

(** [get_random_known_domain_tld] *)
Definition get_random_known_domain_tld : Random.R string :=
  domain <- get_random_known_domain ;;
  random_tld <- Random.choice (known_tlds self) ;;
  let domain_parts := Py.split_on "." domain in
  let domain_parts := set_last domain_parts random_tld in
  Random.ret (Py.join "." domain_parts).

(** [c.isalnum() or c in ["-", "."]] *)
Definition keeps (c : ascii) : bool :=
  Py.str_isalnum c || Ascii.eqb c "-" || Ascii.eqb c ".".

(** [string_to_domain], for a [str] of code points below 256 *)
Fixpoint string_to_domain (input_string : string) : string :=
  match input_string with
  | EmptyString => EmptyString
  | String c rest =>
      if keeps c then String (Py.str_lower_char c) (string_to_domain rest)
      else string_to_domain rest
  end.

(** [get_random_words_domain(min_words=1, max_words=3)] *)
Definition get_random_words_domain : Random.R string :=
  num_words <- Random.randint 1 3 ;;
  words <- Random.sample (dictionary_words self) num_words ;;
  separator <- Random.choice [""; "-"; "."] ;;
  tld <- Random.choice (known_tlds self) ;;
  Random.ret (string_to_domain (Py.join separator words) ++ "." ++ tld).

(** The characters of a string, as [random.sample] sees them. *)
Fixpoint chars (s : string) : list string :=
  match s with
  | EmptyString => []
  | String c rest => String c EmptyString :: chars rest
  end.

(** [get_random_chars_domain(min_chars=1, max_chars=10)] *)
Definition get_random_chars_domain : Random.R string :=
  num_chars <- Random.randint 1 10 ;;
  characters <- Random.sample (chars "abcdefghijklmnopqrstuvwxyz") num_chars ;;
  tld <- Random.choice (known_tlds self) ;;
  Random.ret (Py.join "" characters ++ "." ++ tld).

(** [word[: -n]]: empty when [n] is zero. *)
Definition drop_suffix (word : string) (n : nat) : string :=
  match n with
  | O => ""
  | _ => Py.take_str (String.length word - n) word
  end.

(** [get_random_domain_tld_suffix] *)
Definition get_random_domain_tld_suffix : Random.R string :=
  tld <- Random.choice (known_tlds self) ;;
  let valid_words :=
    filter (fun word =>
              Py.endswith word tld
              && (String.length tld <? String.length word)%nat = true)
           (dictionary_words self) in
  match valid_words with
  | [] => get_random_words_domain
  | _ =>
      word <- Random.choice valid_words ;;
      let subword := drop_suffix word (String.length tld) in
      Random.ret (subword ++ "." ++ tld)
  end.

(** [get_random_ipv4_domain] *)
Definition get_random_ipv4_domain : Random.R string :=
  a <- Random.randint 0 255 ;;
  b <- Random.randint 0 255 ;;
  c <- Random.randint 0 255 ;;
  d <- Random.randint 0 255 ;;
  let ipv4_address := Py.join "." [pretty a; pretty b; pretty c; pretty d] in
  match ptr_lookup self ipv4_address with
  | Some name => Random.ret name
  | None => get_random_known_domain
  end.

(** [getattr(self, method)()] *)
Definition call_method (method : string) : Random.R string :=
  if String.eqb method "get_random_known_domain" then get_random_known_domain
  else if String.eqb method "get_random_known_domain_tld" then get_random_known_domain_tld
  else if String.eqb method "get_random_words_domain" then get_random_words_domain
  else if String.eqb method "get_random_chars_domain" then get_random_chars_domain
  else if String.eqb method "get_random_domain_tld_suffix" then get_random_domain_tld_suffix
  else if String.eqb method "get_random_ipv4_domain" then get_random_ipv4_domain
  else other_attribute self method.

(** The [while True] loop of [generate], for at most [fuel] draws;
    [None] when the loop is still going after them. *)
Fixpoint generate_loop (fuel : nat) (method_weights : list (string * Number))
  : Random.R (option string) :=
  match fuel with
  | O => Random.ret None
  | S fuel =>
      method <- Random.choices_one (map fst method_weights) (map snd method_weights) ;;
      fun tape =>
        match call_method method tape with
        | (Ret domain, tape') => (Ret (Some domain), tape')
        | (Raise _, tape') => generate_loop fuel method_weights tape'
        end
  end.

(** [generate(method_weights)]: [method_weights or CONFIG.domain_weights]. *)
Definition generate (CONFIG : Config) (fuel : nat)
    (method_weights : option (list (string * Number))) : Random.R (option string) :=
  let method_weights :=
    match method_weights with
    | None | Some [] => domain_weights CONFIG
    | Some w => w
    end in
  generate_loop fuel method_weights.

End WithGenerator.
End DomainGenerator.

(** ** A reference instance of the outside world

    Small but complete stand-ins for the libraries and for the network,
    on which the properties below are exercised. *)

Module Ref.

(** A digest of the right shape: 128 characters. *)
Definition hexdigest (b : bytes) : string :=
  Py.take_str 128 (b ++ String.concat "" (replicate 128 "0")).

(** A container format with a two-byte magic number. *)
Definition compress (b : bytes) : bytes := "XZ" ++ b.

Definition decompress (b : bytes) : option bytes :=
  match b with
  | String "X" (String "Z" rest) => Some rest
  | _ => None
  end.

(** UTF-8 restricted to ASCII: a byte of 128 or more does not decode. *)
Fixpoint is_ascii_text (s : string) : bool :=
  match s with
  | EmptyString => true
  | String c rest => (nat_of_ascii c <? 128)%nat && is_ascii_text rest
  end.

(** Base64 stand-in: two letters a-p per byte. *)
Definition nibble (n : nat) : ascii := ascii_of_nat (97 + n).

Fixpoint b16encode (b : bytes) : bytes :=
  match b with
  | EmptyString => EmptyString
  | String c rest =>
      String (nibble (nat_of_ascii c / 16))
        (String (nibble (nat_of_ascii c mod 16)) (b16encode rest))
  end.

Definition unnibble (c : ascii) : option nat :=
  let n := nat_of_ascii c in
  if (97 <=? n)%nat && (n <? 113)%nat then Some (n - 97)%nat else None.

Fixpoint b16decode (s : string) : option bytes :=
  match s with
  | EmptyString => Some EmptyString
  | String hi (String lo rest) =>
      match unnibble hi, unnibble lo, b16decode rest with
      | Some h, Some l, Some r => Some (String (ascii_of_nat (h * 16 + l)) r)
      | _, _, _ => None
      end
  | String _ EmptyString => None
  end.

Definition decode_ascii (b : bytes) : option string :=
  if is_ascii_text b then Some b else None.

(** Dates are kept as text, written with a leading [T]. *)
Definition iso_of (d : string) : string := String "T" d.

Definition of_iso (s : string) : option string :=
  match s with
  | String "T" d => Some d
  | _ => None
  end.

(** [s] up to the first of the characters [stops]. *)
Fixpoint until (stops : list ascii) (s : string) : string :=
  match s with
  | EmptyString => EmptyString
  | String c rest =>
      if existsb (Ascii.eqb c) stops then EmptyString
      else String c (until stops rest)
  end.

(** [scheme://netloc/path?query#fragment] *)
Definition parse_url (url : string) : ParseResult :=
  match Py.find "://" url 0 with
  | Some i =>
      let rest := Py.drop_str (i + 3) url in
      let netloc := until ["/"; "?"; "#"]%char rest in
      let after := Py.drop_str (String.length netloc) rest in
      Build_ParseResult (Py.take_str i url) netloc (until ["?"; "#"]%char after)
  | None => Build_ParseResult "" "" (until ["?"; "#"]%char url)
  end.

(** The digits at the head of [s], as a number. *)
Fixpoint digits (acc : nat) (s : string) : nat :=
  match s with
  | String c rest =>
      if Py.is_digit c then digits (acc * 10 + (nat_of_ascii c - 48)) rest
      else acc
  | EmptyString => acc
  end.

(** A [[] of an address that no []] closes. *)
Definition unclosed_bracket (url : string) : bool :=
  match Py.find "[" url 0, Py.find "]" url 0 with
  | Some _, None => true
  | _, _ => false
  end.

Definition crawl_delay (text : string) : option Q :=
  match Py.find "Crawl-delay: " text 0 with
  | Some i => Some (inject_Z (Z.of_nat (digits 0 (Py.drop_str (i + 13) text))))
  | None => None
  end.

Definition site_maps (text : string) : option (list string) :=
  match Py.find "Sitemap: " text 0 with
  | Some i => Some [until ["010"]%char (Py.drop_str (i + 9) text)]
  | None => None
  end.

Definition lib : PyLib := {|
  datetime := string;
  blake2b_hexdigest := hexdigest;
  lzma_compress := compress;
  lzma_decompress := decompress;
  b64encode := b16encode;
  b64decode := b16decode;
  utf8_encode := fun s => s;
  utf8_decode := decode_ascii;
  isoformat := iso_of;
  fromisoformat := of_iso;
  dateutil_parse := fun s => Some s;
  urlparse := parse_url;
  urlparse_raises := unclosed_bracket;
  robots_parse_raises := fun _ => false;
  robots_crawl_delay := crawl_delay;
  robots_site_maps := site_maps;
  validate_str := fun j => match j with JStr s => Some s | _ => None end;
  validate_int :=
    fun j =>
      match j with
      | JInt z => Some z
      | JBool b => Some (if b then 1 else 0)%Z
      | _ => None
      end;
  validate_dict := fun j => match j with JObj members => Some members | _ => None end;
|}.

Definition config : Config := default_config.

Definition nl : string := String "010" "".

Definition robots_txt : bytes :=
  "User-agent: *" ++ nl ++ "Crawl-delay: 999999" ++ nl
  ++ "Sitemap: https://example.com/sitemap.xml" ++ nl.

Definition home_page : bytes :=
  "<html><noscript>Please enable JavaScript</noscript></html>".

Definition rendered_page : bytes := "<html><body>rendered</body></html>".

(** A page with two [<noscript>] blocks, the second of which asks for
    JavaScript. *)
Definition two_blocks : bytes :=
  "<noscript>a</noscript><noscript>javascript</noscript>".

Definition respond (status : Z) (body : bytes) : Response := {|
  status_code := status;
  response_content := body;
  response_headers := [("Content-Type", "text/html")];
  server_addr := None;
|}.

(** One live host, [example.com], that serves a robots.txt, a home page
    that asks for JavaScript, the same page under [/humans.txt] with
    status 404, and [two_blocks] under [/ai.txt]; every other request
    fails. *)
Definition world : World lib :=
  Build_World lib
    (fun domain =>
       if String.eqb domain "example.com" then Some "93.184.216.34" else None)
    (fun _ port => (port =? 443)%Z)
    (fun _ url =>
       if String.eqb url "https://example.com/robots.txt"
       then Some (respond 200 robots_txt)
       else if String.eqb url "https://example.com/"
       then Some (respond 200 home_page)
       else if String.eqb url "https://example.com/humans.txt"
       then Some (respond 404 home_page)
       else if String.eqb url "https://example.com/ai.txt"
       then Some (respond 200 two_blocks)
       else None)
    (fun _ _ => Some rendered_page)
    (fun n => pretty n)
    (fun n => n).


(** The resource of [tests/test_web_resource.py]. *)
Definition sample_web_resource : WebResource.t (L := lib) :=
  WebResource.mk (L := lib) "https://example.com" "123.123.123.123" 200 "123456" 100
    "Sample content" "text/html" [] "2024-08-01T12:00:00+00:00" None.

(** The state of a fresh process with an empty cache. *)
Definition init : State := mkState ∅ [] 0 0 [].

(** *** Runs in the reference world, and what they return *)

(** The first fetch of the home page, by a fresh process. *)
Definition home_fetch : outcome (option (WebResource.t (L := lib))) * State :=
  WebResourceCollector.fetch_resource world 0 "https://example.com/" None init.

Definition home_resource : WebResource.t (L := lib) :=
  Eval vm_compute in
    match fst home_fetch with Ret (Some r) => r | _ => sample_web_resource end.

(** The first fetch of [/ai.txt]. *)
Definition ai_fetch : outcome (option (WebResource.t (L := lib))) * State :=
  WebResourceCollector.fetch_resource world 0 "https://example.com/ai.txt" None init.

Definition ai_resource : WebResource.t (L := lib) :=
  Eval vm_compute in
    match fst ai_fetch with Ret (Some r) => r | _ => sample_web_resource end.

(** The liveness probe of [example.com]. *)
Definition probe : outcome (option (string * string)) * State :=
  WebResourceCollector.check_host world "example.com" init.

End Ref.

(** ** [storage/s3.py] and [tasks/get_resource.py] *)

Module S3.

(** [DEFAULT_CACHE_PATH = Path().home() / ".alea" / "web-survey" / "cache"] *)
Definition DEFAULT_CACHE_PATH : list string := [".alea"; "web-survey"; "cache"].

(** The objects of the bucket [DEFAULT_S3_BUCKET] by key, as the JSON
    documents they hold. *)
Definition Bucket : Type := gmap string json.

(** [p.relative_to(base)] *)
Fixpoint relative_to (p base : list string) : outcome (list string) :=
  match base, p with
  | [], _ => Ret p
  | b :: base', c :: p' =>
      if String.eqb b c then relative_to p' base' else Raise "ValueError"
  | _ :: _, [] => Raise "ValueError"
  end.

(** [p.as_posix()] of a relative path. *)
Definition as_posix (p : list string) : string :=
  match p with
  | [] => "."
  | _ => Py.join "/" p
  end.

End S3.

Module GetResource.
Section WithLib.
Context {L : PyLib}.

(** [get_resource(url)]: the document is read from the cache file of
    the URL if there is one, and else downloaded from the bucket under
    the key of that file; [download_fileobj] raises for a key that the
    bucket does not have. *)
Definition get_resource (bucket : S3.Bucket) (url : string) : Eff.M bytes :=
  let resource_path := WebResource.get_cache_path url None in
  files <- Eff.get_fs ;;
  resource_data <-
    match files !! resource_path with
    | Some file_data => Eff.ret file_data
    | None =>
        relative <- Eff.lift (S3.relative_to resource_path S3.DEFAULT_CACHE_PATH) ;;
        let s3_key := S3.as_posix relative in
        Eff.of_option "botocore.exceptions.ClientError" (bucket !! s3_key)
    end ;;
  c <- Eff.lift (Json.getitem resource_data "content") ;;
  c <- Eff.lift (match c with JStr s => Ret s | _ => Raise "TypeError" end) ;;
  content <- Eff.of_option "binascii.Error" (b64decode c) ;;
  Eff.of_option "LZMAError" (lzma_decompress content).

End WithLib.
End GetResource.

(** ** [storage/s3.py]: [copy_object], [get_completed_paths]; [tasks/push_s3.py] *)

Module PushS3.

(** The files below the user's home and the objects of the bucket.  A
    directory is there while a file lies below it. *)
Record Store : Type := mkStore {
  local : gmap (list string) json;
  remote : S3.Bucket;
}.

(** [p.exists()]: a file, or a directory with a file below it. *)
Definition path_exists (files : gmap (list string) json) (p : list string) : bool :=
  bool_decide (Exists (fun q => p `prefix_of` q) (map fst (map_to_list files))).

(** [tuple(d.iterdir())]: the entries of the directory [d], in the
    order of the map's keys. *)
Definition iterdir (files : gmap (list string) json) (d : list string)
  : list (list string) :=
  remove_dups
    (omap (fun q => if bool_decide (d `prefix_of` q) && (length d <? length q)%nat
                    then Some (take (S (length d)) q) else None)
          (map fst (map_to_list files))).

Section WithS3.
(** Whether [s3_client.put_object] succeeds for a key. *)
Context (put_ok : string -> bool).
(** Whether the directory of the cache is there when no file lies below
    it. *)
Context (empty_cache_exists : bool).

(** [copy_object(source_path, s3_client, dest_bucket, dest_key,
    remove_after)]: the exception of a failed step is logged and raised
    again. *)
Definition copy_object (source_path : list string) (dest_key : string)
    (remove_after : bool) (s : Store) : outcome unit * Store :=
  match local s !! source_path with
  | None => (Raise "OSError", s)
  | Some source_data =>
      if put_ok dest_key
      then (Ret tt,
            mkStore (if remove_after then delete source_path (local s) else local s)
                    (<[dest_key := source_data]> (remote s)))
      else (Raise "botocore.exceptions.ClientError", s)
  end.

(** The loop [for target_path in path_targets] of [push_cache]. *)
Fixpoint push_targets (path_targets : list (list string)) (remove_after : bool)
    (s : Store) : outcome unit * Store :=
  match path_targets with
  | [] => (Ret tt, s)
  | target_path :: rest =>
      match S3.relative_to target_path S3.DEFAULT_CACHE_PATH with
      | Raise e => (Raise e, s)
      | Ret relative =>
          match copy_object target_path (S3.as_posix relative) remove_after s with
          | (Ret _, s') => push_targets rest remove_after s'
          | (Raise e, s') => (Raise e, s')
          end
      end
  end.

(** The loop [for path_targets in get_completed_paths()]: the generator
    looks at a directory when the loop asks for the next tuple. *)
Fixpoint push_domains (domain_paths : list (list string)) (remove_after : bool)
    (s : Store) : outcome unit * Store :=
  match domain_paths with
  | [] => (Ret tt, s)
  | domain_path :: rest =>
      if path_exists (local s) (domain_path ++ ["content.json"])
      then
        match push_targets (iterdir (local s) domain_path) remove_after s with
        | (Ret _, s') => push_domains rest remove_after s'
        | (Raise e, s') => (Raise e, s')
        end
      else push_domains rest remove_after s
  end.

(** [push_cache(remove_after)]: [True] unless an exception reached the
    outer [try], the first of which is the [FileNotFoundError] of
    [cache_path.iterdir()] when there is no cache.  Removing the emptied
    directories changes no file. *)
Definition push_cache (remove_after : bool) (s : Store) : bool * Store :=
  if negb (path_exists (local s) S3.DEFAULT_CACHE_PATH) && negb empty_cache_exists
  then (false, s)
  else
    match push_domains (iterdir (local s) S3.DEFAULT_CACHE_PATH) remove_after s with
    | (Ret _, s') => (true, s')
    | (Raise _, s') => (false, s')
    end.

End WithS3.
End PushS3.

(** ** [tasks/collect_web.py] *)

Module CollectWeb.
Section WithWorld.
Context {L : PyLib} (W : World L) (CONFIG : Config).

(** What one passage through the [try] block of the loop of
    [collect_sites] came to. *)
Inductive Passage : Type :=
| Counted      (** the crawl ended, [num_sites] was incremented *)
| Failed       (** an exception reached [except Exception] *)
| Drawing.     (** [generate()] is still drawing *)

(** One passage, for a loop that has not stopped:
    [domain_generator.generate().rstrip(".")], then the crawl of the
    domain, drained. *)
Definition passage (domain_generator : DomainGenerator.t) (gen_fuel : nat)
    (tape : list nat) (st : State) : Passage * list nat * State :=
  match DomainGenerator.generate domain_generator CONFIG gen_fuel None tape with
  | (Ret None, tape') => (Drawing, tape', st)
  | (Raise _, tape') => (Failed, tape', st)
  | (Ret (Some domain), tape') =>
      let domain := Py.rstrip_dot domain in
      match WebResourceCollector.get_resources W CONFIG domain None st with
      | (Ret _, st') => (Counted, tape', st')
      | (Raise _, st') => (Failed, tape', st')
      end
  end.

(** [max_sites is not None and num_sites >= max_sites] *)
Definition reached (max_sites : option Z) (num_sites : Z) : bool :=
  match max_sites with
  | Some m => (m <=? num_sites)%Z
  | None => false
  end.

(** The [while True] loop of [collect_sites], for at most [fuel]
    passages: the value of [num_sites] at the [break], or [None] while
    the loop is going. *)
Fixpoint collect_loop (fuel : nat) (domain_generator : DomainGenerator.t)
    (gen_fuel : nat) (max_sites : option Z) (num_sites : Z)
    (tape : list nat) (st : State) : option Z * list nat * State :=
  match fuel with
  | O => (None, tape, st)
  | S fuel =>
      if reached max_sites num_sites then (Some num_sites, tape, st)
      else
        match passage domain_generator gen_fuel tape st with
        | (Counted, tape', st') =>
            collect_loop fuel domain_generator gen_fuel max_sites (num_sites + 1)
              tape' st'
        | (Failed, tape', st') =>
            collect_loop fuel domain_generator gen_fuel max_sites num_sites tape' st'
        | (Drawing, tape', st') => (None, tape', st')
        end
  end.

(** [collect_sites(max_sites)]: [domain_generator] is [None] when
    [DomainGenerator()] raises (it reads the trie, the dictionary and
    the TLD list).  The value is what is returned, [None] while the
    call is going. *)
Definition collect_sites (fuel : nat) (domain_generator : option DomainGenerator.t)
    (gen_fuel : nat) (max_sites : option Z) (tape : list nat) (st : State)
  : option bool * list nat * State :=
  match domain_generator with
  | None => (Some false, tape, st)
  | Some domain_generator =>
      match collect_loop fuel domain_generator gen_fuel max_sites 0 tape st with
      | (Some _, tape', st') => (Some true, tape', st')
      | (None, tape', st') => (None, tape', st')
      end
  end.

End WithWorld.
End CollectWeb.

(** ** [tasks/collect_web_parallel.py]: the loop of batches *)

Module CollectSitesParallel.

(** [max_sites = max_sites or 1_000_000] *)
Definition target (max_sites : option Z) : Z :=
  match max_sites with
  | None | Some 0%Z => 1000000%Z
  | Some n => n
  end.

(** [num_sites >= max_sites] *)
Definition reached (max_sites : option Z) (num_sites : Z) : bool :=
  (target max_sites <=? num_sites)%Z.

(** [[domain_generator.generate().rstrip(".") for _ in range(n)]];
    [None] while [generate()] is still drawing. *)
Fixpoint draw_batch (domain_generator : DomainGenerator.t) (CONFIG : Config)
    (gen_fuel n : nat) : Random.R (option (list string)) :=
  match n with
  | O => Random.ret (Some [])
  | S n =>
      Random.bind (DomainGenerator.generate domain_generator CONFIG gen_fuel None)
        (fun domain =>
           match domain with
           | None => Random.ret None
           | Some domain =>
               Random.bind (draw_batch domain_generator CONFIG gen_fuel n)
                 (fun rest =>
                    Random.ret (option_map (cons (Py.rstrip_dot domain)) rest))
           end)
  end.

(** What one passage of the [while True] loop of
    [collect_sites_parallel] does before the tasks are made. *)
Inductive Passage : Type :=
| Break                           (** the target is reached: [return True] *)
| Raised                          (** [generate()] raised: [return False] *)
| Drawing                         (** [generate()] is still drawing *)
| Batch (domains : list string).  (** the candidates of the next batch *)

Definition passage (domain_generator : DomainGenerator.t) (CONFIG : Config)
    (gen_fuel max_workers : nat) (max_sites : option Z) (num_sites : Z)
    (tape : list nat) : Passage * list nat :=
  if reached max_sites num_sites then (Break, tape)
  else
    match draw_batch domain_generator CONFIG gen_fuel
            (CollectWebParallel.batch_size max_workers) tape with
    | (Raise _, tape') => (Raised, tape')
    | (Ret None, tape') => (Drawing, tape')
    | (Ret (Some domains), tape') => (Batch domains, tape')
    end.

End CollectSitesParallel.

(** ** [tasks/collect_web.py]: [size_to_str] *)

Module SizeToStr.

(** [float(num_bytes)]: the nearest double, ties to even, given by the
    integer it stands for; [None] for the [OverflowError] of an integer
    beyond the doubles. *)
Definition float_of_int (num_bytes : Z) : option Z :=
  let a := Z.abs num_bytes in
  let bits := if (a =? 0)%Z then 0%Z else (Z.log2 a + 1)%Z in
  let v :=
    if (bits <=? 53)%Z then a
    else
      let sh := (bits - 53)%Z in
      let q := (a / 2 ^ sh)%Z in
      let r := (a mod 2 ^ sh)%Z in
      let half := (2 ^ (sh - 1))%Z in
      ((if (half <? r)%Z || ((r =? half)%Z && Z.odd q) then q + 1 else q) * 2 ^ sh)%Z in
  if (2 ^ 1024 <=? v)%Z then None else Some (Z.sgn num_bytes * v)%Z.

(** The double [byte_result] after [j] divisions by [1024.0] is
    [m / 1024^j] for the integer [m] the loop started from: these
    divisions are exact.  [tenths m j] is that value without its sign,
    rounded to a whole number of tenths, ties to even, as [.1f]
    rounds. *)
Definition tenths (m : Z) (j : nat) : Z :=
  let d := (1024 ^ Z.of_nat j)%Z in
  let q := (10 * Z.abs m / d)%Z in
  let r := ((10 * Z.abs m) mod d)%Z in
  if (d <? 2 * r)%Z || ((2 * r =? d)%Z && Z.odd q) then (q + 1)%Z else q.

(** [f"{byte_result:3.1f}"]; the width of 3 never pads. *)
Definition format_1f (m : Z) (j : nat) : string :=
  let t := tenths m j in
  (if (m <? 0)%Z then "-" else "") ++ pretty (t / 10)%Z ++ "." ++ pretty (t mod 10)%Z.

Definition units : list string := ["B"; "KB"; "MB"; "GB"; "TB"; "PB"; "EB"; "ZB"].

(** The loop over the units, at the [j]-th of them. *)
Fixpoint scan (m : Z) (j : nat) (remaining : list string) : string :=
  match remaining with
  | [] => format_1f m j ++ " YB"
  | unit :: rest =>
      if (Z.abs m <? 1024 ^ Z.of_nat (S j))%Z
      then format_1f m j ++ " " ++ unit
      else scan m (S j) rest
  end.

(** [size_to_str(num_bytes)] *)
Definition size_to_str (num_bytes : Z) : outcome string :=
  match float_of_int num_bytes with
  | None => Raise "OverflowError: int too large to convert to float"
  | Some byte_result => Ret (scan byte_result 0 units)
  end.

End SizeToStr.

(** * Properties *)

(** ** The reference libraries keep the promises of [PyLibLaws] *)

Module RefFacts.

Lemma take_str_length n s :
  (n <= String.length s)%nat -> String.length (Py.take_str n s) = n.
Proof.
  revert s. induction n as [|n IH]; intros [|c s] Hle; simpl in *;
    try reflexivity; try lia.
  f_equal. apply IH. lia.
Qed.

Lemma string_length_app (s1 s2 : string) :
  String.length (s1 ++ s2) = (String.length s1 + String.length s2)%nat.
Proof. induction s1 as [|c s1 IH]; simpl; [reflexivity | now rewrite IH]. Qed.

Lemma hexdigest_length b : String.length (Ref.hexdigest b) = 128%nat.
Proof.
  unfold Ref.hexdigest. apply take_str_length.
  rewrite string_length_app.
  assert (String.length (String.concat "" (replicate 128 "0")) = 128%nat) as ->
    by (vm_compute; reflexivity).
  lia.
Qed.

Lemma b16_char (c : ascii) :
  Ref.unnibble (Ref.nibble (nat_of_ascii c / 16)) = Some (nat_of_ascii c / 16)%nat
  /\ Ref.unnibble (Ref.nibble (nat_of_ascii c mod 16)) = Some (nat_of_ascii c mod 16)%nat
  /\ ascii_of_nat (nat_of_ascii c / 16 * 16 + nat_of_ascii c mod 16) = c
  /\ (nat_of_ascii (Ref.nibble (nat_of_ascii c / 16)) <? 128)%nat = true
  /\ (nat_of_ascii (Ref.nibble (nat_of_ascii c mod 16)) <? 128)%nat = true.
Proof.
  destruct c as [[] [] [] [] [] [] [] []]; vm_compute; repeat split.
Qed.

Lemma b16_roundtrip b : Ref.b16decode (Ref.b16encode b) = Some b.
Proof.
  induction b as [|c b IH]; [reflexivity|].
  destruct (b16_char c) as (H1 & H2 & H3 & _).
  cbn [Ref.b16encode Ref.b16decode]. rewrite H1, H2, IH, H3. reflexivity.
Qed.

Lemma b16_is_text b : Ref.decode_ascii (Ref.b16encode b) = Some (Ref.b16encode b).
Proof.
  unfold Ref.decode_ascii.
  assert (Ref.is_ascii_text (Ref.b16encode b) = true) as ->; [|reflexivity].
  induction b as [|c b IH]; [reflexivity|].
  destruct (b16_char c) as (_ & _ & _ & H4 & H5).
  cbn [Ref.b16encode Ref.is_ascii_text]. rewrite H4, H5, IH. reflexivity.
Qed.

#[export] Instance lib_laws : PyLibLaws Ref.lib.
Proof.
  split; cbn.
  - reflexivity.
  - apply b16_is_text.
  - apply b16_roundtrip.
  - reflexivity.
  - discriminate.
  - apply hexdigest_length.
  - reflexivity.
  - reflexivity.
  - reflexivity.
Qed.

End RefFacts.

(** ** Reasoning about effects *)

Module EffFacts.

(** Every run of [m] relates the state before to the state after. *)
Definition respects (R : State -> State -> Prop) {A} (m : Eff.M A) : Prop :=
  forall st, R st (snd (m st)).

(** A relation on states that the bookkeeping of the monad keeps, and
    that emitting the events [okE] and writing the files [okW] keeps. *)
Class Frame (R : State -> State -> Prop)
    (okE : Event -> Prop) (okW : list string -> Prop) : Prop := {
  frame_refl : forall st, R st st;
  frame_trans : forall a b c, R a b -> R b c -> R a c;
  frame_tick : forall st, R st (snd (Eff.tick st));
  frame_client : forall st, R st (snd (Eff.new_client st));
  frame_mark : forall c st,
    R st (mkState (fs st) (c :: awaited st) (next_client st) (clock st) (trace st));
  frame_emit : forall e st, okE e -> R st (snd (Eff.emit e st));
  frame_write : forall p doc st, okW p -> R st (snd (Eff.write_file p doc st));
}.

(** A run is its outcome and its final state. *)
Lemma run_eq {A S} (run : outcome A * S) (o : outcome A) :
  fst run = o -> run = (o, snd run).
Proof. intros <-. now destruct run. Qed.

Section Combinators.
Context {R : State -> State -> Prop} {okE : Event -> Prop}
        {okW : list string -> Prop} {F : Frame R okE okW}.

Lemma respects_ret {A} (a : A) : respects R (Eff.ret a).
Proof. intros st. apply frame_refl. Qed.

Lemma respects_raise {A} e : respects R (@Eff.raise A e).
Proof. intros st. apply frame_refl. Qed.

Lemma respects_lift {A} (o : outcome A) : respects R (Eff.lift o).
Proof. intros st. apply frame_refl. Qed.

Lemma respects_of_option {A} e (o : option A) : respects R (Eff.of_option e o).
Proof. destruct o; [apply respects_ret | apply respects_raise]. Qed.

Lemma respects_get_fs : respects R Eff.get_fs.
Proof. intros st. apply frame_refl. Qed.

Lemma respects_tick : respects R Eff.tick.
Proof. intros st. apply frame_tick. Qed.

Lemma respects_new_client : respects R Eff.new_client.
Proof. intros st. apply frame_client. Qed.

Lemma respects_emit e : okE e -> respects R (Eff.emit e).
Proof. intros He st. now apply frame_emit. Qed.

Lemma respects_write_file p doc : okW p -> respects R (Eff.write_file p doc).
Proof. intros Hp st. now apply frame_write. Qed.

Lemma respects_bind {A B} (m : Eff.M A) (k : A -> Eff.M B) :
  respects R m -> (forall a, respects R (k a)) -> respects R (Eff.bind m k).
Proof.
  intros Hm Hk st. unfold Eff.bind.
  specialize (Hm st). destruct (m st) as [[a|e] st1]; cbn in *.
  - eapply frame_trans; [exact Hm | apply Hk].
  - exact Hm.
Qed.

Lemma respects_try_except {A} (m : Eff.M A) (h : string -> Eff.M A) :
  respects R m -> (forall e, respects R (h e)) -> respects R (Eff.try_except m h).
Proof.
  intros Hm Hh st. unfold Eff.try_except.
  specialize (Hm st). destruct (m st) as [[a|e] st1]; cbn in *.
  - exact Hm.
  - eapply frame_trans; [exact Hm | apply Hh].
Qed.

Lemma respects_await {A} c (body : Eff.M A) :
  respects R body -> respects R (Eff.await c body).
Proof.
  intros Hb st. unfold Eff.await. case_bool_decide; cbn.
  - apply frame_refl.
  - eapply frame_trans; [apply (frame_mark c) | apply Hb].
Qed.

End Combinators.

(** Break a goal [respects R m] along the structure of [m]. *)
Ltac frame_step :=
  first
    [ apply respects_ret | apply respects_raise | apply respects_lift
    | apply respects_of_option | apply respects_get_fs | apply respects_tick
    | apply respects_new_client
    | apply respects_bind; [|intros ?]
    | apply respects_try_except; [|intros ?]
    | apply respects_await
    | match goal with
      | |- respects _ (match ?x with _ => _ end) => destruct x
      | |- respects _ (if ?b then _ else _) => destruct b
      end
    | progress cbv zeta ].

Ltac frame := repeat frame_step.

(** The coroutines awaited so far are never forgotten. *)
Definition awaited_grows (st st' : State) : Prop :=
  forall c, c ∈ awaited st -> c ∈ awaited st'.

#[export] Instance awaited_grows_frame :
  Frame awaited_grows (fun _ => True) (fun _ => True).
Proof.
  split; unfold awaited_grows; cbn; try (intros; assumption).
  - intros a b c Hab Hbc x Hx. auto.
  - intros c st x Hx. rewrite elem_of_cons. now right.
Qed.

(** The politeness sleeps of a trace, latest first. *)
Fixpoint sleeps (tr : list Event) : list Q :=
  match tr with
  | [] => []
  | ESleep q :: rest => q :: sleeps rest
  | _ :: rest => sleeps rest
  end.

Definition is_sleep (e : Event) : Prop :=
  match e with ESleep _ => True | _ => False end.

Definition sleeps_kept (st st' : State) : Prop :=
  sleeps (trace st') = sleeps (trace st).

#[export] Instance sleeps_kept_frame :
  Frame sleeps_kept (fun e => ~ is_sleep e) (fun _ => True).
Proof.
  split; unfold sleeps_kept; cbn; try (intros; reflexivity).
  - intros a b c Hab Hbc. congruence.
  - intros [] st He; cbn; try reflexivity. exfalso. apply He. exact I.
Qed.

(** The network events of a trace. *)
Definition is_network (e : Event) : Prop :=
  match e with
  | EResolve _ | EConnect _ _ | EGet _ | ERender _ => True
  | _ => False
  end.

(** Files named [content.json] are left as they are. *)
Definition index_kept (st st' : State) : Prop :=
  forall p, last p = Some "content.json" -> fs st' !! p = fs st !! p.

#[export] Instance index_kept_frame :
  Frame index_kept (fun _ => True) (fun p => last p <> Some "content.json").
Proof.
  split; unfold index_kept; cbn; try (intros; reflexivity).
  - intros a b c Hab Hbc p Hp. rewrite Hbc, Hab; auto.
  - intros p doc st Hp q Hq. apply lookup_insert_ne. congruence.
Qed.

End EffFacts.

(** ** The cache entry of a resource *)

Module WebResourceFacts.
Import EffFacts.
Section WithLib.
Context {L : PyLib} {Laws : PyLibLaws L}.

(** The document [save] writes for [r]. *)
Definition entry (r : WebResource.t) : json :=
  WebResource.file_data_of r (b64encode (lzma_compress (WebResource.content r))).

Lemma truthy_isoformat d : Json.truthy (JStr (isoformat d)) = true.
Proof.
  cbn. destruct (String.eqb_spec (isoformat d) "") as [E|_]; [|reflexivity].
  now apply iso_nonempty in E.
Qed.

(** Reading back what [save] wrote gives the resource again. *)
Lemma of_file_data_entry r st :
  WebResource.of_file_data (entry r) st = (Ret r, st).
Proof.
  destruct r as [u i s h z c ct hd dr dm].
  unfold WebResource.of_file_data, entry, WebResource.file_data_of.
  unfold WebResource.as_str, WebResource.as_int, WebResource.as_dict.
  unfold Eff.bind, Eff.lift, Eff.of_option, Eff.ret. cbn.
  rewrite b64_roundtrip, lzma_roundtrip. cbn.
  rewrite iso_roundtrip.
  destruct dm as [d|]; cbn.
  - pose proof (truthy_isoformat d) as Ht. cbn in Ht. rewrite Ht.
    cbn. rewrite iso_roundtrip, !validate_str_id, !validate_int_id, validate_dict_id.
    reflexivity.
  - rewrite !validate_str_id, !validate_int_id, validate_dict_id. reflexivity.
Qed.

Lemma save_spec r p st :
  WebResource.save r p st
  = (Ret tt, mkState (<[p := entry r]> (fs st)) (awaited st)
                     (next_client st) (clock st) (trace st)).
Proof.
  unfold WebResource.save, Eff.bind, Eff.of_option.
  rewrite b64_is_text. reflexivity.
Qed.

Lemma from_file_entry r p st :
  fs st !! p = Some (entry r) -> WebResource.from_file p st = (Ret r, st).
Proof.
  intros Hp. unfold WebResource.from_file, Eff.bind, Eff.get_fs.
  rewrite Hp. apply of_file_data_entry.
Qed.

Lemma load_from_cache_entry r url cp st :
  fs st !! WebResource.get_cache_path url cp = Some (entry r) ->
  WebResource.load_from_cache url cp st = (Ret (Some r), st).
Proof.
  intros Hp. unfold WebResource.load_from_cache, Eff.bind, Eff.get_fs.
  rewrite Hp. rewrite (from_file_entry r _ _ Hp). reflexivity.
Qed.

Lemma load_from_cache_miss url cp st :
  fs st !! WebResource.get_cache_path url cp = None ->
  WebResource.load_from_cache url cp st = (Ret None, st).
Proof.
  intros Hp. unfold WebResource.load_from_cache, Eff.bind, Eff.get_fs.
  now rewrite Hp.
Qed.

Lemma save_to_cache_spec r cp st :
  WebResource.save_to_cache r cp st
  = (Ret tt, mkState (<[WebResource.get_cache_path (WebResource.url r) cp := entry r]> (fs st))
                     (awaited st) (next_client st) (clock st) (trace st)).
Proof. apply save_spec. Qed.

(** A component of two characters or more is appended. *)
Lemma path_join_long p s :
  (2 <= String.length s)%nat -> WebResource.path_join p s = (p ++ [s])%list.
Proof.
  intros Hlen. unfold WebResource.path_join.
  destruct s as [|c [|c' s]]; cbn in Hlen; try lia.
  cbn. now destruct (Ascii.eqb c ".").
Qed.

Lemma cache_file_joined p url :
  WebResource.path_join p
    (blake2b_hexdigest (utf8_encode (path (urlparse url))) ++ ".json")
  = (p ++ [(blake2b_hexdigest (utf8_encode (path (urlparse url))) ++ ".json")%string])%list.
Proof.
  apply path_join_long. rewrite RefFacts.string_length_app, blake2b_length. cbn. lia.
Qed.

(** The name of a cache entry is 133 characters long; it is not
    [content.json]. *)
Lemma get_cache_path_last url cp :
  last (WebResource.get_cache_path url cp)
  = Some (blake2b_hexdigest (utf8_encode (path (urlparse url))) ++ ".json").
Proof.
  unfold WebResource.get_cache_path. rewrite cache_file_joined. apply last_snoc.
Qed.

Lemma get_cache_path_not_index url cp :
  last (WebResource.get_cache_path url cp) <> Some "content.json".
Proof.
  rewrite get_cache_path_last. intros E. injection E as E.
  apply (f_equal String.length) in E.
  rewrite RefFacts.string_length_app, blake2b_length in E. discriminate.
Qed.

End WithLib.
End WebResourceFacts.

(** ** [WebResourceCollector]: what a fetch leaves untouched *)

Module CollectorFacts.
Import EffFacts WebResourceFacts.
Section WithWorld.
Context {L : PyLib} {Laws : PyLibLaws L} (W : World L) (CONFIG : Config).

Section Framing.
Context {R : State -> State -> Prop} {okE : Event -> Prop}
        {okW : list string -> Prop} {F : Frame R okE okW}.
Hypothesis okE_quiet : forall e, ~ is_sleep e -> okE e.
Hypothesis okW_cache : forall url cp, okW (WebResource.get_cache_path url cp).

Ltac crush :=
  frame;
  try (apply respects_emit, okE_quiet; cbn; tauto);
  try (apply respects_write_file, okW_cache).

Lemma respects_load_from_cache url cp :
  respects R (WebResource.load_from_cache url cp).
Proof. crush. Qed.

Lemma respects_save_to_cache r cp : respects R (WebResource.save_to_cache r cp).
Proof. crush. Qed.

Lemma respects_fetch_content_playwright url :
  respects R (WebResourceCollector.fetch_content_playwright W url).
Proof. crush. Qed.

Lemma respects_fetch_uncached url ip :
  respects R (WebResourceCollector.fetch_uncached W url ip).
Proof. crush. Qed.

Lemma respects_fetch_resource_body url ip :
  respects R (WebResourceCollector.fetch_resource_body W url ip).
Proof. crush. Qed.

Lemma respects_fetch_resource client url ip :
  respects R (WebResourceCollector.fetch_resource W client url ip).
Proof. apply respects_await, respects_fetch_resource_body. Qed.

Lemma respects_check_ports ip ports :
  respects R (WebResourceCollector.check_ports W ip ports).
Proof.
  induction ports as [|[port sch] ports IH]; cbn.
  - apply respects_ret.
  - apply respects_bind; [apply respects_emit, okE_quiet; cbn; tauto|].
    intros _. destruct (open_connection W ip port); [apply respects_ret | exact IH].
Qed.

Lemma respects_check_host domain :
  respects R (WebResourceCollector.check_host W domain).
Proof.
  apply respects_await. unfold WebResourceCollector.check_host_body.
  apply respects_bind; [apply respects_emit, okE_quiet; cbn; tauto|].
  intros _. destruct (dns_resolve W domain); [|apply respects_ret].
  apply respects_check_ports.
Qed.

End Framing.

(** *** A fetch as a task *)

(** A task that the event loop runs on its own, from its first step to
    its end, does what [await fetch_resource(...)] does. *)
Lemma task_alone client url ip st :
  (fetch <- WebResourceCollector.start_fetch (FetchResource client url ip) ;;
   fetch <- WebResourceCollector.resume_fetch W fetch ;;
   WebResourceCollector.resume_fetch W fetch) st
  = (Ret (WebResourceCollector.Done
            (fst (WebResourceCollector.fetch_resource W client url ip st))),
     snd (WebResourceCollector.fetch_resource W client url ip st)).
Proof.
  unfold WebResourceCollector.fetch_resource, Eff.await,
    WebResourceCollector.start_fetch, WebResourceCollector.fetch_resource_body.
  unfold Eff.bind.
  case_bool_decide as Hseen; [reflexivity|].
  fold (Eff.mark (FetchResource client url ip) st).
  destruct (WebResource.load_from_cache url None _) as [[[r|]|e] st1];
    [reflexivity| |reflexivity].
  unfold Eff.try_except, WebResourceCollector.fetch_uncached,
    WebResourceCollector.resume_fetch, Eff.bind, Eff.emit, Eff.tick,
    Eff.of_option, Eff.ret, Eff.raise.
  cbn [snd fst fs awaited next_client clock trace].
  destruct (http_get W (clock st1) url) as [response|]; [|reflexivity].
  destruct (WebResourceCollector.scan_headers (response_headers response))
    as [content_type last_modified].
  destruct (WebResourceCollector.requires_playwright (response_content response)
            && WebResourceCollector.renderable_status (status_code response)).
  - unfold WebResourceCollector.fetch_content_playwright, Eff.await.
    cbn [awaited].
    case_bool_decide as Hrendered; [reflexivity|].
    unfold WebResourceCollector.fetch_content_playwright_body, Eff.bind, Eff.mark,
      Eff.emit, Eff.tick, Eff.of_option, Eff.ret, Eff.raise.
    cbn [snd fst fs awaited next_client clock trace].
    destruct (playwright_content W (S (clock st1)) url) as [content|]; [|reflexivity].
    unfold WebResourceCollector.finish, WebResourceCollector.store_resource,
      Eff.try_except, Eff.bind, Eff.tick, Eff.ret.
    cbn [snd fst fs awaited next_client clock trace].
    match goal with
    | |- context [WebResource.save_to_cache ?r ?c ?s] =>
        destruct (WebResource.save_to_cache r c s) as [[[]|e] st6]
    end; reflexivity.
  - unfold WebResourceCollector.finish, WebResourceCollector.store_resource,
      Eff.try_except, Eff.bind, Eff.tick, Eff.ret.
    cbn [snd fst fs awaited next_client clock trace].
    match goal with
    | |- context [WebResource.save_to_cache ?r ?c ?s] =>
        destruct (WebResource.save_to_cache r c s) as [[[]|e] st6]
    end; reflexivity.
Qed.

(** *** The tasks come to their end *)

(** The steps a fetch has ahead of it, being handed over included. *)
Definition steps_left (fetch : WebResourceCollector.Fetch) : nat :=
  match fetch with
  | WebResourceCollector.Requested _ _ => 3
  | WebResourceCollector.Rendering _ _ _ _ _ => 2
  | WebResourceCollector.Done _ => 1
  end.

Definition work (running : list WebResourceCollector.Fetch) : nat :=
  sum_list (map steps_left running).

Lemma finish_done rest st :
  exists result st',
    WebResourceCollector.finish rest st = (Ret (WebResourceCollector.Done result), st').
Proof.
  unfold WebResourceCollector.finish, Eff.bind, Eff.try_except.
  destruct (rest st) as [[r|e] st']; cbn; eauto.
Qed.

(** A task that is resumed moves on and does not raise. *)
Lemma resume_fetch_moves fetch st :
  exists fetch' st',
    WebResourceCollector.resume_fetch W fetch st = (Ret fetch', st')
    /\ (steps_left fetch' < steps_left fetch \/ steps_left fetch = 1)%nat.
Proof.
  destruct fetch as [url ip|url rip status ct lm|result];
    cbn [WebResourceCollector.resume_fetch steps_left].
  - unfold Eff.bind, Eff.tick.
    destruct (http_get W (clock st) url) as [response|];
      [|eexists _, _; split; [reflexivity | cbn; lia]].
    destruct (WebResourceCollector.scan_headers (response_headers response)) as [ct lm].
    destruct (_ && _).
    + case_bool_decide; eexists _, _; (split; [reflexivity | cbn; lia]).
    + match goal with
      | |- context [WebResourceCollector.finish ?rest ?s] =>
          destruct (finish_done rest s) as (result & st' & ->)
      end.
      eexists _, _; split; [reflexivity | cbn; lia].
  - unfold Eff.bind, Eff.tick.
    destruct (playwright_content W (clock st) url) as [content|];
      [|eexists _, _; split; [reflexivity | cbn; lia]].
    match goal with
    | |- context [WebResourceCollector.finish ?rest ?s] =>
        destruct (finish_done rest s) as (result & st' & ->)
    end.
    eexists _, _; split; [reflexivity | cbn; lia].
  - eexists _, _. split; [reflexivity | now right].
Qed.

Lemma first_done_Some running result others :
  WebResourceCollector.first_done running = Some (result, others) ->
  work running = S (work others).
Proof.
  revert others. induction running as [|fetch running IH]; intros others; [discriminate|].
  cbn [WebResourceCollector.first_done].
  destruct fetch as [url ip|url rip status ct lm|r].
  - destruct (WebResourceCollector.first_done running) as [[r' o]|]; [|discriminate].
    intros [= <- <-]. unfold work in *. cbn. rewrite (IH o eq_refl). lia.
  - destruct (WebResourceCollector.first_done running) as [[r' o]|]; [|discriminate].
    intros [= <- <-]. unfold work in *. cbn. rewrite (IH o eq_refl). lia.
  - intros [= <- <-]. reflexivity.
Qed.

Lemma first_done_None running :
  WebResourceCollector.first_done running = None ->
  Forall (fun fetch => steps_left fetch <> 1%nat) running.
Proof.
  induction running as [|fetch running IH]; [constructor|].
  cbn [WebResourceCollector.first_done].
  destruct fetch as [url ip|url rip status ct lm|r]; [| |discriminate];
    (destruct (WebResourceCollector.first_done running) as [[r' o]|]; [discriminate|]);
    intros _; (constructor; [discriminate | now apply IH]).
Qed.

Lemma work_insert running i fetch fetch' :
  running !! i = Some fetch ->
  (steps_left fetch' < steps_left fetch)%nat ->
  (work (<[i := fetch']> running) < work running)%nat.
Proof.
  revert i. induction running as [|f running IH]; intros [|i]; try discriminate.
  - intros [= ->] Hlt. unfold work. cbn. lia.
  - intros Hi Hlt. specialize (IH i Hi Hlt).
    change (steps_left f + work (<[i := fetch']> running)
            < steps_left f + work running)%nat.
    lia.
Qed.

Lemma work_nil running : work running = 0%nat -> running = [].
Proof.
  destruct running as [|f running]; [reflexivity|].
  unfold work. cbn. destruct f; cbn; lia.
Qed.

(** The loop of [as_completed] does the same with any fuel that covers
    the steps the tasks have ahead of them: it never stops for want of
    fuel. *)
Lemma as_completed_loop_fuel fuel : forall fuel' running pages st,
  (work running <= fuel)%nat -> (work running <= fuel')%nat ->
  WebResourceCollector.as_completed_loop W fuel running pages st
  = WebResourceCollector.as_completed_loop W fuel' running pages st.
Proof.
  induction fuel as [|fuel IH]; intros fuel' running pages st Hf Hf'.
  - assert (running = []) as -> by (apply work_nil; lia).
    now destruct fuel'.
  - destruct fuel' as [|fuel'].
    { assert (running = []) as -> by (apply work_nil; lia). reflexivity. }
    cbn [WebResourceCollector.as_completed_loop].
    destruct (WebResourceCollector.first_done running) as [[result others]|] eqn:Hdone.
    + apply first_done_Some in Hdone.
      destruct result as [[r|]|e]; [| |reflexivity].
      * unfold Eff.bind, Eff.emit. apply IH; lia.
      * apply IH; lia.
    + destruct running as [|f running]; [reflexivity|].
      unfold Eff.bind at 1 3. unfold Eff.tick.
      set (i := (completes_next W (clock st) mod length (f :: running))%nat).
      destruct ((f :: running) !! i) as [fetch|] eqn:Hi; [|reflexivity].
      unfold Eff.bind.
      destruct (resume_fetch_moves fetch
                  (mkState (fs st) (awaited st) (next_client st) (S (clock st))
                     (trace st))) as (fetch' & st' & -> & Hlt).
      destruct Hlt as [Hlt|Hone].
      * pose proof (work_insert _ _ _ _ Hi Hlt). apply IH; lia.
      * apply first_done_None in Hdone.
        exfalso. eapply Forall_lookup_1 in Hdone; [|exact Hi]. contradiction.
Qed.

Lemma start_fetch_ret coro st :
  exists fetch st', WebResourceCollector.start_fetch coro st = (Ret fetch, st').
Proof.
  destruct coro as [domain|client url ip|url];
    cbn [WebResourceCollector.start_fetch]; [now eexists _, _| |now eexists _, _].
  case_bool_decide; [now eexists _, _|].
  destruct (WebResource.load_from_cache url None
              (Eff.mark (FetchResource client url ip) st)) as [[[r|]|e] st'];
    now eexists _, _.
Qed.

Lemma start_all_length fuel : forall todo running st,
  exists started st',
    WebResourceCollector.start_all W fuel todo running st = (Ret started, st')
    /\ (length started <= length running + length todo)%nat.
Proof.
  induction fuel as [|fuel IH]; intros todo running st.
  - exists running, st. split; [now destruct todo | lia].
  - destruct todo as [|c todo]; [exists running, st; split; [reflexivity | lia]|].
    cbn [WebResourceCollector.start_all]. unfold Eff.bind at 1. unfold Eff.tick.
    set (i := (completes_next W (clock st) mod length (c :: todo))%nat).
    destruct ((c :: todo) !! i) as [coro|] eqn:Hi;
      [|eexists _, _; split; [reflexivity | lia]].
    unfold Eff.bind.
    destruct (start_fetch_ret coro
                (mkState (fs st) (awaited st) (next_client st) (S (clock st))
                   (trace st))) as (fetch & st1 & ->).
    destruct (IH (delete i (c :: todo)) (running ++ [fetch])%list st1)
      as (started & st' & -> & Hlen).
    exists started, st'. split; [reflexivity|].
    rewrite length_app in Hlen. cbn [length] in Hlen.
    pose proof (length_delete (c :: todo) i (mk_is_Some _ _ Hi)) as Hdel.
    cbn [length] in *. lia.
Qed.

Lemma work_bound running : (work running <= 3 * length running)%nat.
Proof.
  induction running as [|f running IH]; [cbn; lia|].
  change (steps_left f + work running <= 3 * S (length running))%nat.
  destruct f; cbn [steps_left]; lia.
Qed.

(** [as_completed] with more fuel is [as_completed]. *)
Lemma as_completed_fuel tasks fuel st :
  (3 * length (remove_dups tasks) <= fuel)%nat ->
  (running <- WebResourceCollector.start_all W (length (remove_dups tasks))
                (remove_dups tasks) [] ;;
   WebResourceCollector.as_completed_loop W fuel running []) st
  = WebResourceCollector.as_completed W tasks st.
Proof.
  intros Hfuel. unfold WebResourceCollector.as_completed. cbv zeta.
  unfold Eff.bind.
  destruct (start_all_length (length (remove_dups tasks)) (remove_dups tasks) [] st)
    as (started & st' & -> & Hlen).
  cbn [length] in Hlen.
  pose proof (work_bound started).
  apply as_completed_loop_fuel; lia.
Qed.

(** *** The attributes [CONFIG] lacks *)

(** [get_resources] raises at its first statement and does nothing
    else. *)
Lemma get_resources_raises domain paths st :
  WebResourceCollector.get_resources W CONFIG domain paths st
  = (Raise (no_attribute "http_delay"), st).
Proof. reflexivity. Qed.

(** The loop over the paths skips [/robots.txt] and raises at the first
    other path, where it reads [CONFIG.http_delay_max]. *)
Lemma dispatch_spec client base_url ip delay paths tasks st :
  WebResourceCollector.dispatch CONFIG client base_url ip delay paths tasks st
  = (if forallb (fun p => String.eqb p "/robots.txt") paths
     then Ret tasks
     else Raise (no_attribute "http_delay_max"), st).
Proof.
  induction paths as [|p paths IH]; [reflexivity|].
  cbn [WebResourceCollector.dispatch forallb].
  destruct (String.eqb p "/robots.txt"); [exact IH | reflexivity].
Qed.

(** *** One fetch *)

Lemma await_fresh {A} c (body : Eff.M A) st :
  c ∉ awaited st -> Eff.await c body st = body (Eff.mark c st).
Proof. intros Hc. unfold Eff.await. now rewrite bool_decide_eq_false_2. Qed.

Lemma await_again {A} c (body : Eff.M A) st :
  c ∈ awaited st ->
  Eff.await c body st
  = (Raise "RuntimeError: cannot reuse already awaited coroutine", st).
Proof. intros Hc. unfold Eff.await. now rewrite bool_decide_eq_true_2. Qed.

(** Once awaited, a coroutine stays awaited. *)
Lemma await_marks {A} c (body : Eff.M A) st :
  respects awaited_grows body -> c ∈ awaited (snd (Eff.await c body st)).
Proof.
  intros Hb. unfold Eff.await. case_bool_decide as Hc; cbn; [exact Hc|].
  apply Hb. cbn. apply elem_of_cons. now left.
Qed.

(** A hit: [fetch_resource] hands back the cached resource; the files
    and the trace are as before. *)
Lemma fetch_resource_cache_hit client url ip st r :
  FetchResource client url ip ∉ awaited st ->
  fs st !! WebResource.get_cache_path url None = Some (WebResourceFacts.entry r) ->
  WebResourceCollector.fetch_resource W client url ip st
  = (Ret (Some r), Eff.mark (FetchResource client url ip) st).
Proof.
  intros Hc Hp. unfold WebResourceCollector.fetch_resource.
  rewrite await_fresh by exact Hc.
  unfold WebResourceCollector.fetch_resource_body, Eff.bind.
  rewrite (load_from_cache_entry r) by exact Hp. reflexivity.
Qed.

(** Awaiting [fetch_resource] again with the arguments of an earlier
    call raises. *)
Lemma fetch_resource_again client url ip st :
  let st1 := snd (WebResourceCollector.fetch_resource W client url ip st) in
  WebResourceCollector.fetch_resource W client url ip st1
  = (Raise "RuntimeError: cannot reuse already awaited coroutine", st1).
Proof.
  intros st1. apply await_again. subst st1.
  apply await_marks.
  apply (respects_fetch_resource_body (okE:=fun _ => True) (okW:=fun _ => True));
    intros; exact I.
Qed.

(** What a resource built by the [try] block looks like, and where it
    went. *)
Lemma fetch_uncached_inv url ip st r st' :
  WebResourceCollector.fetch_uncached W url ip st = (Ret (Some r), st') ->
  WebResource.url r = url
  /\ WebResource.hash r = blake2b_hexdigest (WebResource.content r)
  /\ WebResource.size r = Z.of_nat (String.length (WebResource.content r))
  /\ WebResource.headers r = []
  /\ fs st' !! WebResource.get_cache_path url None = Some (WebResourceFacts.entry r).
Proof.
  unfold WebResourceCollector.fetch_uncached, Eff.bind, Eff.emit, Eff.tick,
    Eff.of_option, Eff.ret, Eff.raise. cbn.
  destruct (http_get W (clock st) url) as [resp|]; [|discriminate].
  destruct (WebResourceCollector.scan_headers _) as [ct lm].
  match goal with
  | |- context [if ?c then _ else _] => destruct c
  end.
  - match goal with
    | |- context [WebResourceCollector.fetch_content_playwright W url ?s] =>
        destruct (WebResourceCollector.fetch_content_playwright W url s)
          as [[b|e] st2]
    end; [|discriminate].
    cbn. rewrite save_to_cache_spec. cbn. intros E. injection E as <- <-. cbn.
    repeat split. apply lookup_insert_eq.
  - cbn. rewrite save_to_cache_spec. cbn. intros E. injection E as <- <-. cbn.
    repeat split. apply lookup_insert_eq.
Qed.

(** A resource that [fetch_resource] returns on a miss was built by the
    [try] block. *)
Lemma fetch_resource_miss_inv client url ip st r st' :
  fs st !! WebResource.get_cache_path url None = None ->
  WebResourceCollector.fetch_resource W client url ip st = (Ret (Some r), st') ->
  WebResourceCollector.fetch_uncached W url ip
    (Eff.mark (FetchResource client url ip) st) = (Ret (Some r), st').
Proof.
  intros Hmiss. unfold WebResourceCollector.fetch_resource, Eff.await.
  case_bool_decide; [discriminate|]. fold (Eff.mark (FetchResource client url ip) st).
  unfold WebResourceCollector.fetch_resource_body, Eff.bind.
  rewrite load_from_cache_miss by exact Hmiss.
  unfold Eff.try_except.
  destruct (WebResourceCollector.fetch_uncached W url ip _) as [[o|e] st2].
  - intros E. injection E as -> ->. reflexivity.
  - cbn. discriminate.
Qed.

End WithWorld.
End CollectorFacts.

(** ** The cache: round trip, hash integrity, repeated fetches *)

Module CacheProperties.
Import EffFacts WebResourceFacts CollectorFacts.

(** C5.  For every resource [r], [WebResource.from_file(path)] on the
    file that [r.save(path)] wrote yields [r] again: url, hash, size,
    content (through lzma and base64), content_type, date_retrieved and
    date_modified, and the other fields as well. *)
Theorem save_from_file_roundtrip {L : PyLib} {Laws : PyLibLaws L}
    (r : WebResource.t) (p : list string) (st : State) :
  let st1 := snd (WebResource.save r p st) in
  fst (WebResource.save r p st) = Ret tt
  /\ WebResource.from_file p st1 = (Ret r, st1).
Proof.
  cbv zeta. rewrite save_spec. split; [reflexivity|].
  apply from_file_entry. apply lookup_insert_eq.
Qed.

(** C4.  A resource that [fetch_resource] builds (nothing was cached for
    the URL) carries the BLAKE2b digest of the very bytes it stores,
    whether they are the static body or what the render fall-back
    returned, and reading the cache afterwards yields the same resource,
    digest included. *)
Theorem fetch_resource_hash_integrity {L : PyLib} {Laws : PyLibLaws L}
    (W : World L) (client : nat) (url : string) (ip : option string)
    (st st' : State) (r : WebResource.t) :
  fs st !! WebResource.get_cache_path url None = None ->
  WebResourceCollector.fetch_resource W client url ip st = (Ret (Some r), st') ->
  WebResource.hash r = blake2b_hexdigest (WebResource.content r)
  /\ WebResource.load_from_cache url None st' = (Ret (Some r), st').
Proof.
  intros Hmiss Hfetch.
  apply fetch_resource_miss_inv in Hfetch; [|exact Hmiss].
  apply fetch_uncached_inv in Hfetch as (_ & Hhash & _ & _ & Hfile).
  split; [exact Hhash|]. now apply load_from_cache_entry.
Qed.

(** C10.  Two URLs with one netloc and one path have one cache location,
    whatever their query strings and fragments; so a fetch of the second,
    once the cache holds the resource stored for the first, returns that
    resource without a request. *)
Theorem cache_path_ignores_query {L : PyLib} {Laws : PyLibLaws L}
    (W : World L) (u1 u2 : string) :
  netloc (urlparse u1) = netloc (urlparse u2) ->
  path (urlparse u1) = path (urlparse u2) ->
  (forall cp, WebResource.get_cache_path u1 cp = WebResource.get_cache_path u2 cp)
  /\ forall (r : WebResource.t) (st : State) client ip,
       WebResource.url r = u1 ->
       FetchResource client u2 ip ∉ awaited (snd (WebResource.save_to_cache r None st)) ->
       let st1 := snd (WebResource.save_to_cache r None st) in
       WebResourceCollector.fetch_resource W client u2 ip st1
       = (Ret (Some r), Eff.mark (FetchResource client u2 ip) st1).
Proof.
  intros Hn Hp.
  assert (forall cp, WebResource.get_cache_path u1 cp = WebResource.get_cache_path u2 cp)
    as Hsame.
  { intros cp. unfold WebResource.get_cache_path. now rewrite Hn, Hp. }
  split; [exact Hsame|].
  intros r st client ip Hr Hfresh st1.
  apply fetch_resource_cache_hit; [exact Hfresh|].
  subst st1. rewrite save_to_cache_spec. cbn.
  rewrite Hr, Hsame. apply lookup_insert_eq.
Qed.

(** The closed statements below are about the reference libraries. *)
#[local] Existing Instance Ref.lib.
#[local] Existing Instance RefFacts.lib_laws.

Lemma save_from_file_roundtrip_witness :
  PyLibLaws Ref.lib
  /\ let p := ["tmp"; "test_resource.json"] in
     let st1 := snd (WebResource.save Ref.sample_web_resource p Ref.init) in
     fst (WebResource.save Ref.sample_web_resource p Ref.init) = Ret tt
     /\ WebResource.from_file p st1 = (Ret Ref.sample_web_resource, st1).
Proof.
  split; [exact RefFacts.lib_laws|].
  exact (save_from_file_roundtrip (Laws := RefFacts.lib_laws)
           Ref.sample_web_resource ["tmp"; "test_resource.json"] Ref.init).
Defined.

(** The first fetch of the home page in the reference world. *)
Lemma first_fetch_runs :
  let run :=
    WebResourceCollector.fetch_resource Ref.world 0 "https://example.com/" None Ref.init in
  exists r : WebResource.t (L := Ref.lib),
    run = (Ret (Some r), snd run) /\ WebResource.content r = Ref.rendered_page.
Proof.
  cbv zeta. exists Ref.home_resource. split; [|reflexivity].
  apply run_eq. vm_compute. reflexivity.
Qed.

Lemma fetch_resource_hash_integrity_witness :
  let url := "https://example.com/" in
  let run := WebResourceCollector.fetch_resource Ref.world 0 url None Ref.init in
  exists r : WebResource.t (L := Ref.lib),
    fs Ref.init !! WebResource.get_cache_path url None = None
    /\ run = (Ret (Some r), snd run)
    /\ WebResource.hash r = blake2b_hexdigest (WebResource.content r)
    /\ WebResource.load_from_cache url None (snd run) = (Ret (Some r), snd run).
Proof.
  cbv zeta. destruct first_fetch_runs as (r & Hrun & _). exists r.
  assert (fs Ref.init !! WebResource.get_cache_path (L := Ref.lib)
            "https://example.com/" None = None) as Hmiss by apply lookup_empty.
  split; [exact Hmiss|]. split; [exact Hrun|].
  exact (fetch_resource_hash_integrity (Laws := RefFacts.lib_laws) Ref.world 0
           "https://example.com/" None Ref.init _ r Hmiss Hrun).
Defined.

Lemma cache_path_ignores_query_witness :
  let u1 := "https://example.com/a?x=1" in
  let u2 := "https://example.com/a?x=2#top" in
  let r : WebResource.t (L := Ref.lib) :=
    WebResource.mk (L := Ref.lib) u1 "93.184.216.34" 200 "00" 5 "first" "text/plain" []
      "2024-08-01T12:00:00+00:00" None in
  let st1 := snd (WebResource.save_to_cache r None Ref.init) in
  netloc (urlparse u1) = netloc (urlparse u2)
  /\ path (urlparse u1) = path (urlparse u2)
  /\ WebResource.get_cache_path u1 None = WebResource.get_cache_path u2 None
  /\ WebResourceCollector.fetch_resource Ref.world 0 u2 None st1
     = (Ret (Some r), Eff.mark (FetchResource 0 u2 None) st1).
Proof.
  cbv zeta.
  pose proof (cache_path_ignores_query (Laws := RefFacts.lib_laws) Ref.world
                "https://example.com/a?x=1" "https://example.com/a?x=2#top"
                eq_refl eq_refl) as [Hpath Hfetch].
  split; [reflexivity|]. split; [reflexivity|]. split; [apply Hpath|].
  apply Hfetch; [reflexivity|].
  rewrite WebResourceFacts.save_to_cache_spec. cbn [snd awaited Ref.init].
  apply not_elem_of_nil.
Defined.

(** C2.  With a populated cache the second fetch of a URL makes no
    request, but it does not return the cached resource either: awaiting
    [fetch_resource] again with the same client, URL and address is
    awaiting the coroutine that [functools.cache] kept from the first
    call, and that raises. *)
Theorem fetch_resource_second_await_raises :
  let url := "https://example.com/" in
  let first := WebResourceCollector.fetch_resource Ref.world 0 url None Ref.init in
  let second := WebResourceCollector.fetch_resource Ref.world 0 url None (snd first) in
  (exists r : WebResource.t (L := Ref.lib),
     fst first = Ret (Some r)
     /\ WebResource.load_from_cache url None (snd first) = (Ret (Some r), snd first))
  /\ fst second = Raise "RuntimeError: cannot reuse already awaited coroutine"
  /\ trace (snd second) = trace (snd first).
Proof.
  cbv zeta. split.
  - destruct first_fetch_runs as (r & Hrun & _). cbv zeta in Hrun.
    exists r. split; [now rewrite Hrun|].
    apply fetch_resource_miss_inv in Hrun; [|apply lookup_empty].
    apply (fetch_uncached_inv (Laws := RefFacts.lib_laws)) in Hrun
      as (_ & _ & _ & _ & Hfile).
    now apply (load_from_cache_entry (Laws := RefFacts.lib_laws)).
  - rewrite (fetch_resource_again Ref.world). cbn [fst snd]. split; reflexivity.
Qed.

End CacheProperties.

(** ** Searching a byte string *)

Module FindFacts.

(** [needle] occurs in [hay] at index [i]. *)
Definition occurs_at (needle hay : string) (i : nat) : Prop :=
  (i <= String.length hay)%nat /\ String.prefix needle (Py.drop_str i hay) = true.

(** [i] is the first index from [start] on at which [needle] occurs. *)
Definition first_from (needle hay : string) (start i : nat) : Prop :=
  (start <= i)%nat /\ occurs_at needle hay i
  /\ forall j, (start <= j < i)%nat -> ~ occurs_at needle hay j.

Lemma drop_str_nil n : Py.drop_str n "" = "".
Proof. now destruct n. Qed.

Lemma drop_str_length n s :
  String.length (Py.drop_str n s) = (String.length s - n)%nat.
Proof.
  revert s. induction n as [|n IH]; intros [|c s]; cbn; try reflexivity.
  apply IH.
Qed.

Lemma drop_str_drop n m s : Py.drop_str n (Py.drop_str m s) = Py.drop_str (m + n) s.
Proof.
  revert s. induction m as [|m IH]; intros s; cbn; [reflexivity|].
  destruct s as [|c s]; [apply drop_str_nil | apply IH].
Qed.

Lemma find_aux_Some needle hay k i :
  Py.find_aux needle hay k = Some i <->
  exists j, i = (k + j)%nat /\ (j <= String.length hay)%nat
            /\ String.prefix needle (Py.drop_str j hay) = true
            /\ forall j', (j' < j)%nat -> String.prefix needle (Py.drop_str j' hay) = false.
Proof.
  revert k i. induction hay as [|c t IH]; intros k i.
  - cbn [Py.find_aux]. destruct (String.prefix needle "") eqn:Hp; split.
    + intros [= <-]. exists 0%nat. repeat split; [lia | lia | exact Hp | lia].
    + intros (j & -> & Hj & _ & _). cbn in Hj. f_equal. lia.
    + discriminate.
    + intros (j & _ & Hj & Hpj & _). cbn in Hj.
      assert (j = 0%nat) as -> by lia. cbn [Py.drop_str] in Hpj. congruence.
  - cbn [Py.find_aux]. destruct (String.prefix needle (String c t)) eqn:Hp; split.
    + intros [= <-]. exists 0%nat. repeat split; [lia | lia | exact Hp | lia].
    + intros (j & -> & _ & _ & Hmin). destruct j as [|j]; [f_equal; lia|].
      specialize (Hmin 0%nat ltac:(lia)). cbn [Py.drop_str] in Hmin. congruence.
    + intros Hf. apply IH in Hf as (j & -> & Hj & Hpj & Hmin).
      exists (S j). repeat split; [lia | cbn; lia | exact Hpj |].
      intros [|j'] Hlt; [exact Hp | apply Hmin; lia].
    + intros (j & -> & Hj & Hpj & Hmin). destruct j as [|j].
      * cbn [Py.drop_str] in Hpj. congruence.
      * apply IH. exists j. repeat split; [lia | cbn in Hj; lia | exact Hpj |].
        intros j' Hlt. apply (Hmin (S j')). lia.
Qed.

Lemma find_aux_None needle hay k :
  Py.find_aux needle hay k = None <->
  forall j, (j <= String.length hay)%nat -> String.prefix needle (Py.drop_str j hay) = false.
Proof.
  revert k. induction hay as [|c t IH]; intros k.
  - cbn [Py.find_aux]. destruct (String.prefix needle "") eqn:Hp; split.
    + discriminate.
    + intros H. specialize (H 0%nat ltac:(cbn; lia)). cbn [Py.drop_str] in H. congruence.
    + intros _ j Hj. cbn in Hj. assert (j = 0%nat) as -> by lia. exact Hp.
    + reflexivity.
  - cbn [Py.find_aux]. destruct (String.prefix needle (String c t)) eqn:Hp; split.
    + discriminate.
    + intros H. specialize (H 0%nat ltac:(cbn; lia)). cbn [Py.drop_str] in H. congruence.
    + intros Hf [|j] Hj; [exact Hp|]. cbn [Py.drop_str]. eapply IH; [exact Hf | cbn in Hj; lia].
    + intros H. apply IH. intros j Hj. apply (H (S j)). cbn [String.length]. lia.
Qed.

(** [find] returns the first occurrence from [start] on. *)
Lemma find_Some needle hay start i :
  Py.find needle hay start = Some i <-> first_from needle hay start i.
Proof.
  unfold Py.find, first_from, occurs_at.
  destruct (Nat.leb_spec start (String.length hay)) as [Hle|Hgt].
  - rewrite find_aux_Some. rewrite drop_str_length. split.
    + intros (j & -> & Hj & Hpj & Hmin). rewrite drop_str_drop in Hpj.
      repeat split; [lia | lia | exact Hpj |].
      intros j' [Hlo Hhi] [_ Hocc].
      specialize (Hmin (j' - start)%nat ltac:(lia)).
      rewrite drop_str_drop in Hmin.
      replace (start + (j' - start))%nat with j' in Hmin by lia. congruence.
    + intros (Hsi & [Hi Hpi] & Hmin). exists (i - start)%nat.
      rewrite drop_str_drop. replace (start + (i - start))%nat with i by lia.
      repeat split; [lia | exact Hpi |].
      intros j' Hlt. rewrite drop_str_drop.
      destruct (String.prefix needle (Py.drop_str (start + j') hay)) eqn:E;
        [|reflexivity].
      exfalso. apply (Hmin (start + j')%nat); [lia|]. split; [lia | exact E].
  - split; [discriminate|]. intros (Hsi & [Hi _] & _). lia.
Qed.

(** [find] fails exactly when there is no occurrence from [start] on. *)
Lemma find_None needle hay start :
  Py.find needle hay start = None <->
  forall j, (start <= j)%nat -> ~ occurs_at needle hay j.
Proof.
  unfold Py.find, occurs_at.
  destruct (Nat.leb_spec start (String.length hay)) as [Hle|Hgt].
  - rewrite find_aux_None. rewrite drop_str_length. split.
    + intros H j Hj [Hjl Hpj].
      specialize (H (j - start)%nat ltac:(lia)). rewrite drop_str_drop in H.
      replace (start + (j - start))%nat with j in H by lia. congruence.
    + intros H j Hj. rewrite drop_str_drop.
      destruct (String.prefix needle (Py.drop_str (start + j) hay)) eqn:E;
        [|reflexivity].
      exfalso. apply (H (start + j)%nat); [lia|]. split; [lia | exact E].
  - split; [|reflexivity]. intros _ j Hj [Hjl _]. lia.
Qed.

(** [needle in hay] *)
Lemma contains_true needle hay :
  Py.contains needle hay = true <-> exists k, occurs_at needle hay k.
Proof.
  unfold Py.contains. destruct (Py.find needle hay 0) as [i|] eqn:Hf; split.
  - intros _. apply find_Some in Hf as (_ & Hocc & _). now exists i.
  - reflexivity.
  - discriminate.
  - intros [k Hk]. exfalso. eapply find_None; [exact Hf | | exact Hk]. lia.
Qed.

(** Where the block opened at [p0] ends for [requires_playwright]: at
    the next closing tag, or failing that 256 bytes after [p0], the end
    of the body at most. *)
Definition region_end (lc : string) (p0 p1 : nat) : Prop :=
  first_from "</noscript>" lc p0 p1
  \/ ((forall j, (p0 <= j)%nat -> ~ occurs_at "</noscript>" lc j)
      /\ p1 = Nat.min (p0 + 256) (String.length lc)).

(** Some [<noscript>] of the body has [javascript] in its region. *)
Definition some_noscript_mentions_javascript (body : bytes) : Prop :=
  exists p0 p1, occurs_at "<noscript>" body p0 /\ region_end body p0 p1
                /\ exists k, occurs_at "javascript" (Py.slice p0 p1 body) k.

(** The first [<noscript>] of the body, upper and lower case taken as
    one, has [javascript] in its region. *)
Definition first_noscript_mentions_javascript (body : bytes) : Prop :=
  let lc := Py.bytes_lower body in
  exists p0 p1, first_from "<noscript>" lc 0 p0 /\ region_end lc p0 p1
                /\ exists k, occurs_at "javascript" (Py.slice p0 p1 lc) k.

Lemma first_from_unique needle hay start i j :
  first_from needle hay start i -> first_from needle hay start j -> i = j.
Proof.
  intros (Hi & Hoi & Hmi) (Hj & Hoj & Hmj).
  destruct (Nat.lt_trichotomy i j) as [Hlt|[Heq|Hgt]]; [|exact Heq|].
  - exfalso. apply (Hmj i); [lia | exact Hoi].
  - exfalso. apply (Hmi j); [lia | exact Hoj].
Qed.

(** [requires_playwright] decides [first_noscript_mentions_javascript]. *)
Lemma requires_playwright_iff body :
  Render.requires_playwright body = true <-> first_noscript_mentions_javascript body.
Proof.
  unfold Render.requires_playwright, first_noscript_mentions_javascript.
  set (lc := Py.bytes_lower body).
  destruct (Py.find "<noscript>" lc 0) as [p0|] eqn:H0.
  - apply find_Some in H0.
    destruct (Py.find "</noscript>" lc p0) as [p1|] eqn:H1.
    + apply find_Some in H1. rewrite contains_true. split.
      * intros Hk. exists p0, p1. split; [exact H0|]. split; [now left | exact Hk].
      * intros (q0 & q1 & Hq0 & Hq1 & Hk).
        assert (q0 = p0) as -> by (eapply first_from_unique; eassumption).
        destruct Hq1 as [Hq1|[Hnone _]].
        -- assert (q1 = p1) as -> by (eapply first_from_unique; eassumption).
           exact Hk.
        -- exfalso. destruct H1 as (Hle & Hocc & _). now apply (Hnone p1).
    + rewrite find_None in H1. rewrite contains_true. split.
      * intros Hk. exists p0, (Nat.min (p0 + 256) (String.length lc)).
        split; [exact H0|]. split; [right; split; [exact H1 | reflexivity] | exact Hk].
      * intros (q0 & q1 & Hq0 & Hq1 & Hk).
        assert (q0 = p0) as -> by (eapply first_from_unique; eassumption).
        destruct Hq1 as [(Hle & Hocc & _)|[_ ->]]; [|exact Hk].
        exfalso. now apply (H1 q1).
  - rewrite find_None in H0. split; [discriminate|].
    intros (q0 & q1 & (Hle & Hocc & _) & _). exfalso. now apply (H0 q0).
Qed.

End FindFacts.

(** ** The render fall-back *)

Module RenderProperties.
Import EffFacts WebResourceFacts CollectorFacts FindFacts.

Section WithWorld.
Context {L : PyLib} {Laws : PyLibLaws L} (W : World L).

(** Without the fall-back the static body is stored. *)
Lemma fetch_uncached_static url ip st resp :
  http_get W (clock st) url = Some resp ->
  Render.requires_playwright (response_content resp)
  && WebResourceCollector.renderable_status (status_code resp) = false ->
  exists r st',
    WebResourceCollector.fetch_uncached W url ip st = (Ret (Some r), st')
    /\ WebResource.content r = response_content resp
    /\ trace st' = EGet url :: trace st.
Proof.
  intros Hget Hcond.
  unfold WebResourceCollector.fetch_uncached, Eff.bind, Eff.emit, Eff.tick,
    Eff.of_option, Eff.ret. cbn.
  rewrite Hget.
  destruct (WebResourceCollector.scan_headers _) as [ct lm].
  unfold WebResourceCollector.requires_playwright. rewrite Hcond. cbn.
  rewrite save_to_cache_spec. cbn.
  eexists _, _. split; [reflexivity|]. split; reflexivity.
Qed.

(** With the fall-back the rendered bytes are stored. *)
Lemma fetch_uncached_render url ip st resp b :
  http_get W (clock st) url = Some resp ->
  Render.requires_playwright (response_content resp)
  && WebResourceCollector.renderable_status (status_code resp) = true ->
  FetchContentPlaywright url ∉ awaited st ->
  playwright_content W (S (clock st)) url = Some b ->
  exists r st',
    WebResourceCollector.fetch_uncached W url ip st = (Ret (Some r), st')
    /\ WebResource.content r = b
    /\ trace st' = ERender url :: EGet url :: trace st.
Proof.
  intros Hget Hcond Hfresh Hplay.
  unfold WebResourceCollector.fetch_uncached, Eff.bind, Eff.emit, Eff.tick,
    Eff.of_option, Eff.ret. cbn.
  rewrite Hget.
  destruct (WebResourceCollector.scan_headers _) as [ct lm].
  unfold WebResourceCollector.requires_playwright. rewrite Hcond.
  unfold WebResourceCollector.fetch_content_playwright.
  rewrite await_fresh by exact Hfresh.
  unfold WebResourceCollector.fetch_content_playwright_body, Eff.bind, Eff.emit,
    Eff.tick, Eff.of_option, Eff.ret. cbn.
  rewrite Hplay. cbn.
  rewrite save_to_cache_spec. cbn.
  eexists _, _. split; [reflexivity|]. split; reflexivity.
Qed.

(** A first fetch of an uncached URL is the [try] block. *)
Lemma fetch_resource_miss client url ip st r st' :
  FetchResource client url ip ∉ awaited st ->
  fs st !! WebResource.get_cache_path url None = None ->
  WebResourceCollector.fetch_uncached W url ip (Eff.mark (FetchResource client url ip) st)
  = (Ret (Some r), st') ->
  WebResourceCollector.fetch_resource W client url ip st = (Ret (Some r), st').
Proof.
  intros Hfresh Hmiss Hrun. unfold WebResourceCollector.fetch_resource.
  rewrite await_fresh by exact Hfresh.
  unfold WebResourceCollector.fetch_resource_body, Eff.bind.
  rewrite load_from_cache_miss by exact Hmiss.
  unfold Eff.try_except. now rewrite Hrun.
Qed.

Lemma renderable_status_true status :
  WebResourceCollector.renderable_status status = true
  <-> (status = 200 \/ status = 301)%Z.
Proof. unfold WebResourceCollector.renderable_status. lia. Qed.

End WithWorld.

(** C8, as amended.  When the first [<noscript>] of the body (upper and
    lower case taken as one) has [javascript] in its region, up to the
    next [</noscript>] or else over 256 bytes from the tag: with status
    200 or 301 the stored content is what the render path returned, and
    with any other status no render takes place and the static body is
    stored. *)
Theorem render_fallback_decision {L : PyLib} {Laws : PyLibLaws L} (W : World L)
    (client : nat) (url : string) (ip : option string) (st : State) (resp : Response) :
  FetchResource client url ip ∉ awaited st ->
  fs st !! WebResource.get_cache_path url None = None ->
  http_get W (clock st) url = Some resp ->
  first_noscript_mentions_javascript (response_content resp) ->
  ((status_code resp = 200 \/ status_code resp = 301)%Z ->
   forall b,
     FetchContentPlaywright url ∉ awaited st ->
     playwright_content W (S (clock st)) url = Some b ->
     exists r st',
       WebResourceCollector.fetch_resource W client url ip st = (Ret (Some r), st')
       /\ WebResource.content r = b
       /\ trace st' = ERender url :: EGet url :: trace st)
  /\ (status_code resp <> 200%Z -> status_code resp <> 301%Z ->
      exists r st',
        WebResourceCollector.fetch_resource W client url ip st = (Ret (Some r), st')
        /\ WebResource.content r = response_content resp
        /\ trace st' = EGet url :: trace st).
Proof.
  intros Hfresh Hmiss Hget Hjs. apply requires_playwright_iff in Hjs. split.
  - intros Hstatus b Hrender Hplay. apply renderable_status_true in Hstatus.
    destruct (fetch_uncached_render W url ip (Eff.mark (FetchResource client url ip) st)
                resp b) as (r & st' & Hrun & Hc & Ht).
    + exact Hget.
    + now rewrite Hjs, Hstatus.
    + cbn. rewrite elem_of_cons. intros [E|E]; [discriminate | contradiction].
    + exact Hplay.
    + exists r, st'. split; [|split; assumption].
      now apply fetch_resource_miss.
  - intros H200 H301.
    destruct (fetch_uncached_static W url ip (Eff.mark (FetchResource client url ip) st)
                resp) as (r & st' & Hrun & Hc & Ht).
    + exact Hget.
    + apply andb_false_iff. right. apply not_true_iff_false.
      rewrite renderable_status_true. lia.
    + exists r, st'. split; [|split; assumption].
      now apply fetch_resource_miss.
Qed.

#[local] Existing Instance Ref.lib.
#[local] Existing Instance RefFacts.lib_laws.

(** The home page of the reference world has one block, which asks for
    JavaScript. *)
Lemma home_page_mentions_javascript :
  first_noscript_mentions_javascript Ref.home_page.
Proof. apply requires_playwright_iff. reflexivity. Qed.

Lemma render_fallback_decision_witness :
  let url := "https://example.com/" in
  (FetchResource 0 url None ∉ awaited Ref.init)
  /\ fs Ref.init !! WebResource.get_cache_path url None = None
  /\ http_get Ref.world (clock Ref.init) url = Some (Ref.respond 200 Ref.home_page)
  /\ first_noscript_mentions_javascript Ref.home_page
  /\ (FetchContentPlaywright url ∉ awaited Ref.init)
  /\ exists (r : WebResource.t) st',
       WebResourceCollector.fetch_resource Ref.world 0 url None Ref.init
       = (Ret (Some r), st')
       /\ WebResource.content r = Ref.rendered_page
       /\ trace st' = [ERender url; EGet url].
Proof.
  cbv zeta.
  assert (forall c : Coro, c ∉ awaited Ref.init) as Hnone
    by (intros c; apply not_elem_of_nil).
  split; [apply Hnone|]. split; [apply lookup_empty|]. split; [reflexivity|].
  split; [exact home_page_mentions_javascript|]. split; [apply Hnone|].
  exact (proj1 (render_fallback_decision Ref.world 0 "https://example.com/" None
                  Ref.init (Ref.respond 200 Ref.home_page)
                  (Hnone _) (lookup_empty _) eq_refl home_page_mentions_javascript)
           (or_introl eq_refl) Ref.rendered_page (Hnone _) eq_refl).
Defined.

(** C8, as stated, fails: the body [two_blocks] has a [<noscript>] block
    (its second, from 22 to 42) whose region contains [javascript], the
    status is 200, and the static body is stored without a render. *)
Lemma second_noscript_block_is_ignored :
  let url := "https://example.com/ai.txt" in
  http_get Ref.world 0 url = Some (Ref.respond 200 Ref.two_blocks)
  /\ some_noscript_mentions_javascript Ref.two_blocks
  /\ exists (r : WebResource.t) st',
       WebResourceCollector.fetch_resource Ref.world 0 url None Ref.init
       = (Ret (Some r), st')
       /\ WebResource.content r = Ref.two_blocks
       /\ trace st' = [EGet url].
Proof.
  cbv zeta. split; [reflexivity|]. split.
  - exists 22%nat, 42%nat. split; [split; [cbn; lia | reflexivity]|]. split.
    + left. apply find_Some. reflexivity.
    + exists 10%nat. split; [cbn; lia | reflexivity].
  - exists Ref.ai_resource, (snd Ref.ai_fetch).
    split; [apply run_eq; vm_compute; reflexivity|].
    split; vm_compute; reflexivity.
Qed.

End RenderProperties.

(** ** The politeness delay *)

Module PolitenessProperties.
Import EffFacts WebResourceFacts CollectorFacts.

Lemma py_min_spec (a b : Q) : (Py.min a b == Qmin b a)%Q.
Proof.
  unfold Py.min. destruct (Qlt_le_dec b a) as [Hlt|Hle].
  - symmetry. apply Q.min_l. now apply Qlt_le_weak.
  - symmetry. apply Q.min_r. exact Hle.
Qed.

(** C1.  The clamped delay is never slept.  [get_resources] opens with
    [domain_delay = CONFIG.http_delay], and [WebSurveyConfig] has no such
    field: for every configuration, domain and path list the call raises
    [AttributeError] there, before the domain is probed, and the trace
    has no new event.  The loop over the paths, had it been reached with
    a declared delay [d], creates the coroutine of its first path other
    than [/robots.txt] and raises at [min(CONFIG.http_delay_max, d)],
    before any sleep. *)
Theorem politeness_delay_is_never_slept {L : PyLib} (W : World L) (CONFIG : Config) :
  (forall domain paths st,
     WebResourceCollector.get_resources W CONFIG domain paths st
     = (Raise (no_attribute "http_delay"), st))
  /\ (forall domain paths st,
        sleeps (trace (snd (WebResourceCollector.get_resources W CONFIG domain paths st)))
        = sleeps (trace st))
  /\ (forall client base_url ip d paths tasks st,
        (exists p, p ∈ paths /\ p <> "/robots.txt") ->
        WebResourceCollector.dispatch CONFIG client base_url ip d paths tasks st
        = (Raise (no_attribute "http_delay_max"), st)).
Proof.
  split; [apply get_resources_raises|].
  split; [intros; now rewrite get_resources_raises|].
  intros client base_url ip d paths tasks st (p & Hin & Hp).
  rewrite dispatch_spec.
  replace (forallb (fun p => String.eqb p "/robots.txt") paths) with false;
    [reflexivity|].
  symmetry. apply not_true_is_false. intros Hall.
  rewrite forallb_forall in Hall.
  apply list_elem_of_In, Hall, String.eqb_eq in Hin. contradiction.
Qed.

#[local] Existing Instance Ref.lib.

(** [example.com] is live and its robots.txt declares a crawl delay of
    999999: the crawl raises at once and sleeps nothing, and so does the
    loop over the default path list, entered with that delay. *)
Lemma politeness_delay_is_never_slept_witness :
  robots_crawl_delay Ref.robots_txt = Some (999999 # 1)
  /\ WebResourceCollector.get_resources Ref.world Ref.config "example.com" None Ref.init
     = (Raise "AttributeError: 'WebSurveyConfig' object has no attribute 'http_delay'",
        Ref.init)
  /\ (exists p, p ∈ default_path_list /\ p <> "/robots.txt")
  /\ WebResourceCollector.dispatch Ref.config 0 "https://example.com" "93.184.216.34"
       (999999 # 1) default_path_list [] Ref.init
     = (Raise "AttributeError: 'WebSurveyConfig' object has no attribute 'http_delay_max'",
        Ref.init).
Proof.
  assert (exists p, p ∈ default_path_list /\ p <> "/robots.txt") as Hpath.
  { exists "/". split; [apply list_elem_of_here | discriminate]. }
  destruct (politeness_delay_is_never_slept Ref.world Ref.config) as (Hrun & _ & Hloop).
  split; [vm_compute; reflexivity|].
  split; [apply Hrun|].
  split; [exact Hpath|].
  apply Hloop, Hpath.
Defined.

End PolitenessProperties.

(** ** The completion index *)

Module IndexProperties.
Import EffFacts WebResourceFacts CollectorFacts.

(** C9.  No completion index is ever written.  [get_resources] raises
    [AttributeError] at its first statement, for a domain that would
    pass the liveness probe as for any other: it fetches nothing and
    leaves every file as it was, so [save_domain_content], its last
    statement, is not reached.  [save_domain_content] itself writes
    nothing for an empty list of pages, and for a list with a first page
    it writes the summaries of all pages next to that page's cache
    entry. *)
Theorem completion_index_is_never_written {L : PyLib} (W : World L) (CONFIG : Config) :
  (forall domain paths st,
     let run := WebResourceCollector.get_resources W CONFIG domain paths st in
     fst run = Raise (no_attribute "http_delay") /\ fs (snd run) = fs st)
  /\ (forall st, WebResourceCollector.save_domain_content [] st = (Ret tt, st))
  /\ (forall first rest st,
        fs (snd (WebResourceCollector.save_domain_content (first :: rest) st))
        !! WebResourceCollector.content_path first
        = Some (JArr (map WebResourceCollector.page_summary (first :: rest)))).
Proof.
  split; [|split].
  - intros domain paths st run. subst run. now rewrite get_resources_raises.
  - reflexivity.
  - intros first rest st. cbn. apply lookup_insert_eq.
Qed.

#[local] Existing Instance Ref.lib.

(** [example.com] passes the liveness probe; its crawl leaves the cache
    empty. *)
Lemma live_domain_is_not_indexed :
  let run :=
    WebResourceCollector.get_resources Ref.world Ref.config "example.com" None Ref.init in
  fst Ref.probe = Ret (Some ("https", "93.184.216.34"))
  /\ fst run = Raise "AttributeError: 'WebSurveyConfig' object has no attribute 'http_delay'"
  /\ fs (snd run) = ∅.
Proof. cbv zeta. repeat split; vm_compute; reflexivity. Qed.

End IndexProperties.

(** ** The batch scheduler *)

Module SchedulerProperties.
Import CollectWebParallel.

(** The progress counter after the results [results], taken in order. *)
Definition tally_all (results : list (Z * Z * Z)) (num_sites : Z) : Z :=
  fold_left (fun acc res => tally res acc) results num_sites.

(** What holds of the loop at all times of a batch with results
    [results] that started from [ns]: the tasks keep their results, and
    the counter has tallied exactly the tasks the consumer has passed. *)
Definition counted (results : list (Z * Z * Z)) (ns : Z) (l : Loop) : Prop :=
  map result (tasks l) = results
  /\ match consumer l with
     | Awaiting i | BlockedOnSemaphore i =>
         num_sites l = tally_all (take i results) ns
     | Completed => num_sites l = tally_all results ns
     end.

Lemma tally_all_snoc results res ns :
  tally_all (results ++ [res]) ns = tally res (tally_all results ns).
Proof. unfold tally_all. now rewrite fold_left_app. Qed.

Lemma consume_counted results ns fuel i l :
  map result (tasks l) = results ->
  num_sites l = tally_all (take i results) ns ->
  (length results - i < fuel)%nat ->
  counted results ns (consume fuel i l).
Proof.
  revert i l. induction fuel as [|fuel IH]; intros i l Hres Hns Hfuel; [lia|].
  cbn [consume].
  destruct (tasks l !! i) as [t|] eqn:Hti.
  - destruct (semaphore l) as [|free].
    + split; [exact Hres | exact Hns].
    + destruct (progress t) eqn:Hp; try (split; [exact Hres | exact Hns]).
      assert (results !! i = Some (result t)) as Hri
        by (rewrite <- Hres, list_lookup_fmap, Hti; reflexivity).
      apply IH; cbn [tasks num_sites].
      * exact Hres.
      * rewrite (take_S_r _ _ _ Hri), tally_all_snoc, Hns. reflexivity.
      * apply lookup_lt_Some in Hri. lia.
  - split; [exact Hres|]. cbn [consumer num_sites].
    apply lookup_ge_None in Hti.
    rewrite Hns, take_ge; [reflexivity|].
    rewrite <- Hres, length_map. exact Hti.
Qed.

Lemma step_task_counted results ns i l :
  counted results ns l -> counted results ns (step_task i l).
Proof.
  intros [Hres Hc]. unfold step_task.
  destruct (tasks l !! i) as [t|] eqn:Hti; [|now split].
  assert (forall p, map result (<[i := mkTask p (result t)]> (tasks l)) = results) as Hset.
  { intros p. rewrite list_fmap_insert. cbn [result].
    rewrite <- Hres. apply list_insert_id. now rewrite list_lookup_fmap, Hti. }
  destruct (progress t) as [[|k]|[|k]|]; split; cbn [tasks consumer num_sites];
    auto.
Qed.

Lemma resume_consumer_counted results ns l :
  counted results ns l -> counted results ns (resume_consumer l).
Proof.
  intros [Hres Hc]. unfold resume_consumer.
  destruct (consumer l) as [i| |] eqn:Hcons; try (split; [exact Hres | now rewrite Hcons]).
  destruct (tasks l !! i) as [t|] eqn:Hti; [|split; [exact Hres | now rewrite Hcons]].
  assert (results !! i = Some (result t)) as Hri
    by (rewrite <- Hres, list_lookup_fmap, Hti; reflexivity).
  apply consume_counted; cbn [tasks num_sites].
  - exact Hres.
  - rewrite (take_S_r _ _ _ Hri), tally_all_snoc, Hc. reflexivity.
  - apply lookup_lt_Some in Hti. rewrite <- Hres, length_map. lia.
Qed.

Lemma observe_counted results ns l :
  counted results ns l -> counted results ns (observe l).
Proof. intros H. exact H. Qed.

Lemma run_handle_counted results ns h l :
  counted results ns l -> counted results ns (run_handle h l).
Proof.
  intros H. unfold run_handle. apply observe_counted.
  destruct h; [now apply step_task_counted | now apply resume_consumer_counted].
Qed.

Lemma iteration_counted results ns io_done l :
  counted results ns l -> counted results ns (iteration io_done l).
Proof.
  intros H. unfold iteration.
  generalize (ready l ++ woken_tasks io_done 0 (tasks l))%list. intros batch.
  assert (counted results ns
            (mkLoop (tasks l) [] (semaphore l) (consumer l) (num_sites l) (peak l)))
    as H0 by exact H.
  revert H0. generalize (mkLoop (tasks l) [] (semaphore l) (consumer l) (num_sites l) (peak l)).
  induction batch as [|h batch IH]; intros l0 H0; cbn; [exact H0|].
  apply IH. now apply run_handle_counted.
Qed.

Lemma iterations_counted results ns io start n l :
  counted results ns l -> counted results ns (iterations io start n l).
Proof.
  revert start l. induction n as [|n IH]; intros start l H; cbn; [exact H|].
  apply IH. now apply iteration_counted.
Qed.

Lemma start_batch_counted max_workers behaviours ns :
  counted (map snd behaviours) ns (start_batch max_workers behaviours ns).
Proof.
  unfold start_batch. apply consume_counted; cbn [tasks num_sites].
  - rewrite map_map. reflexivity.
  - reflexivity.
  - rewrite !length_map. lia.
Qed.

(** Whenever the consumer has gone through the batch, the counter has
    grown by one for each task whose flag is not zero. *)
Lemma batch_counts_flags max_workers behaviours ns io start n :
  let l := iterations io start n (start_batch max_workers behaviours ns) in
  consumer l = Completed -> num_sites l = tally_all (map snd behaviours) ns.
Proof.
  intros l Hdone.
  destruct (iterations_counted (map snd behaviours) ns io start n _
              (start_batch_counted max_workers behaviours ns)) as [_ Hc].
  fold l in Hc. now rewrite Hdone in Hc.
Qed.

(** *** How many pipelines are in flight *)

(** A task that has not run and will suspend at least once. *)
Definition will_suspend (t : Task) : Prop := exists k, progress t = Pending (S k).

Lemma running_count done rest :
  Forall (fun t => is_running t = true) done ->
  Forall will_suspend rest ->
  length (filter (fun t => is_running t = true) (done ++ rest)%list) = length done.
Proof.
  intros Hdone Hrest. rewrite filter_app, length_app.
  assert (filter (fun t => is_running t = true) rest = []) as ->.
  { induction Hrest as [|t rest [k Hk] _ IH]; [reflexivity|].
    rewrite filter_cons_False; [exact IH|].
    unfold is_running. rewrite Hk. discriminate. }
  cbn. rewrite Nat.add_0_r.
  induction Hdone as [|t done Ht _ IH]; [reflexivity|].
  rewrite filter_cons_True by exact Ht. cbn. now rewrite IH.
Qed.

Lemma woken_pending io_done i ts :
  Forall will_suspend ts -> woken_tasks io_done i ts = [].
Proof.
  intros H. revert i. induction H as [|t ts [k Hk] _ IH]; intros i; [reflexivity|].
  cbn. unfold is_running. rewrite Hk. cbn. apply IH.
Qed.

(** The first steps of the tasks [rest], run one after the other: each
    task starts and suspends, none finishes. *)
Lemma first_steps rest : forall done l,
  tasks l = (done ++ rest)%list ->
  Forall (fun t => is_running t = true) done ->
  Forall will_suspend rest ->
  peak l = length done ->
  let l' :=
    fold_left (fun l h => run_handle h l)
      (map HTask (seq (length done) (length rest))) l in
  in_flight l' = (length done + length rest)%nat
  /\ peak l' = (length done + length rest)%nat
  /\ consumer l' = consumer l
  /\ num_sites l' = num_sites l.
Proof.
  induction rest as [|t rest IH]; intros done l Htasks Hdone Hrest Hpeak.
  - cbn. rewrite Nat.add_0_r. repeat split; [|exact Hpeak].
    unfold in_flight. rewrite Htasks. now apply running_count.
  - apply Forall_cons in Hrest as [[k Hk] Hrest].
    cbn [length seq map fold_left].
    assert (tasks l !! length done = Some t) as Hlook
      by (rewrite Htasks; apply list_lookup_middle; reflexivity).
    set (t' := mkTask (Running k) (result t)).
    assert (run_handle (HTask (length done)) l
            = mkLoop (done ++ [t'] ++ rest)%list (ready l) (semaphore l) (consumer l)
                     (num_sites l) (S (length done))) as Hstep.
    { unfold run_handle, step_task. rewrite Hlook, Hk.
      unfold observe, in_flight. cbn [tasks ready semaphore consumer num_sites peak].
      rewrite Htasks.
      replace (length done) with (length done + 0)%nat at 1 2 by lia.
      rewrite insert_app_r. cbn [insert list_insert].
      f_equal.
      change (done ++ mkTask (Running k) (result t) :: rest)%list
        with (done ++ [t'] ++ rest)%list.
      rewrite app_assoc, running_count.
      - rewrite length_app. cbn. lia.
      - apply Forall_app. split; [exact Hdone|]. now constructor.
      - exact Hrest. }
    rewrite Hstep.
    specialize (IH (done ++ [t'])%list
                  (mkLoop (done ++ [t'] ++ rest)%list (ready l) (semaphore l)
                          (consumer l) (num_sites l) (S (length done)))).
    rewrite length_app in IH. cbn [length] in IH.
    replace (length done + 1)%nat with (S (length done)) in IH by lia.
    destruct IH as (H1 & H2 & H3 & H4).
    + cbn [tasks]. now rewrite <- app_assoc.
    + apply Forall_app. split; [exact Hdone|]. now constructor.
    + exact Hrest.
    + reflexivity.
    + cbv zeta. rewrite H1, H2, H3, H4. cbn. repeat split; lia.
Qed.

(** The semaphore alone bounds nothing: the tasks of a batch are all
    scheduled when they are made, and the semaphore is taken by the
    consumer alone, around its [await].  Were the pipelines of a batch to
    wait for the network at least once each, all [4 * max_workers] of
    them would be in flight together after the first turn of the event
    loop. *)
Lemma gate_admits_whole_batch (max_workers : nat)
    (behaviours : list (nat * (Z * Z * Z))) (ns : Z) (io_done : nat -> bool) :
  (0 < max_workers)%nat ->
  length behaviours = batch_size max_workers ->
  Forall (fun b => (0 < fst b)%nat) behaviours ->
  let l := iteration io_done (start_batch max_workers behaviours ns) in
  in_flight l = (4 * max_workers)%nat
  /\ peak l = (4 * max_workers)%nat
  /\ (max_workers < peak l)%nat.
Proof.
  intros HW Hlen Hsusp.
  set (ts := map (fun b => mkTask (Pending (fst b)) (snd b)) behaviours).
  assert (Forall will_suspend ts) as Hts.
  { subst ts. apply Forall_fmap. eapply Forall_impl; [exact Hsusp|].
    intros [k r] Hk. cbn in *. destruct k as [|k]; [lia|]. now exists k. }
  assert (length ts = (4 * max_workers)%nat) as Hn
    by (subst ts; rewrite length_map, Hlen; unfold batch_size; lia).
  assert (start_batch max_workers behaviours ns
          = mkLoop ts (map HTask (seq 0 (length ts))) (max_workers - 1)
                   (Awaiting 0) ns 0) as Hstart.
  { unfold start_batch. fold ts. cbn [consume tasks].
    destruct ts as [|t ts'] eqn:Ets; [cbn in Hn; lia|].
    cbn [lookup list_lookup semaphore].
    destruct max_workers as [|free]; [lia|].
    apply Forall_cons in Hts as [[k Hk] _]. rewrite Hk.
    cbn. now rewrite Nat.sub_0_r. }
  intros l. subst l. rewrite Hstart. unfold iteration.
  cbn [ready tasks semaphore consumer num_sites peak].
  rewrite (woken_pending io_done 0 ts Hts), app_nil_r.
  destruct (first_steps ts [] (mkLoop ts [] (max_workers - 1) (Awaiting 0) ns 0))
    as (H1 & H2 & _); try easy.
  cbn [length] in H1, H2. cbv zeta in H1, H2. cbn [Nat.add] in H1, H2.
  rewrite H1, H2, Hn. repeat split; lia.
Qed.

(** With one worker, four such pipelines are in flight at once. *)
Lemma gate_admits_four_pipelines :
  let behaviours := replicate 4 (1%nat, (2%Z, 100%Z, 1%Z)) in
  let l := iteration (fun _ => false) (start_batch 1 behaviours 0) in
  (0 < 1)%nat
  /\ length behaviours = batch_size 1
  /\ Forall (fun b => (0 < fst b)%nat) behaviours
  /\ in_flight l = 4%nat /\ peak l = 4%nat /\ (1 < peak l)%nat
  /\ semaphore l = 0%nat.
Proof.
  cbv zeta.
  assert (Forall (fun b : nat * (Z * Z * Z) => (0 < fst b)%nat)
            (replicate 4 (1%nat, (2%Z, 100%Z, 1%Z)))) as Hall
    by (repeat constructor).
  split; [lia|]. split; [reflexivity|]. split; [exact Hall|].
  pose proof (gate_admits_whole_batch 1 (replicate 4 (1%nat, (2%Z, 100%Z, 1%Z))) 0
                (fun _ => false) ltac:(lia) eq_refl Hall) as (H1 & H2 & H3).
  split; [exact H1|]. split; [exact H2|]. split; [exact H3|]. reflexivity.
Qed.

(** *** Pipelines that never wait *)














(** *** The pipelines of the program *)

Section WithWorld.
Context {L : PyLib} (W : World L) (CONFIG : Config).



(** The behaviours of a batch, each pipeline from a state of its own. *)
Definition behaviours (starts : list (string * State)) : list (nat * (Z * Z * Z)) :=
  map (fun start => behaviour W CONFIG (fst start) (snd start)) starts.


End WithWorld.


#[local] Existing Instance Ref.lib.


End SchedulerProperties.

(** ** Progress toward the target *)

Module ProgressProperties.
Import CollectWebParallel SchedulerProperties.











Import CollectSitesParallel.



#[local] Existing Instance Ref.lib.



End ProgressProperties.

(** ** The domain generator *)


Module GeneratorProperties.

(** The characters of a sanitized domain: a-z, 0-9, [-] and [.]. *)
Definition allowed_char (c : ascii) : bool :=
  Py.is_lower c || Py.is_digit c || Ascii.eqb c "-" || Ascii.eqb c ".".

Fixpoint only_allowed (s : string) : bool :=
  match s with
  | EmptyString => true
  | String c rest => allowed_char c && only_allowed rest
  end.

(** [method_weights or CONFIG.domain_weights] *)
Definition effective_weights (CONFIG : Config)
    (method_weights : option (list (string * Number))) : list (string * Number) :=
  match method_weights with
  | None | Some [] => domain_weights CONFIG
  | Some w => w
  end.

(** The total [random.choices] computes for a table,
    [cum_weights[-1] + 0.0], or the exception on the way to it. *)
Definition total_weight (w : list (string * Number)) : outcome Float.t :=
  match Random.accumulate (map snd w) with
  | Ret cum_weights =>
      match last cum_weights with
      | Some last_weight => Number.plus_zero last_weight
      | None => Raise "IndexError"
      end
  | Raise e => Raise e
  end.

Lemma bisect_bounds fuel a x lo hi :
  (lo <= hi)%nat ->
  (lo <= Random.bisect fuel a x lo hi <= hi)%nat.
Proof.
  revert lo hi. induction fuel as [|fuel IH]; intros lo hi Hle;
    cbn [Random.bisect]; [lia|].
  destruct (Nat.ltb_spec lo hi) as [Hlt|_]; [|lia]. cbv zeta.
  assert (lo <= (lo + hi) / 2 < hi)%nat as Hmid.
  { pose proof (Nat.div_mod_eq (lo + hi) 2) as Hdm.
    pose proof (Nat.mod_upper_bound (lo + hi) 2 ltac:(lia)). lia. }
  destruct (a !! ((lo + hi) / 2)%nat) as [am|]; [|lia].
  destruct (Number.float_lt x am).
  - specialize (IH lo ((lo + hi) / 2)%nat ltac:(lia)). lia.
  - specialize (IH (S ((lo + hi) / 2)) hi ltac:(lia)). lia.
Qed.

Lemma accumulate_from_length total ws cum :
  Random.accumulate_from total ws = Ret cum -> length cum = length ws.
Proof.
  revert total cum. induction ws as [|w ws IH]; intros total cum; cbn.
  - now intros [= <-].
  - destruct (Number.add total w) as [t|e]; [|discriminate].
    destruct (Random.accumulate_from t ws) as [totals|e] eqn:Hrest; [|discriminate].
    intros [= <-]. cbn. f_equal. eapply IH. exact Hrest.
Qed.

Lemma accumulate_length ws cum :
  Random.accumulate ws = Ret cum -> length cum = length ws.
Proof.
  destruct ws as [|w ws]; cbn; [now intros [= <-]|].
  destruct (Random.accumulate_from w ws) as [totals|e] eqn:Hrest; [|discriminate].
  intros [= <-]. cbn. f_equal. eapply accumulate_from_length. exact Hrest.
Qed.

(** With a total that is positive and finite the draw returns a member
    of the population. *)
Lemma choices_one_returns {A} (population : list A) (w : list (string * Number))
    total tape :
  length population = length w ->
  total_weight w = Ret total ->
  Float.leb total Float.zero = false ->
  Float.isfinite total = true ->
  exists x tape',
    Random.choices_one population (map snd w) tape = (Ret x, tape') /\ x ∈ population.
Proof.
  intros Hlen Htotal Hpos Hfin. unfold Random.choices_one.
  unfold total_weight in Htotal.
  destruct (Random.accumulate (map snd w)) as [cum|e] eqn:Hcum; [|discriminate].
  destruct (last cum) as [last_weight|] eqn:Hlast; [|discriminate].
  rewrite Htotal, Hpos, Hfin. cbn [negb].
  assert (0 < length population)%nat as Hne.
  { rewrite Hlen, <- (length_map snd), <- (accumulate_length _ _ Hcum).
    destruct cum; [discriminate | cbn; lia]. }
  assert (forall u,
             is_Some (population !! Random.bisect (S (length population - 1))
                                      cum u 0 (length population - 1))) as Hidx.
  { intros u. apply lookup_lt_is_Some_2.
    pose proof (bisect_bounds (S (length population - 1)) cum u 0
                  (length population - 1) ltac:(lia)). lia. }
  cbv beta iota zeta delta [Random.bind Random.random Random.next Random.ret].
  destruct tape as [|n rest];
    lazymatch goal with
    | |- context [population !! ?i] =>
        destruct (population !! i) as [x|] eqn:Hx;
          [| exfalso; eapply is_Some_None; rewrite <- Hx; apply Hidx ]
    end;
    eexists _, _; (split; [reflexivity|]); eapply list_elem_of_lookup_2; exact Hx.
Qed.

Section WithGenerator.
Context (self : DomainGenerator.t).

(** One passage of the loop: a strategy of the table is drawn; its value
    is returned as it is, and its exception leads to the next
    passage. *)
Lemma generate_loop_step w total tape :
  total_weight w = Ret total ->
  Float.leb total Float.zero = false ->
  Float.isfinite total = true ->
  exists method tape1,
    Random.choices_one (map fst w) (map snd w) tape = (Ret method, tape1)
    /\ method ∈ map fst w
    /\ (forall fuel domain tape2,
          DomainGenerator.call_method self method tape1 = (Ret domain, tape2) ->
          DomainGenerator.generate_loop self (S fuel) w tape = (Ret (Some domain), tape2))
    /\ (forall fuel e tape2,
          DomainGenerator.call_method self method tape1 = (Raise e, tape2) ->
          DomainGenerator.generate_loop self (S fuel) w tape
          = DomainGenerator.generate_loop self fuel w tape2).
Proof.
  intros Htotal Hpos Hfin.
  destruct (choices_one_returns (map fst w) w total tape)
    as (method & tape1 & Hdraw & Hin); try assumption; [now rewrite length_map|].
  exists method, tape1. split; [exact Hdraw|]. split; [exact Hin|].
  split; intros fuel; intros ? tape2 Hcall;
    cbn [DomainGenerator.generate_loop]; unfold Random.bind;
    now rewrite Hdraw, Hcall.
Qed.

(** The loop never raises. *)
Lemma generate_loop_never_raises w total fuel :
  total_weight w = Ret total ->
  Float.leb total Float.zero = false ->
  Float.isfinite total = true ->
  forall tape e, fst (DomainGenerator.generate_loop self fuel w tape) <> Raise e.
Proof.
  intros Htotal Hpos Hfin. induction fuel as [|fuel IH]; intros tape e;
    [discriminate|].
  destruct (generate_loop_step w total tape Htotal Hpos Hfin)
    as (method & tape1 & _ & _ & Hret & Hraise).
  destruct (DomainGenerator.call_method self method tape1) as [[domain|e'] tape2] eqn:Hcall.
  - rewrite (Hret fuel domain tape2 eq_refl). discriminate.
  - rewrite (Hraise fuel e' tape2 eq_refl). apply IH.
Qed.

End WithGenerator.

(** C7, as amended.  For a weight table whose total weight, as
    [random.choices] computes it, is positive and finite, [generate()]
    never raises.  Each passage of its loop draws a strategy of the
    table; when the strategy returns, [generate] returns that value as
    it is, with no sanitization of its own; when the strategy raises,
    the loop goes on with another draw, from where the strategy left the
    random generator. *)
Theorem generate_retries_until_a_strategy_returns (self : DomainGenerator.t)
    (CONFIG : Config) (method_weights : option (list (string * Number)))
    (total : Float.t) :
  let w := effective_weights CONFIG method_weights in
  total_weight w = Ret total ->
  Float.leb total Float.zero = false ->
  Float.isfinite total = true ->
  forall (fuel : nat) (tape : list nat),
    (forall e,
       fst (DomainGenerator.generate self CONFIG fuel method_weights tape) <> Raise e)
    /\ exists method tape1,
         Random.choices_one (map fst w) (map snd w) tape = (Ret method, tape1)
         /\ method ∈ map fst w
         /\ (forall domain tape2,
               DomainGenerator.call_method self method tape1 = (Ret domain, tape2) ->
               DomainGenerator.generate self CONFIG (S fuel) method_weights tape
               = (Ret (Some domain), tape2))
         /\ (forall e tape2,
               DomainGenerator.call_method self method tape1 = (Raise e, tape2) ->
               DomainGenerator.generate self CONFIG (S fuel) method_weights tape
               = DomainGenerator.generate self CONFIG fuel method_weights tape2).
Proof.
  intros w Htotal Hpos Hfin fuel tape.
  split; [apply (generate_loop_never_raises self w total fuel Htotal Hpos Hfin)|].
  destruct (generate_loop_step self w total tape Htotal Hpos Hfin)
    as (method & tape1 & Hdraw & Hin & Hret & Hraise).
  exists method, tape1. repeat split; try assumption.
  - intros domain tape2. apply Hret.
  - intros e tape2. apply Hraise.
Qed.

(** A generator whose corpus is the single entry [Example.COM], and
    which knows no TLD. *)
Definition one_entry : DomainGenerator.t :=
  DomainGenerator.mk ["Example.COM"] ["example"] [] (fun _ => None)
    (fun _ => Random.raise "AttributeError").

(** [2.0 ** -53] and [1.0] *)
Definition small_and_one : list (string * Number) :=
  [ ("get_random_known_domain_tld", Flt (Float.Finite 1 (-53)));
    ("get_random_known_domain", Flt (Float.Finite 1 0)) ].

(** The first draw selects the alternate-TLD strategy, which raises
    [IndexError] for want of a TLD; the loop draws again, selects the
    known-domain strategy, and returns its value. *)
Lemma generate_retries_until_a_strategy_returns_witness :
  let tape := [0; 0; 1; 0]%nat in
  total_weight (effective_weights Ref.config (Some small_and_one)) = Ret (Float.Finite 1 0)
  /\ Random.choices_one (map fst small_and_one) (map snd small_and_one) tape
     = (Ret "get_random_known_domain_tld", [0; 1; 0]%nat)
  /\ DomainGenerator.call_method one_entry "get_random_known_domain_tld" [0; 1; 0]%nat
     = (Raise "IndexError", [1; 0]%nat)
  /\ (forall e,
        fst (DomainGenerator.generate one_entry Ref.config 2 (Some small_and_one) tape)
        <> Raise e)
  /\ DomainGenerator.generate one_entry Ref.config 2 (Some small_and_one) tape
     = DomainGenerator.generate one_entry Ref.config 1 (Some small_and_one) [1; 0]%nat
  /\ DomainGenerator.generate one_entry Ref.config 2 (Some small_and_one) tape
     = (Ret (Some "Example.COM"), []).
Proof.
  cbv zeta.
  assert (total_weight (effective_weights Ref.config (Some small_and_one))
          = Ret (Float.Finite 1 0)) as Htotal by (vm_compute; reflexivity).
  assert (Random.choices_one (map fst small_and_one) (map snd small_and_one)
            [0; 0; 1; 0]%nat
          = (Ret "get_random_known_domain_tld", [0; 1; 0]%nat)) as Hdraw
    by (vm_compute; reflexivity).
  assert (DomainGenerator.call_method one_entry "get_random_known_domain_tld"
            [0; 1; 0]%nat = (Raise "IndexError", [1; 0]%nat)) as Hcall
    by (vm_compute; reflexivity).
  destruct (generate_retries_until_a_strategy_returns one_entry Ref.config
              (Some small_and_one) (Float.Finite 1 0) Htotal eq_refl eq_refl
              1%nat [0; 0; 1; 0]%nat)
    as (_ & method & tape1 & Hdraw' & _ & _ & Hraise).
  cbn [effective_weights small_and_one] in Hdraw'. fold small_and_one in Hdraw'.
  rewrite Hdraw in Hdraw'. injection Hdraw' as <- <-.
  split; [exact Htotal|]. split; [exact Hdraw|]. split; [exact Hcall|].
  split.
  { exact (proj1 (generate_retries_until_a_strategy_returns one_entry Ref.config
                    (Some small_and_one) (Float.Finite 1 0) Htotal eq_refl eq_refl
                    2%nat [0; 0; 1; 0]%nat)). }
  split; [exact (Hraise _ _ Hcall)|].
  vm_compute. reflexivity.
Defined.

(** C7, as stated, fails: a table whose weights add up to zero makes
    [generate] raise, and so does one whose weights add up to more than
    a float holds; and with all the weight on the known-domain strategy
    [generate] returns the corpus entry as it is, capitals included. *)
Lemma generate_raises_and_returns_capitals :
  fst (DomainGenerator.generate one_entry Ref.config 5
         (Some [("get_random_known_domain", Flt Float.zero)]) [])
  = Raise "ValueError: Total of weights must be greater than zero"
  /\ fst (DomainGenerator.generate one_entry Ref.config 5
            (Some [("get_random_known_domain", Flt (Float.round (10 ^ 308) 1));
                   ("get_random_words_domain", Flt (Float.round (10 ^ 308) 1))]) [])
     = Raise "ValueError: Total of weights must be finite"
  /\ fst (DomainGenerator.generate one_entry Ref.config 5
            (Some [("get_random_known_domain", Flt (Float.Finite 1 0))]) [])
     = Ret (Some "Example.COM")
  /\ only_allowed "Example.COM" = false.
Proof. repeat split; vm_compute; reflexivity. Qed.

End GeneratorProperties.

(** ** The sanitizer *)

Module SanitizerProperties.

Import GeneratorProperties.

(** Every character of [s] is an ASCII character. *)
Fixpoint is_ascii (s : string) : bool :=
  match s with
  | EmptyString => true
  | String c rest => (nat_of_ascii c <? 128)%nat && is_ascii rest
  end.

(** An ASCII character that is kept comes out as one of a-z, 0-9, [-]
    and [.], which is kept and lower-cased to itself. *)
Lemma keeps_lower c :
  (nat_of_ascii c <? 128)%nat = true ->
  DomainGenerator.keeps c = true ->
  allowed_char (Py.str_lower_char c) = true
  /\ DomainGenerator.keeps (Py.str_lower_char c) = true
  /\ Py.str_lower_char (Py.str_lower_char c) = Py.str_lower_char c.
Proof.
  destruct c as [[] [] [] [] [] [] [] []]; vm_compute; intros; repeat split; congruence.
Qed.

Lemma allowed_kept c :
  allowed_char c = true ->
  DomainGenerator.keeps c = true /\ Py.str_lower_char c = c.
Proof. destruct c as [[] [] [] [] [] [] [] []]; vm_compute; intros; split; congruence. Qed.

(** X1.  On an input of ASCII characters [string_to_domain] returns a
    string of a-z, 0-9, [-] and [.] only, no longer than the input; an
    input that is such a string already is returned as it is. *)
Theorem string_to_domain_sanitizes_ascii (input_string : string) :
  is_ascii input_string = true ->
  only_allowed (DomainGenerator.string_to_domain input_string) = true
  /\ (String.length (DomainGenerator.string_to_domain input_string)
      <= String.length input_string)%nat
  /\ (only_allowed input_string = true ->
      DomainGenerator.string_to_domain input_string = input_string).
Proof.
  induction input_string as [|c rest IH]; [now repeat split|].
  cbn [is_ascii]. intros [Hc Hrest]%andb_true_iff.
  destruct (IH Hrest) as (IH1 & IH2 & IH3).
  cbn [DomainGenerator.string_to_domain only_allowed String.length].
  repeat split.
  - destruct (DomainGenerator.keeps c) eqn:Hk; [|exact IH1].
    cbn [only_allowed]. destruct (keeps_lower c Hc Hk) as (-> & _). exact IH1.
  - destruct (DomainGenerator.keeps c); cbn [String.length]; lia.
  - intros [Hall Hothers]%andb_true_iff.
    destruct (allowed_kept c Hall) as [-> ->]. now rewrite (IH3 Hothers).
Qed.

(** X2.  On an input of ASCII characters, sanitizing twice is sanitizing
    once. *)
Theorem string_to_domain_idempotent (input_string : string) :
  is_ascii input_string = true ->
  DomainGenerator.string_to_domain (DomainGenerator.string_to_domain input_string)
  = DomainGenerator.string_to_domain input_string.
Proof.
  induction input_string as [|c rest IH]; [reflexivity|].
  cbn [is_ascii]. intros [Hc Hrest]%andb_true_iff.
  cbn [DomainGenerator.string_to_domain].
  destruct (DomainGenerator.keeps c) eqn:Hk; [|exact (IH Hrest)].
  destruct (keeps_lower c Hc Hk) as (_ & Hk' & Hl).
  cbn [DomainGenerator.string_to_domain]. now rewrite Hk', Hl, (IH Hrest).
Qed.

Lemma string_to_domain_sanitizes_ascii_witness :
  is_ascii "Hello, World_9.Com" = true
  /\ DomainGenerator.string_to_domain "Hello, World_9.Com" = "helloworld9.com"
  /\ only_allowed (DomainGenerator.string_to_domain "Hello, World_9.Com") = true.
Proof.
  split; [reflexivity|]. split; [reflexivity|].
  exact (proj1 (string_to_domain_sanitizes_ascii "Hello, World_9.Com" eq_refl)).
Defined.

Lemma string_to_domain_idempotent_witness :
  is_ascii "Hello, World_9.Com" = true
  /\ DomainGenerator.string_to_domain
       (DomainGenerator.string_to_domain "Hello, World_9.Com")
     = DomainGenerator.string_to_domain "Hello, World_9.Com".
Proof.
  split; [reflexivity|].
  exact (string_to_domain_idempotent "Hello, World_9.Com" eq_refl).
Defined.

End SanitizerProperties.

(** ** The strategies of the generator *)

Module StrategyProperties.

(** *** [random.choice] and [random.sample] *)

Lemma choice_returns {A} (seq : list A) tape x tape' :
  Random.choice seq tape = (Ret x, tape') -> x ∈ seq.
Proof.
  unfold Random.choice. destruct seq as [|a seq]; [discriminate|].
  unfold Random.bind, Random.next, Random.ret, Random.raise.
  destruct tape as [|n rest];
    lazymatch goal with
    | |- context [(a :: seq) !! ?i] => destruct ((a :: seq) !! i) as [y|] eqn:Hy
    end; intros [= <- <-] || discriminate; eapply list_elem_of_lookup_2; exact Hy.
Qed.

Lemma sample_from_returns {A} (population : list A) k tape xs tape' :
  Random.sample_from population k tape = (Ret xs, tape') ->
  length xs = k /\ xs ⊆+ population.
Proof.
  revert population tape xs tape'.
  induction k as [|k IH]; intros population tape xs tape'; cbn [Random.sample_from].
  - intros [= <- <-]. split; [reflexivity | apply submseteq_nil_l].
  - unfold Random.bind at 1. unfold Random.next.
    set (n := match tape with [] => O | n :: _ => n end).
    set (tape1 := match tape with [] => [] | _ :: rest => rest end).
    replace (match tape with [] => (Ret O, []) | n0 :: rest => (Ret n0, rest) end)
      with (Ret n, tape1) by (now destruct tape).
    cbv zeta.
    destruct (population !! (n mod length population)%nat) as [x|] eqn:Hx;
      [|discriminate].
    unfold Random.bind.
    destruct (Random.sample_from (delete (n mod length population)%nat population) k tape1)
      as [[rest|e] tape2] eqn:Hrest; [|discriminate].
    unfold Random.ret. intros [= <- <-].
    destruct (IH _ _ _ _ Hrest) as [Hlen Hsub]. split; [cbn; now rewrite Hlen|].
    rewrite (delete_Permutation _ _ _ Hx). now apply submseteq_skip.
Qed.

Lemma sample_returns {A} (population : list A) k tape xs tape' :
  Random.sample population k tape = (Ret xs, tape') ->
  length xs = k /\ xs ⊆+ population.
Proof.
  unfold Random.sample. destruct (length population <? k)%nat; [discriminate|].
  apply sample_from_returns.
Qed.

Lemma randint_returns a b tape n tape' :
  (a <= b)%nat ->
  Random.randint a b tape = (Ret n, tape') -> (a <= n <= b)%nat.
Proof.
  intros Hab. unfold Random.randint, Random.bind, Random.next, Random.ret.
  destruct tape as [|m rest]; intros [= <- <-].
  - rewrite Nat.Div0.mod_0_l. lia.
  - pose proof (Nat.mod_upper_bound m (b - a + 1) ltac:(lia)). lia.
Qed.

Lemma bind_returns {A B} (m : Random.R A) (k : A -> Random.R B) tape b tape' :
  Random.bind m k tape = (Ret b, tape') ->
  exists a tape1, m tape = (Ret a, tape1) /\ k a tape1 = (Ret b, tape').
Proof.
  unfold Random.bind. destruct (m tape) as [[a|e] tape1]; [|discriminate].
  intros H. now exists a, tape1.
Qed.

(** *** [get_random_chars_domain] *)

Definition alphabet : string := "abcdefghijklmnopqrstuvwxyz".

Lemma join_single_length (parts : list string) :
  Forall (fun s => String.length s = 1%nat) parts ->
  String.length (Py.join "" parts) = length parts.
Proof.
  induction 1 as [|p parts Hp _ IH]; [reflexivity|].
  destruct parts as [|q parts]; [exact Hp|].
  change (Py.join "" (p :: q :: parts)) with (p ++ "" ++ Py.join "" (q :: parts)).
  rewrite RefFacts.string_length_app.
  change ("" ++ Py.join "" (q :: parts)) with (Py.join "" (q :: parts)).
  rewrite IH, Hp. reflexivity.
Qed.

Lemma chars_single (s : string) :
  Forall (fun c => String.length c = 1%nat) (DomainGenerator.chars s).
Proof. induction s; cbn; constructor; auto. Qed.

(** X3.  The random-characters strategy returns a label of one to ten
    letters of a-z, none of them twice ([random.sample] draws without
    replacement), followed by a dot and one of the known TLDs. *)
Theorem random_chars_domain_shape (self : DomainGenerator.t)
    (tape : list nat) (domain : string) (tape' : list nat) :
  DomainGenerator.get_random_chars_domain self tape = (Ret domain, tape') ->
  exists characters tld,
    domain = Py.join "" characters ++ "." ++ tld
    /\ tld ∈ DomainGenerator.known_tlds self
    /\ (1 <= length characters <= 10)%nat
    /\ String.length (Py.join "" characters) = length characters
    /\ NoDup characters
    /\ characters ⊆ DomainGenerator.chars alphabet.
Proof.
  unfold DomainGenerator.get_random_chars_domain. intros H.
  apply bind_returns in H as (num_chars & tape1 & Hn & H).
  apply bind_returns in H as (characters & tape2 & Hs & H).
  apply bind_returns in H as (tld & tape3 & Ht & H).
  injection H as <- <-.
  apply randint_returns in Hn; [|lia].
  apply sample_returns in Hs as [Hlen Hsub].
  apply choice_returns in Ht.
  assert (characters ⊆ DomainGenerator.chars alphabet) as Hincl
    by (intros x Hx; eapply elem_of_submseteq; eassumption).
  exists characters, tld. repeat split; try assumption; try lia.
  - apply join_single_length. rewrite Forall_forall. intros x Hx.
    exact (proj1 (Forall_forall _ _) (chars_single alphabet) x (Hincl x Hx)).
  - apply submseteq_Permutation in Hsub as [k Hperm].
    assert (NoDup (DomainGenerator.chars alphabet)) as Hnd
      by (apply (bool_decide_unpack _); vm_compute; reflexivity).
    rewrite Hperm in Hnd. now apply NoDup_app in Hnd as [? _].
Qed.

(** A generator with a small corpus. *)
Definition sample_generator : DomainGenerator.t :=
  DomainGenerator.mk ["example.com"; "localhost"] ["internet"; "museum"; "cat"]
    ["net"; "com"] (fun _ => None) (fun _ => Random.raise "AttributeError").

Lemma random_chars_domain_shape_witness :
  DomainGenerator.get_random_chars_domain sample_generator [2; 0; 1; 2; 0]%nat
  = (Ret "ace.net", [])
  /\ exists characters tld,
       "ace.net" = Py.join "" characters ++ "." ++ tld
       /\ tld ∈ DomainGenerator.known_tlds sample_generator
       /\ (1 <= length characters <= 10)%nat
       /\ String.length (Py.join "" characters) = length characters
       /\ NoDup characters
       /\ characters ⊆ DomainGenerator.chars alphabet.
Proof.
  split; [vm_compute; reflexivity|].
  apply (random_chars_domain_shape sample_generator [2; 0; 1; 2; 0]%nat "ace.net" []).
  vm_compute; reflexivity.
Defined.

(** *** [get_random_domain_tld_suffix] *)

Lemma take_drop_str n s : (Py.take_str n s ++ Py.drop_str n s)%string = s.
Proof.
  revert s. induction n as [|n IH]; intros [|c s]; try reflexivity.
  cbn [Py.take_str Py.drop_str]. change (String c (Py.take_str n s) ++ Py.drop_str n s)%string
    with (String c (Py.take_str n s ++ Py.drop_str n s)). now rewrite IH.
Qed.

Lemma endswith_split word suffix :
  Py.endswith word suffix = true ->
  word = (Py.take_str (String.length word - String.length suffix) word ++ suffix)%string.
Proof.
  unfold Py.endswith. intros H. apply andb_prop in H as [_ H].
  apply String.eqb_eq in H.
  remember (String.length word - String.length suffix)%nat as n eqn:Hn. clear Hn.
  subst suffix. symmetry. apply take_drop_str.
Qed.

Lemma take_str_nonempty n s : (0 < n)%nat -> s <> "" -> Py.take_str n s <> "".
Proof. destruct n; [lia|]. destruct s; [congruence|]. discriminate. Qed.

(** X4.  With no empty TLD in the list, the domain hack cuts a dictionary
    word in two: what it returns is [subword.tld] for a word
    [subword ++ tld] of the dictionary with a non-empty [subword];
    without such a word it returns what [get_random_words_domain]
    returns. *)
Theorem domain_hack_splits_a_dictionary_word (self : DomainGenerator.t)
    (tape : list nat) (domain : string) (tape' : list nat) :
  "" ∉ DomainGenerator.known_tlds self ->
  DomainGenerator.get_random_domain_tld_suffix self tape = (Ret domain, tape') ->
  (exists subword tld,
      domain = subword ++ "." ++ tld
      /\ tld ∈ DomainGenerator.known_tlds self
      /\ subword <> ""
      /\ (subword ++ tld)%string ∈ DomainGenerator.dictionary_words self)
  \/ (exists tape1,
        DomainGenerator.get_random_words_domain self tape1 = (Ret domain, tape')).
Proof.
  intros Hne H. unfold DomainGenerator.get_random_domain_tld_suffix in H.
  apply bind_returns in H as (tld & tape1 & Ht & H).
  apply choice_returns in Ht. cbv zeta in H.
  destruct (filter _ (DomainGenerator.dictionary_words self)) as [|w ws] eqn:Hvalid.
  - right. now exists tape1.
  - left. apply bind_returns in H as (word & tape2 & Hw & H).
    injection H as <- <-. apply choice_returns in Hw.
    rewrite <- Hvalid in Hw. apply list_elem_of_filter in Hw as [Hp Hin].
    apply andb_prop in Hp as [Hend Hlt]. apply Nat.ltb_lt in Hlt.
    assert (tld <> "") as Htld by (intros ->; contradiction).
    exists (DomainGenerator.drop_suffix word (String.length tld)), tld.
    unfold DomainGenerator.drop_suffix.
    destruct (String.length tld) as [|n] eqn:Hn;
      [destruct tld; [congruence | discriminate]|].
    rewrite <- Hn. repeat split; [assumption| |].
    + apply take_str_nonempty; [lia|]. intros ->. cbn in Hlt. lia.
    + now rewrite <- (endswith_split word tld Hend).
Qed.

Lemma domain_hack_splits_a_dictionary_word_witness :
  ("" ∉ DomainGenerator.known_tlds sample_generator)
  /\ DomainGenerator.get_random_domain_tld_suffix sample_generator [0; 0]%nat
     = (Ret "inter.net", [])
  /\ ((exists subword tld,
         "inter.net" = subword ++ "." ++ tld
         /\ tld ∈ DomainGenerator.known_tlds sample_generator
         /\ subword <> ""
         /\ (subword ++ tld)%string ∈ DomainGenerator.dictionary_words sample_generator)
      \/ (exists tape1,
            DomainGenerator.get_random_words_domain sample_generator tape1
            = (Ret "inter.net", []))).
Proof.
  assert ("" ∉ DomainGenerator.known_tlds sample_generator) as Hne
    by (apply (bool_decide_unpack _); vm_compute; reflexivity).
  split; [exact Hne|]. split; [vm_compute; reflexivity|].
  apply (domain_hack_splits_a_dictionary_word sample_generator [0; 0]%nat
           "inter.net" [] Hne).
  vm_compute; reflexivity.
Defined.

Lemma drop_str_all s : Py.drop_str (String.length s) s = "".
Proof. induction s; [reflexivity | exact IHs]. Qed.

Lemma endswith_empty s : Py.endswith s "" = true.
Proof.
  unfold Py.endswith. cbn [String.length]. rewrite Nat.sub_0_r, drop_str_all.
  reflexivity.
Qed.

(** X5.  An empty TLD in the list turns the hack into a bare dot: every
    non-empty word "ends with" it, and [word[:-0]] is empty. *)
Theorem domain_hack_with_empty_tld (self : DomainGenerator.t) (tape : list nat) :
  DomainGenerator.known_tlds self = [""] ->
  (exists word, word ∈ DomainGenerator.dictionary_words self /\ word <> "") ->
  fst (DomainGenerator.get_random_domain_tld_suffix self tape) = Ret ".".
Proof.
  intros Htlds (word & Hin & Hword).
  unfold DomainGenerator.get_random_domain_tld_suffix. rewrite Htlds.
  assert (forall n, Random.choice [""] (n :: @nil nat) = (Ret "", [])) as _ by reflexivity.
  unfold Random.bind at 1.
  assert (exists tape1, Random.choice [""] tape = (Ret "", tape1)) as [tape1 ->].
  { unfold Random.choice, Random.bind, Random.next.
    destruct tape as [|n rest]; cbn [length]; rewrite ?Nat.mod_1_r; eexists; reflexivity. }
  cbv zeta.
  destruct (filter _ (DomainGenerator.dictionary_words self)) as [|w ws] eqn:Hvalid.
  - exfalso. assert (word ∈ @nil string) as Habs; [|now apply elem_of_nil in Habs].
    rewrite <- Hvalid. apply list_elem_of_filter. split; [|exact Hin].
    rewrite endswith_empty. destruct word; [congruence | reflexivity].
  - unfold Random.bind.
    destruct (Random.choice (w :: ws) tape1) as [[x|e] tape2] eqn:Hc; [reflexivity|].
    exfalso. revert Hc. unfold Random.choice, Random.bind, Random.next, Random.ret, Random.raise.
    destruct tape1 as [|n rest];
      lazymatch goal with
      | |- context [(w :: ws) !! ?i] =>
          destruct (lookup_lt_is_Some_2 (w :: ws) i) as [y ->]; [|discriminate]
      end; cbn [length]; try (apply Nat.mod_upper_bound; lia);
      rewrite ?Nat.Div0.mod_0_l; lia.
Qed.

Lemma domain_hack_with_empty_tld_witness :
  fst (DomainGenerator.get_random_domain_tld_suffix
         (DomainGenerator.mk [] ["cat"] [""] (fun _ => None)
            (fun _ => Random.raise "AttributeError")) [5; 7]%nat)
  = Ret ".".
Proof.
  apply domain_hack_with_empty_tld; [reflexivity|].
  exists "cat". split; [apply list_elem_of_here | discriminate].
Defined.

(** *** [get_random_known_domain_tld] *)

(** [c in s] for a character [c]. *)
Fixpoint has_char (c : ascii) (s : string) : bool :=
  match s with
  | EmptyString => false
  | String c' rest => Ascii.eqb c' c || has_char c rest
  end.

Lemma append_assoc (a b c : string) : ((a ++ b) ++ c = a ++ (b ++ c))%string.
Proof.
  induction a as [|x a IH]; [reflexivity|].
  change (String x ((a ++ b) ++ c) = String x (a ++ (b ++ c)))%string.
  now rewrite IH.
Qed.

Lemma join_cons sep p q rest :
  Py.join sep (p :: q :: rest) = (p ++ sep ++ Py.join sep (q :: rest))%string.
Proof. reflexivity. Qed.

Lemma join_snoc sep (init : list string) x :
  init <> [] ->
  Py.join sep (init ++ [x]) = (Py.join sep init ++ sep ++ x)%string.
Proof.
  induction init as [|p init IH]; [congruence|]. intros _.
  destruct init as [|q init]; [reflexivity|].
  change ((p :: q :: init) ++ [x])%list with (p :: (q :: init) ++ [x])%list.
  change ((q :: init) ++ [x])%list with (q :: (init ++ [x]))%list in *.
  rewrite !join_cons. rewrite (IH ltac:(discriminate)).
  now rewrite !append_assoc.
Qed.

Lemma set_last_snoc (init : list string) l x :
  DomainGenerator.set_last (init ++ [l]) x = (init ++ [x])%list.
Proof.
  induction init as [|p init IH]; [reflexivity|].
  cbn [app DomainGenerator.set_last]. rewrite IH.
  destruct (init ++ [l])%list eqn:E; [|reflexivity].
  destruct init; discriminate.
Qed.

(** [s.split(".")]: the parts joined by dots give [s] back, and the last
    part has no dot. *)
Lemma split_on_dot (s : string) :
  exists init last,
    Py.split_on "." s = (init ++ [last])%list
    /\ has_char "." last = false
    /\ s = Py.join "." (init ++ [last]).
Proof.
  induction s as [|c s (init & last & Hsplit & Hlast & Hjoin)].
  - exists [], "". repeat split.
  - cbn [Py.split_on]. destruct (Ascii.eqb c ".") eqn:Hc.
    + apply Ascii.eqb_eq in Hc as ->. exists ("" :: init), last.
      rewrite Hsplit. repeat split; [assumption|].
      change (("" :: init) ++ [last])%list with ("" :: (init ++ [last]))%list.
      destruct (init ++ [last])%list as [|q rest] eqn:E;
        [destruct init; discriminate|].
      rewrite join_cons, <- Hjoin. reflexivity.
    + rewrite Hsplit. destruct init as [|i init].
      * exists [], (String c last). cbn [app]. repeat split.
        -- cbn [has_char]. now rewrite Hc.
        -- cbn in Hjoin. now subst s.
      * exists (String c i :: init), last. cbn [app]. repeat split; [assumption|].
        cbn [app] in Hjoin.
        destruct (init ++ [last])%list as [|q rest] eqn:E;
          [destruct init; discriminate|].
        rewrite join_cons in *. now subst s.
Qed.

(** X6.  The alternate-TLD strategy replaces what follows the last dot of a
    known domain by one of the known TLDs; a known domain without a dot
    is replaced as a whole, so that the bare TLD is returned. *)
Theorem known_domain_tld_replaces_last_label (self : DomainGenerator.t)
    (tape : list nat) (domain : string) (tape' : list nat) :
  DomainGenerator.get_random_known_domain_tld self tape = (Ret domain, tape') ->
  exists known tld,
    known ∈ DomainGenerator.known_domains self
    /\ tld ∈ DomainGenerator.known_tlds self
    /\ ((has_char "." known = false /\ domain = tld)
        \/ (exists stem last,
              known = stem ++ "." ++ last
              /\ has_char "." last = false
              /\ domain = stem ++ "." ++ tld)).
Proof.
  unfold DomainGenerator.get_random_known_domain_tld,
    DomainGenerator.get_random_known_domain. intros H.
  apply bind_returns in H as (known & tape1 & Hk & H).
  apply bind_returns in H as (tld & tape2 & Ht & H).
  cbv zeta in H. injection H as <- <-.
  apply choice_returns in Hk. apply choice_returns in Ht.
  exists known, tld. split; [assumption|]. split; [assumption|].
  destruct (split_on_dot known) as (init & last & Hsplit & Hlast & Hjoin).
  rewrite Hsplit, set_last_snoc.
  destruct init as [|i init].
  - left. cbn in Hjoin. subst known. split; [assumption | reflexivity].
  - right. exists (Py.join "." (i :: init)), last.
    rewrite !join_snoc in * by discriminate. repeat split; assumption.
Qed.

Lemma known_domain_tld_replaces_last_label_witness :
  DomainGenerator.get_random_known_domain_tld sample_generator [1; 0]%nat
  = (Ret "net", [])
  /\ exists known tld,
       known ∈ DomainGenerator.known_domains sample_generator
       /\ tld ∈ DomainGenerator.known_tlds sample_generator
       /\ ((has_char "." known = false /\ "net" = tld)
           \/ (exists stem last,
                 known = stem ++ "." ++ last
                 /\ has_char "." last = false
                 /\ "net" = stem ++ "." ++ tld)).
Proof.
  split; [vm_compute; reflexivity|].
  apply (known_domain_tld_replaces_last_label sample_generator [1; 0]%nat "net" []).
  vm_compute; reflexivity.
Defined.

(** *** [get_random_words_domain] and [get_random_ipv4_domain] *)

(** X26.  Whenever the random-words strategy returns, it has drawn one
    to three words at different positions of the dictionary and one of
    the separators [""], ["-"], ["."]; what it returns is the sanitized
    joined words, a dot and one of the known TLDs, the TLD as it is. *)
Theorem random_words_domain_shape (self : DomainGenerator.t)
    (tape : list nat) (domain : string) (tape' : list nat) :
  DomainGenerator.get_random_words_domain self tape = (Ret domain, tape') ->
  exists words separator tld,
    domain = DomainGenerator.string_to_domain (Py.join separator words) ++ "." ++ tld
    /\ (1 <= length words <= 3)%nat
    /\ words ⊆+ DomainGenerator.dictionary_words self
    /\ separator ∈ [""; "-"; "."]
    /\ tld ∈ DomainGenerator.known_tlds self.
Proof.
  unfold DomainGenerator.get_random_words_domain. intros H.
  apply bind_returns in H as (num_words & tape1 & Hn & H).
  apply bind_returns in H as (words & tape2 & Hs & H).
  apply bind_returns in H as (separator & tape3 & Hsep & H).
  apply bind_returns in H as (tld & tape4 & Ht & H).
  injection H as <- <-.
  apply randint_returns in Hn; [|lia].
  apply sample_returns in Hs as [Hlen Hsub].
  apply choice_returns in Hsep. apply choice_returns in Ht.
  exists words, separator, tld. repeat split; try assumption; lia.
Qed.

Lemma random_words_domain_shape_witness :
  DomainGenerator.get_random_words_domain sample_generator [1; 2; 0; 1; 1]%nat
  = (Ret "cat-internet.com", [])
  /\ exists words separator tld,
       "cat-internet.com"
       = DomainGenerator.string_to_domain (Py.join separator words) ++ "." ++ tld
       /\ (1 <= length words <= 3)%nat
       /\ words ⊆+ DomainGenerator.dictionary_words sample_generator
       /\ separator ∈ [""; "-"; "."]
       /\ tld ∈ DomainGenerator.known_tlds sample_generator.
Proof.
  split; [vm_compute; reflexivity|].
  apply (random_words_domain_shape sample_generator [1; 2; 0; 1; 1]%nat
           "cat-internet.com" []).
  vm_compute; reflexivity.
Defined.

(** X27.  Whenever the reverse-lookup strategy returns, it has formed an
    address of four numbers from 0 to 255; it returns the name of the
    PTR record of that address as it is, and a known domain when the
    lookup gave none. *)
Theorem random_ipv4_domain_result (self : DomainGenerator.t)
    (tape : list nat) (domain : string) (tape' : list nat) :
  DomainGenerator.get_random_ipv4_domain self tape = (Ret domain, tape') ->
  exists a b c d : nat,
    (a <= 255 /\ b <= 255 /\ c <= 255 /\ d <= 255)%nat
    /\ let ipv4_address := Py.join "." [pretty a; pretty b; pretty c; pretty d] in
       DomainGenerator.ptr_lookup self ipv4_address = Some domain
       \/ (DomainGenerator.ptr_lookup self ipv4_address = None
           /\ domain ∈ DomainGenerator.known_domains self).
Proof.
  unfold DomainGenerator.get_random_ipv4_domain. intros H.
  apply bind_returns in H as (a & tape1 & Ha & H).
  apply bind_returns in H as (b & tape2 & Hb & H).
  apply bind_returns in H as (c & tape3 & Hc & H).
  apply bind_returns in H as (d & tape4 & Hd & H).
  apply randint_returns in Ha, Hb, Hc, Hd; try lia.
  exists a, b, c, d. split; [lia|]. cbv zeta in *.
  destruct (DomainGenerator.ptr_lookup self _) as [name|] eqn:Hptr.
  - left. injection H as <- _. reflexivity.
  - right. split; [reflexivity|]. now apply choice_returns in H.
Qed.

Lemma random_ipv4_domain_result_witness :
  DomainGenerator.get_random_ipv4_domain sample_generator [10; 0; 0; 257; 1]%nat
  = (Ret "localhost", [])
  /\ exists a b c d : nat,
       (a <= 255 /\ b <= 255 /\ c <= 255 /\ d <= 255)%nat
       /\ let ipv4_address := Py.join "." [pretty a; pretty b; pretty c; pretty d] in
          DomainGenerator.ptr_lookup sample_generator ipv4_address = Some "localhost"
          \/ (DomainGenerator.ptr_lookup sample_generator ipv4_address = None
              /\ "localhost" ∈ DomainGenerator.known_domains sample_generator).
Proof.
  split; [vm_compute; reflexivity|].
  apply (random_ipv4_domain_result sample_generator [10; 0; 0; 257; 1]%nat
           "localhost" []).
  vm_compute; reflexivity.
Defined.

End StrategyProperties.

(** ** The collector: probing, fetching, pacing *)

Module CollectorProperties.

Import EffFacts WebResourceFacts CollectorFacts.

Section WithWorld.
Context {L : PyLib} {Laws : PyLibLaws L} (W : World L) (CONFIG : Config).

(** *** [check_host] *)

(** X8.  The first [await check_host(domain)] never raises.  A result
    [(scheme, ip)] carries the resolved address; the scheme is [https]
    when port 443 accepted the connection, and [http] only when 443
    refused and 80 accepted.  The result is [None] when the name does
    not resolve or both ports refuse.  Port 80 is contacted only after
    443 has refused, and no file is touched. *)
Theorem check_host_prefers_https (domain : string) (st : State) :
  CheckHost domain ∉ awaited st ->
  let run := WebResourceCollector.check_host W domain st in
  (forall e, fst run <> Raise e)
  /\ (forall scheme ip,
        fst run = Ret (Some (scheme, ip)) ->
        dns_resolve W domain = Some ip
        /\ ((scheme = "https" /\ open_connection W ip 443 = true)
            \/ (scheme = "http" /\ open_connection W ip 443 = false
                /\ open_connection W ip 80 = true)))
  /\ (fst run = Ret None ->
      forall ip, dns_resolve W domain = Some ip ->
                 open_connection W ip 443 = false /\ open_connection W ip 80 = false)
  /\ (forall ip, EConnect ip 80 ∈ trace (snd run) -> EConnect ip 80 ∉ trace st ->
                 open_connection W ip 443 = false)
  /\ fs (snd run) = fs st.
Proof.
  intros Hfresh run. subst run.
  unfold WebResourceCollector.check_host. rewrite (await_fresh _ _ _ Hfresh).
  unfold WebResourceCollector.check_host_body, Eff.bind, Eff.emit, Eff.mark.
  cbn [fst snd fs awaited next_client clock trace].
  destruct (dns_resolve W domain) as [ip|] eqn:Hdns.
  - cbn [WebResourceCollector.check_ports]. unfold Eff.bind, Eff.emit, Eff.ret.
    cbn [fst snd fs awaited next_client clock trace].
    destruct (open_connection W ip 443) eqn:H443;
      [|destruct (open_connection W ip 80) eqn:H80];
      cbn [fst snd fs trace].
    + split; [discriminate|]. split; [intros ? ? [= <- <-]; auto|].
      split; [discriminate|]. split; [|reflexivity].
      intros ip' Hin Hnot.
      apply elem_of_cons in Hin as [Hin|Hin]; [discriminate|].
      apply elem_of_cons in Hin as [Hin|Hin]; [discriminate | contradiction].
    + split; [discriminate|]. split; [intros ? ? [= <- <-]; auto|].
      split; [discriminate|]. split; [|reflexivity].
      intros ip' Hin Hnot.
      apply elem_of_cons in Hin as [Hin|Hin]; [injection Hin as ->; exact H443|].
      apply elem_of_cons in Hin as [Hin|Hin]; [discriminate|].
      apply elem_of_cons in Hin as [Hin|Hin]; [discriminate | contradiction].
    + split; [discriminate|]. split; [discriminate|].
      split; [intros _ ? [= <-]; auto|]. split; [|reflexivity].
      intros ip' Hin Hnot.
      apply elem_of_cons in Hin as [Hin|Hin]; [injection Hin as ->; exact H443|].
      apply elem_of_cons in Hin as [Hin|Hin]; [discriminate|].
      apply elem_of_cons in Hin as [Hin|Hin]; [discriminate | contradiction].
  - cbn [fst snd fs trace]. split; [discriminate|]. split; [discriminate|].
    split; [discriminate|]. split; [|reflexivity].
    intros ip' Hin Hnot.
    apply elem_of_cons in Hin as [Hin|Hin]; [discriminate | contradiction].
Qed.

(** *** [fetch_resource] *)



(** X10.  A cache file without the member [content] makes the first
    [await fetch_resource(...)] raise the [KeyError] of [from_file]: the
    cache is read outside the [try] block.  No request is made and no
    file is written. *)
Theorem corrupt_cache_entry_raises (client : nat) (url : string)
    (ip : option string) (st : State) (doc : json) (e : string) :
  FetchResource client url ip ∉ awaited st ->
  fs st !! WebResource.get_cache_path url None = Some doc ->
  Json.getitem doc "content" = Raise e ->
  WebResourceCollector.fetch_resource W client url ip st
  = (Raise e, Eff.mark (FetchResource client url ip) st).
Proof.
  intros Hfresh Hfile Hdoc. unfold WebResourceCollector.fetch_resource.
  rewrite (await_fresh _ _ _ Hfresh).
  unfold WebResourceCollector.fetch_resource_body, Eff.bind at 1.
  unfold WebResource.load_from_cache, Eff.bind at 1, Eff.get_fs.
  cbn [fs Eff.mark]. rewrite Hfile.
  unfold Eff.bind at 1. unfold WebResource.from_file, Eff.bind at 1, Eff.get_fs.
  cbn [fs Eff.mark]. rewrite Hfile.
  unfold WebResource.of_file_data, Eff.bind at 1, Eff.lift. rewrite Hdoc.
  reflexivity.
Qed.

(** X11.  With the cache entry of [r] in place, the first
    [await fetch_resource(...)] returns [r]; it makes no request, reads
    no clock and writes no file. *)
Theorem cache_hit_is_silent (client : nat) (url : string) (ip : option string)
    (st : State) (r : WebResource.t) :
  FetchResource client url ip ∉ awaited st ->
  fs st !! WebResource.get_cache_path url None = Some (entry r) ->
  exists st',
    WebResourceCollector.fetch_resource W client url ip st = (Ret (Some r), st')
    /\ fs st' = fs st /\ trace st' = trace st /\ clock st' = clock st.
Proof.
  intros Hfresh Hfile. eexists. split; [now apply fetch_resource_cache_hit|].
  repeat split.
Qed.

(** *** [get_resources] and [save_domain_content] *)

Lemma append_inj_l (a b c : string) : (a ++ b = a ++ c)%string -> b = c.
Proof. induction a as [|x a IH]; [auto|]. cbn. intros [= H]. auto. Qed.

(** X13.  Writing the index of a domain leaves every cache entry as it
    is: an entry is named by 128 hexadecimal digits, never
    [content.json]. *)
Theorem index_overwrites_no_cache_entry (pages : list WebResource.t)
    (url : string) (cache_path : option (list string)) (st : State) :
  fs (snd (WebResourceCollector.save_domain_content pages st))
    !! WebResource.get_cache_path url cache_path
  = fs st !! WebResource.get_cache_path url cache_path.
Proof.
  destruct pages as [|first rest]; [reflexivity|].
  cbn [WebResourceCollector.save_domain_content]. unfold Eff.write_file. cbn [snd fs].
  apply lookup_insert_ne. intros E.
  apply (get_cache_path_not_index url cache_path). rewrite <- E.
  unfold WebResourceCollector.content_path.
  rewrite path_join_long by (cbn; lia). apply last_snoc.
Qed.

(** *** The scan of the response headers *)

(** The scan goes on from what it has found so far. *)
Lemma scan_headers_app (hs1 hs2 : list (string * string)) :
  WebResourceCollector.scan_headers (hs1 ++ hs2)
  = fold_left
      (fun (acc : string * option datetime) (kv : string * string) =>
         let (content_type, last_modified) := acc in
         let (key, value) := kv in
         if String.eqb (Py.str_lower key) "content-type" then (value, last_modified)
         else if String.eqb (Py.str_lower key) "last-modified" then
           match dateutil_parse value with
           | Some d => (content_type, Some d)
           | None => (content_type, last_modified)
           end
         else (content_type, last_modified))
      hs2 (WebResourceCollector.scan_headers hs1).
Proof. unfold WebResourceCollector.scan_headers. apply fold_left_app. Qed.

(** Headers of other names leave the content type found so far. *)
Lemma scan_keeps_content_type (hs : list (string * string)) :
  (forall k v, (k, v) ∈ hs -> Py.str_lower k <> "content-type") ->
  forall acc,
    fst (fold_left
           (fun (acc : string * option datetime) (kv : string * string) =>
              let (content_type, last_modified) := acc in
              let (key, value) := kv in
              if String.eqb (Py.str_lower key) "content-type" then (value, last_modified)
              else if String.eqb (Py.str_lower key) "last-modified" then
                match dateutil_parse value with
                | Some d => (content_type, Some d)
                | None => (content_type, last_modified)
                end
              else (content_type, last_modified))
           hs acc)
    = fst acc.
Proof.
  induction hs as [|[k v] hs IH]; intros Hnone [ct lm]; [reflexivity|].
  cbn [fold_left].
  assert (Py.str_lower k <> "content-type") as Hk
    by (apply (Hnone k v), list_elem_of_here).
  apply String.eqb_neq in Hk. rewrite Hk.
  rewrite IH by (intros k' v' Hin; apply (Hnone k' v'); now apply list_elem_of_further).
  destruct (String.eqb _ "last-modified"); [|reflexivity].
  now destruct (dateutil_parse v).
Qed.

(** Headers that are no [last-modified] with a date that parses leave
    the modification date found so far. *)
Lemma scan_keeps_last_modified (hs : list (string * string)) :
  (forall k v, (k, v) ∈ hs -> Py.str_lower k = "last-modified" ->
               dateutil_parse v = None) ->
  forall acc,
    snd (fold_left
           (fun (acc : string * option datetime) (kv : string * string) =>
              let (content_type, last_modified) := acc in
              let (key, value) := kv in
              if String.eqb (Py.str_lower key) "content-type" then (value, last_modified)
              else if String.eqb (Py.str_lower key) "last-modified" then
                match dateutil_parse value with
                | Some d => (content_type, Some d)
                | None => (content_type, last_modified)
                end
              else (content_type, last_modified))
           hs acc)
    = snd acc.
Proof.
  induction hs as [|[k v] hs IH]; intros Hnone [ct lm]; [reflexivity|].
  cbn [fold_left].
  pose proof (Hnone k v (list_elem_of_here _ _)) as Hk.
  rewrite IH by (intros k' v' Hin; apply (Hnone k' v'); now apply list_elem_of_further).
  destruct (String.eqb _ "content-type"); [reflexivity|].
  destruct (String.eqb_spec (Py.str_lower k) "last-modified") as [E|_]; [|reflexivity].
  now rewrite (Hk E).
Qed.

(** X28.  The content type of a resource is the value of the last
    header whose name is [content-type] in any mix of cases, whatever
    headers come before and whatever other headers come after it, and
    [text/plain] when there is none.  The modification date is the date
    of the last [last-modified] header whose value parses, and [None]
    when there is none. *)
Theorem scan_headers_content_type (hs1 hs2 : list (string * string))
    (key value : string) :
  ((forall k v, (k, v) ∈ hs1 -> Py.str_lower k <> "content-type") ->
   fst (WebResourceCollector.scan_headers hs1) = "text/plain")
  /\ (Py.str_lower key = "content-type" ->
      (forall k v, (k, v) ∈ hs2 -> Py.str_lower k <> "content-type") ->
      fst (WebResourceCollector.scan_headers (hs1 ++ (key, value) :: hs2)) = value)
  /\ ((forall k v, (k, v) ∈ hs1 -> Py.str_lower k = "last-modified" ->
                   dateutil_parse v = None) ->
      snd (WebResourceCollector.scan_headers hs1) = None)
  /\ (forall d,
        Py.str_lower key = "last-modified" ->
        dateutil_parse value = Some d ->
        (forall k v, (k, v) ∈ hs2 -> Py.str_lower k = "last-modified" ->
                     dateutil_parse v = None) ->
        snd (WebResourceCollector.scan_headers (hs1 ++ (key, value) :: hs2)) = Some d).
Proof.
  split; [|split; [|split]].
  - intros Hnone. unfold WebResourceCollector.scan_headers.
    now rewrite scan_keeps_content_type.
  - intros Hkey Hnone. rewrite scan_headers_app. cbn [fold_left].
    rewrite scan_keeps_content_type by exact Hnone.
    destruct (WebResourceCollector.scan_headers hs1) as [ct lm].
    now rewrite Hkey.
  - intros Hnone. unfold WebResourceCollector.scan_headers.
    now rewrite scan_keeps_last_modified.
  - intros d Hkey Hparse Hnone. rewrite scan_headers_app. cbn [fold_left].
    rewrite scan_keeps_last_modified by exact Hnone.
    destruct (WebResourceCollector.scan_headers hs1) as [ct lm].
    now rewrite Hkey, Hparse.
Qed.

End WithWorld.

#[local] Existing Instance Ref.lib.
#[local] Existing Instance RefFacts.lib_laws.

Lemma check_host_prefers_https_witness :
  (CheckHost "example.com" ∉ awaited Ref.init)
  /\ (forall e,
        fst (WebResourceCollector.check_host Ref.world "example.com" Ref.init)
        <> Raise e)
  /\ (forall scheme ip,
        fst (WebResourceCollector.check_host Ref.world "example.com" Ref.init)
        = Ret (Some (scheme, ip)) ->
        dns_resolve Ref.world "example.com" = Some ip
        /\ ((scheme = "https" /\ open_connection Ref.world ip 443 = true)
            \/ (scheme = "http" /\ open_connection Ref.world ip 443 = false
                /\ open_connection Ref.world ip 80 = true))).
Proof.
  assert (CheckHost "example.com" ∉ awaited Ref.init) as Hfresh
    by apply not_elem_of_nil.
  split; [exact Hfresh|].
  destruct (check_host_prefers_https Ref.world "example.com" Ref.init Hfresh)
    as (Hraise & Hsome & _).
  split; [exact Hraise | exact Hsome].
Defined.


(** A cache whose only file, the entry of the home page, is an empty
    JSON object. *)
Definition broken_cache : State :=
  mkState (<[WebResource.get_cache_path "https://example.com/" None := JObj []]> ∅)
    [] 0 0 [].

Lemma corrupt_cache_entry_raises_witness :
  (FetchResource 0 "https://example.com/" None ∉ awaited broken_cache)
  /\ fs broken_cache !! WebResource.get_cache_path "https://example.com/" None
     = Some (JObj [])
  /\ Json.getitem (JObj []) "content" = Raise "KeyError"
  /\ WebResourceCollector.fetch_resource Ref.world 0 "https://example.com/" None
       broken_cache
     = (Raise "KeyError",
        Eff.mark (FetchResource 0 "https://example.com/" None) broken_cache).
Proof.
  assert (FetchResource 0 "https://example.com/" None ∉ awaited broken_cache)
    as Hfresh by apply not_elem_of_nil.
  assert (fs broken_cache !! WebResource.get_cache_path "https://example.com/" None
          = Some (JObj [])) as Hfile by apply lookup_insert_eq.
  split; [exact Hfresh|]. split; [exact Hfile|]. split; [reflexivity|].
  exact (corrupt_cache_entry_raises Ref.world 0 "https://example.com/" None
           broken_cache (JObj []) "KeyError" Hfresh Hfile eq_refl).
Defined.

Lemma cache_hit_is_silent_witness :
  let st := snd Ref.home_fetch in
  (FetchResource 1 "https://example.com/" None ∉ awaited st)
  /\ fs st !! WebResource.get_cache_path "https://example.com/" None
     = Some (entry Ref.home_resource)
  /\ exists st',
       WebResourceCollector.fetch_resource Ref.world 1 "https://example.com/" None st
       = (Ret (Some Ref.home_resource), st')
       /\ fs st' = fs st /\ trace st' = trace st /\ clock st' = clock st.
Proof.
  cbv zeta.
  assert (FetchResource 1 "https://example.com/" None ∉ awaited (snd Ref.home_fetch))
    as Hfresh by (apply (bool_decide_unpack _); vm_compute; reflexivity).
  assert (fs (snd Ref.home_fetch)
            !! WebResource.get_cache_path "https://example.com/" None
          = Some (entry Ref.home_resource)) as Hfile.
  { assert (Ref.home_fetch = (Ret (Some Ref.home_resource), snd Ref.home_fetch))
      as Hrun by (apply run_eq; vm_compute; reflexivity).
    apply (fetch_resource_miss_inv Ref.world) in Hrun; [|apply lookup_empty].
    now apply (fetch_uncached_inv Ref.world) in Hrun as (_ & _ & _ & _ & Hfs). }
  split; [exact Hfresh|]. split; [exact Hfile|].
  exact (cache_hit_is_silent Ref.world 1 "https://example.com/" None
           (snd Ref.home_fetch) Ref.home_resource Hfresh Hfile).
Defined.

(** After the first fetch of the home page, writing the index of its
    domain leaves the cache entry of the page in place. *)
Lemma index_overwrites_no_cache_entry_witness :
  fs (snd (WebResourceCollector.save_domain_content [Ref.home_resource]
             (snd Ref.home_fetch)))
    !! WebResource.get_cache_path "https://example.com/" None
  = fs (snd Ref.home_fetch) !! WebResource.get_cache_path "https://example.com/" None.
Proof.
  exact (index_overwrites_no_cache_entry [Ref.home_resource] "https://example.com/"
           None (snd Ref.home_fetch)).
Defined.

(** The headers [Last-Modified], [Content-Type], [Content-Length], in
    this order: the content type and the date are those of the first
    two. *)
Lemma scan_headers_content_type_witness :
  let hs := [("Last-Modified", "yesterday"); ("Content-Type", "text/html");
             ("Content-Length", "12")] in
  Py.str_lower "Content-Type" = "content-type"
  /\ (forall k v, (k, v) ∈ [("Content-Length", "12")] ->
                  Py.str_lower k <> "content-type")
  /\ WebResourceCollector.scan_headers hs = ("text/html", Some "yesterday")
  /\ fst (WebResourceCollector.scan_headers
            ([("Last-Modified", "yesterday")]
             ++ ("Content-Type", "text/html") :: [("Content-Length", "12")]))
     = "text/html".
Proof.
  cbv zeta.
  assert (forall k v : string, (k, v) ∈ [("Content-Length", "12")] ->
                               Py.str_lower k <> "content-type") as Hrest.
  { intros k v Hin. apply list_elem_of_singleton in Hin. injection Hin as -> ->.
    discriminate. }
  split; [reflexivity|]. split; [exact Hrest|]. split; [reflexivity|].
  exact (proj1 (proj2 (scan_headers_content_type [("Last-Modified", "yesterday")]
                         [("Content-Length", "12")] "Content-Type" "text/html"))
           eq_refl Hrest).
Defined.

End CollectorProperties.

(** ** Reading a resource back *)

Module GetResourceProperties.

Import EffFacts WebResourceFacts.

Section WithLib.
Context {L : PyLib} {Laws : PyLibLaws L}.

Lemma decode_entry (r : WebResource.t) (st : State) :
  (c <- Eff.lift (Json.getitem (entry r) "content") ;;
   c <- Eff.lift (match c with JStr s => Ret s | _ => Raise "TypeError" end) ;;
   content <- Eff.of_option "binascii.Error" (b64decode c) ;;
   Eff.of_option "LZMAError" (lzma_decompress content)) st
  = (Ret (WebResource.content r), st).
Proof.
  unfold entry, WebResource.file_data_of, Eff.bind, Eff.lift. cbn.
  rewrite b64_roundtrip. cbn. rewrite lzma_roundtrip. reflexivity.
Qed.

(** X15.  After [r.save_to_cache()], [get_resource(r.url)] returns the
    content of [r], byte for byte, whatever the bucket holds: the local
    file is read and the bucket is not asked. *)
Theorem get_resource_after_save_to_cache (r : WebResource.t) (bucket : S3.Bucket)
    (st : State) :
  let st' := snd (WebResource.save_to_cache r None st) in
  GetResource.get_resource bucket (WebResource.url r) st'
  = (Ret (WebResource.content r), st').
Proof.
  cbv zeta. rewrite save_to_cache_spec. cbn [snd].
  unfold GetResource.get_resource. cbv zeta.
  unfold Eff.bind at 1. unfold Eff.get_fs. cbn [fs].
  rewrite lookup_insert_eq. unfold Eff.bind at 1. unfold Eff.ret at 1.
  apply decode_entry.
Qed.




End WithLib.

#[local] Existing Instance Ref.lib.
#[local] Existing Instance RefFacts.lib_laws.

Lemma get_resource_after_save_to_cache_witness :
  GetResource.get_resource ∅ "https://example.com"
    (snd (WebResource.save_to_cache Ref.sample_web_resource None Ref.init))
  = (Ret "Sample content",
     snd (WebResource.save_to_cache Ref.sample_web_resource None Ref.init)).
Proof.
  exact (get_resource_after_save_to_cache Ref.sample_web_resource ∅ Ref.init).
Defined.




End GetResourceProperties.

(** ** Pushing the cache to the bucket *)

Module PushProperties.

Import PushS3.

(** *** Listing a directory *)

Lemma elem_of_keys (files : gmap (list string) json) (q : list string) :
  q ∈ map fst (map_to_list files) <-> is_Some (files !! q).
Proof.
  split.
  - intros H. apply list_elem_of_fmap in H as ([q' doc] & -> & H).
    apply elem_of_map_to_list in H. now exists doc.
  - intros [doc H]. apply list_elem_of_fmap. exists (q, doc).
    split; [reflexivity | now apply elem_of_map_to_list].
Qed.

Lemma path_exists_spec files p :
  path_exists files p = true
  <-> exists q, is_Some (files !! q) /\ p `prefix_of` q.
Proof.
  unfold path_exists. rewrite bool_decide_eq_true, Exists_exists.
  split; intros (q & H1 & H2); exists q.
  - split; [now apply elem_of_keys | assumption].
  - split; [now apply elem_of_keys | assumption].
Qed.

Lemma iterdir_spec files d p :
  p ∈ iterdir files d
  <-> exists q, is_Some (files !! q) /\ d `prefix_of` q
               /\ (length d < length q)%nat /\ p = take (S (length d)) q.
Proof.
  unfold iterdir. rewrite elem_of_remove_dups, list_elem_of_omap.
  split.
  - intros (q & Hq & Hp). apply elem_of_keys in Hq.
    destruct (bool_decide (d `prefix_of` q)) eqn:Hpre; [|discriminate].
    destruct (length d <? length q)%nat eqn:Hlen; [|discriminate].
    cbn in Hp. injection Hp as <-. exists q.
    apply bool_decide_eq_true in Hpre. apply Nat.ltb_lt in Hlen. auto.
  - intros (q & Hq & Hpre & Hlen & ->). exists q.
    split; [now apply elem_of_keys|].
    rewrite bool_decide_eq_true_2 by assumption.
    apply Nat.ltb_lt in Hlen. now rewrite Hlen.
Qed.

(** An entry of a directory is the directory and one more component. *)
Lemma iterdir_child files d p :
  p ∈ iterdir files d -> exists name, p = (d ++ [name])%list.
Proof.
  intros H. apply iterdir_spec in H as (q & _ & [k ->] & Hlen & ->).
  rewrite length_app in Hlen. destruct k as [|name k]; [cbn in Hlen; lia|].
  exists name. replace (S (length d)) with (length d + 1)%nat by lia.
  now rewrite take_app_add.
Qed.

(** *** What a push keeps *)

Definition CACHE : list string := S3.DEFAULT_CACHE_PATH.

(** No directory below the cache root has a slash in its name. *)
Definition slash_free (files : gmap (list string) json) : Prop :=
  forall dn rest,
    is_Some (files !! (CACHE ++ dn :: rest)%list) ->
    StrategyProperties.has_char "/" dn = false.

(** A directory of the cache with a [content.json]. *)
Definition completed (files : gmap (list string) json) (dn : string) : Prop :=
  path_exists files (CACHE ++ [dn; "content.json"]) = true.

(** Where the store [cur] stands with respect to the store [s0] the push
    started from. *)
Definition kept_or_pushed (s0 cur : Store) : Prop :=
  (forall p doc, local cur !! p = Some doc -> local s0 !! p = Some doc)
  /\ (slash_free (local s0) ->
      forall p doc,
        local s0 !! p = Some doc ->
        local cur !! p = Some doc
        \/ exists dn name,
             p = (CACHE ++ [dn; name])%list
             /\ remote cur !! (dn ++ "/" ++ name) = Some doc)
  /\ (forall p,
        local cur !! p = local s0 !! p
        \/ exists dn name, p = (CACHE ++ [dn; name])%list /\ completed (local s0) dn).

Lemma kept_or_pushed_refl s : kept_or_pushed s s.
Proof. repeat split; auto. Qed.

Lemma key_inj (a a' b b' : string) :
  StrategyProperties.has_char "/" a = false ->
  StrategyProperties.has_char "/" a' = false ->
  (a ++ "/" ++ b = a' ++ "/" ++ b')%string -> a = a' /\ b = b'.
Proof.
  revert a'. induction a as [|c a IH]; intros [|c' a'] Ha Ha' E.
  - inversion E. auto.
  - inversion E as [[Hc Hrest]]. subst c'. cbn in Ha'. discriminate.
  - inversion E as [[Hc Hrest]]. subst c. cbn in Ha. discriminate.
  - inversion E as [[Hc Hrest]]. subst c'.
    cbn in Ha, Ha'. apply orb_false_elim in Ha as [_ Ha].
    apply orb_false_elim in Ha' as [_ Ha'].
    destruct (IH a' Ha Ha' Hrest) as [-> ->]. auto.
Qed.

Lemma path_exists_mono (files files' : gmap (list string) json) p :
  (forall q doc, files !! q = Some doc -> files' !! q = Some doc) ->
  path_exists files p = true -> path_exists files' p = true.
Proof.
  intros Hsub H. apply path_exists_spec in H as (q & [doc Hq] & Hpre).
  apply path_exists_spec. exists q. split; [|assumption]. exists doc. auto.
Qed.

Section WithS3.
Context (put_ok : string -> bool) (empty_cache_exists : bool).

Lemma copy_object_kept s0 cur dn name remove_after :
  kept_or_pushed s0 cur ->
  completed (local s0) dn ->
  kept_or_pushed s0
    (snd (copy_object put_ok (CACHE ++ [dn; name]) (dn ++ "/" ++ name)
            remove_after cur)).
Proof.
  intros (Hsub & Hkept & Hdiff) Hdone. unfold copy_object.
  set (t := (CACHE ++ [dn; name])%list).
  destruct (local cur !! t) as [data|] eqn:Ht; [|now repeat split].
  destruct (put_ok _); [|now repeat split].
  cbn [snd local remote].
  assert (forall p doc,
             (if remove_after then delete t (local cur) else local cur) !! p = Some doc ->
             local cur !! p = Some doc) as Hsmaller.
  { intros p doc. destruct remove_after; [|auto].
    intros H. now apply lookup_delete_Some in H as [_ H]. }
  assert (forall p, p <> t ->
             (if remove_after then delete t (local cur) else local cur) !! p
             = local cur !! p) as Hother.
  { intros p Hp. destruct remove_after; [|reflexivity].
    now apply lookup_delete_ne. }
  split; [|split].
  - intros p doc H. apply Hsub, Hsmaller, H.
  - intros Hsf p doc Hp. destruct (decide (p = t)) as [->|Hne].
    + right. exists dn, name. split; [reflexivity|].
      apply Hsub in Ht. replace doc with data by congruence.
      apply lookup_insert_eq.
    + destruct (Hkept Hsf p doc Hp) as [H|(dn' & name' & -> & H)].
      * left. now rewrite Hother.
      * right. exists dn', name'. split; [reflexivity|].
        rewrite <- H. apply lookup_insert_ne.
        intros E. apply Hne.
        assert (StrategyProperties.has_char "/" dn = false) as Hdn
          by (apply (Hsf dn [name]); exists data; now apply Hsub).
        assert (StrategyProperties.has_char "/" dn' = false) as Hdn'
          by (apply (Hsf dn' [name']); now exists doc).
        destruct (key_inj _ _ _ _ Hdn Hdn' E) as [-> ->]. reflexivity.
  - intros p. destruct (decide (p = t)) as [->|Hne].
    + right. now exists dn, name.
    + destruct (Hdiff p) as [H|H]; [left; now rewrite Hother | now right].
Qed.

Lemma push_targets_kept s0 dn names remove_after cur :
  kept_or_pushed s0 cur ->
  completed (local s0) dn ->
  kept_or_pushed s0
    (snd (push_targets put_ok (map (fun name => CACHE ++ [dn; name])%list names)
            remove_after cur)).
Proof.
  intros Hinv Hdone. revert cur Hinv.
  induction names as [|name names IH]; intros cur Hinv; [exact Hinv|].
  cbn [map push_targets].
  change (S3.relative_to (CACHE ++ [dn; name]) S3.DEFAULT_CACHE_PATH)
    with (Ret (A := list string) [dn; name]).
  cbv beta iota.
  change (S3.as_posix [dn; name]) with (dn ++ "/" ++ name)%string.
  pose proof (copy_object_kept s0 cur dn name remove_after Hinv Hdone) as Hstep.
  destruct (copy_object put_ok _ _ remove_after cur) as [[[]|e] s1];
    cbn [snd] in Hstep; [|exact Hstep].
  now apply IH.
Qed.

Lemma iterdir_names files dn :
  exists names,
    iterdir files (CACHE ++ [dn]) = map (fun name => CACHE ++ [dn; name])%list names.
Proof.
  assert (forall l : list (list string),
             (forall p, p ∈ l -> exists name, p = ((CACHE ++ [dn]) ++ [name])%list) ->
             exists names, l = map (fun name => CACHE ++ [dn; name])%list names) as H.
  { induction l as [|p l IH]; intros Hl; [now exists []|].
    destruct (Hl p (list_elem_of_here _ _)) as [name ->].
    destruct IH as [names ->];
      [intros q Hq; apply Hl; now apply list_elem_of_further|].
    exists (name :: names). cbn [map]. now rewrite <- app_assoc. }
  apply H. intros p Hp. now apply iterdir_child in Hp.
Qed.

Lemma push_domains_kept s0 dns remove_after cur :
  kept_or_pushed s0 cur ->
  kept_or_pushed s0
    (snd (push_domains put_ok (map (fun dn => CACHE ++ [dn])%list dns)
            remove_after cur)).
Proof.
  revert cur. induction dns as [|dn dns IH]; intros cur Hinv; [exact Hinv|].
  cbn [map push_domains]. rewrite <- app_assoc. cbn [app].
  change (".alea" :: "web-survey" :: "cache" :: [dn; "content.json"])
    with (CACHE ++ [dn; "content.json"])%list.
  change (".alea" :: "web-survey" :: "cache" :: [dn]) with (CACHE ++ [dn])%list.
  destruct (path_exists (local cur) (CACHE ++ [dn; "content.json"])) eqn:Hdone;
    [|now apply IH].
  assert (completed (local s0) dn) as Hdone0
    by (eapply path_exists_mono; [apply Hinv | exact Hdone]).
  destruct (iterdir_names (local cur) dn) as [names ->].
  pose proof (push_targets_kept s0 dn names remove_after cur Hinv Hdone0) as Hstep.
  destruct (push_targets put_ok _ remove_after cur) as [[[]|e] s1];
    cbn [snd] in Hstep; [|exact Hstep].
  now apply IH.
Qed.

Lemma push_cache_kept remove_after s :
  kept_or_pushed s (snd (push_cache put_ok empty_cache_exists remove_after s)).
Proof.
  unfold push_cache.
  destruct (negb (path_exists (local s) S3.DEFAULT_CACHE_PATH) && negb empty_cache_exists);
    [apply kept_or_pushed_refl|].
  assert (exists dns,
             iterdir (local s) S3.DEFAULT_CACHE_PATH
             = map (fun dn => CACHE ++ [dn])%list dns) as [dns ->].
  { assert (forall l : list (list string),
               (forall p, p ∈ l -> exists name, p = (CACHE ++ [name])%list) ->
               exists dns, l = map (fun dn => CACHE ++ [dn])%list dns) as H.
    { induction l as [|p l IH]; intros Hl; [now exists []|].
      destruct (Hl p (list_elem_of_here _ _)) as [name ->].
      destruct IH as [dns ->];
        [intros q Hq; apply Hl; now apply list_elem_of_further|].
      now exists (name :: dns). }
    apply H. intros p Hp. now apply iterdir_child in Hp. }
  pose proof (push_domains_kept s dns remove_after s (kept_or_pushed_refl s)) as H.
  now destruct (push_domains put_ok _ remove_after s) as [[[]|e] s1].
Qed.

(** X17.  [push_cache] loses no file, whatever fails on the way: a file
    of the cache is afterwards either still in its place, or it was
    removed from a directory with a [content.json] after the bucket
    received it under the key [directory/name]. *)
Theorem push_cache_loses_no_file (remove_after : bool) (s : Store)
    (p : list string) (doc : json) :
  slash_free (local s) ->
  local s !! p = Some doc ->
  let s' := snd (push_cache put_ok empty_cache_exists remove_after s) in
  local s' !! p = Some doc
  \/ (local s' !! p = None
      /\ exists dn name,
           p = (CACHE ++ [dn; name])%list
           /\ completed (local s) dn
           /\ remote s' !! (dn ++ "/" ++ name) = Some doc).
Proof.
  intros Hsf Hp s'. subst s'.
  destruct (push_cache_kept remove_after s) as (Hsub & Hkept & Hdiff).
  destruct (Hkept Hsf p doc Hp) as [H|(dn & name & -> & Hremote)]; [now left|].
  destruct (local (snd (push_cache put_ok empty_cache_exists remove_after s)) !! _)
    as [doc'|] eqn:Hnow.
  - left. apply Hsub in Hnow. congruence.
  - right. split; [reflexivity|]. exists dn, name. split; [reflexivity|].
    split; [|exact Hremote].
    destruct (Hdiff (CACHE ++ [dn; name])%list) as [E|(dn' & name' & E & Hdone)];
      [congruence|].
    apply app_inv_head in E. now injection E as -> _.
Qed.

(** X18.  A directory of the cache without a [content.json] is not
    pushed: all files below it stay as they are. *)
Theorem unfinished_directory_is_left_alone (remove_after : bool) (s : Store)
    (dn : string) (rest : list string) :
  path_exists (local s) (CACHE ++ [dn; "content.json"]) = false ->
  local (snd (push_cache put_ok empty_cache_exists remove_after s))
    !! (CACHE ++ dn :: rest)%list
  = local s !! (CACHE ++ dn :: rest)%list.
Proof.
  intros Hnot.
  destruct (push_cache_kept remove_after s) as (_ & _ & Hdiff).
  destruct (Hdiff (CACHE ++ dn :: rest)%list) as [E|(dn' & name' & E & Hdone)];
    [exact E|].
  apply app_inv_head in E. injection E as -> _.
  unfold completed in Hdone. congruence.
Qed.

Lemma copy_object_keep source_path dest_key s :
  local (snd (copy_object put_ok source_path dest_key false s)) = local s.
Proof.
  unfold copy_object. destruct (local s !! source_path); [|reflexivity].
  now destruct (put_ok dest_key).
Qed.

Lemma push_targets_keep path_targets s :
  local (snd (push_targets put_ok path_targets false s)) = local s.
Proof.
  revert s. induction path_targets as [|t ts IH]; intros s; [reflexivity|].
  cbn [push_targets]. destruct (S3.relative_to t S3.DEFAULT_CACHE_PATH); [|reflexivity].
  pose proof (copy_object_keep t (S3.as_posix a) s) as Hstep.
  destruct (copy_object put_ok t _ false s) as [[[]|e] s1]; cbn [snd] in Hstep;
    [|exact Hstep].
  now rewrite IH.
Qed.

Lemma push_domains_keep domain_paths s :
  local (snd (push_domains put_ok domain_paths false s)) = local s.
Proof.
  revert s. induction domain_paths as [|d ds IH]; intros s; [reflexivity|].
  cbn [push_domains]. destruct (path_exists _ _); [|apply IH].
  pose proof (push_targets_keep (iterdir (local s) d) s) as Hstep.
  destruct (push_targets put_ok _ false s) as [[[]|e] s1]; cbn [snd] in Hstep;
    [|exact Hstep].
  now rewrite IH.
Qed.

(** X19.  Without [remove_after], [push_cache] changes no local file,
    whether it succeeds or not. *)
Theorem push_without_removal_keeps_files (s : Store) :
  local (snd (push_cache put_ok empty_cache_exists false s)) = local s.
Proof.
  unfold push_cache.
  destruct (negb (path_exists (local s) S3.DEFAULT_CACHE_PATH) && negb empty_cache_exists);
    [reflexivity|].
  pose proof (push_domains_keep (iterdir (local s) S3.DEFAULT_CACHE_PATH) s) as H.
  now destruct (push_domains put_ok _ false s) as [[[]|e] s1].
Qed.

End WithS3.

(** A test of [slash_free] that computes. *)
Definition slash_free_b (files : gmap (list string) json) : bool :=
  forallb (fun q => match S3.relative_to q CACHE with
                    | Ret (dn :: _) => negb (StrategyProperties.has_char "/" dn)
                    | _ => true
                    end)
          (map fst (map_to_list files)).

Lemma slash_free_b_spec files : slash_free_b files = true -> slash_free files.
Proof.
  intros H dn rest Hq. apply elem_of_keys in Hq.
  unfold slash_free_b in H. rewrite forallb_forall in H.
  apply list_elem_of_In in Hq. specialize (H _ Hq).
  change (S3.relative_to (CACHE ++ dn :: rest) CACHE)
    with (Ret (A := list string) (dn :: rest)) in H.
  cbv beta iota in H. now apply negb_true_iff in H.
Qed.

Section WithLib.
Context {L : PyLib} {Laws : PyLibLaws L} (put_ok : string -> bool)
        (empty_cache_exists : bool).

(** The cache path of a URL: the netloc is a directory of the cache,
    unless it is a dot, which [pathlib] drops. *)
Lemma cache_path_shape (url : string) :
  netloc (urlparse url) <> "" ->
  WebResource.get_cache_path url None
  = (CACHE ++ (if String.eqb (netloc (urlparse url)) "." then []
               else [netloc (urlparse url)])
           ++ [(blake2b_hexdigest (utf8_encode (path (urlparse url)))
                ++ ".json")%string])%list.
Proof.
  intros Hnetloc. unfold WebResource.get_cache_path.
  rewrite WebResourceFacts.cache_file_joined. unfold WebResource.path_join.
  destruct (String.eqb_spec (netloc (urlparse url)) "") as [E|_]; [contradiction|].
  cbn [orb].
  destruct (String.eqb (netloc (urlparse url)) "."); [reflexivity|].
  now rewrite <- !app_assoc.
Qed.

(** X20.  A resource of the cache can be read back after any push:
    [get_resource(url)] returns its content from the cache file if the
    push left it there, and from the bucket object the push stored
    otherwise; the key that [push_cache] writes is the key that
    [get_resource] asks for. *)
Theorem get_resource_survives_push (remove_after : bool) (s : Store)
    (url : string) (r : WebResource.t) (st : State) :
  slash_free (local s) ->
  netloc (urlparse url) <> "" ->
  local s !! WebResource.get_cache_path url None
  = Some (WebResourceFacts.entry r) ->
  let s' := snd (push_cache put_ok empty_cache_exists remove_after s) in
  fs st = local s' ->
  GetResource.get_resource (remote s') url st = (Ret (WebResource.content r), st).
Proof.
  intros Hsf Hnetloc Hfile s' Hfs. subst s'.
  destruct (push_cache_kept put_ok empty_cache_exists remove_after s)
    as (Hsub & Hkept & _).
  unfold GetResource.get_resource. cbv zeta.
  unfold Eff.bind at 1. unfold Eff.get_fs. rewrite Hfs.
  destruct (local (snd (push_cache put_ok empty_cache_exists remove_after s))
              !! WebResource.get_cache_path url None) as [doc|] eqn:Hnow.
  - apply Hsub in Hnow. replace doc with (WebResourceFacts.entry r) by congruence.
    unfold Eff.bind at 1. unfold Eff.ret at 1.
    apply GetResourceProperties.decode_entry.
  - destruct (Hkept Hsf _ _ Hfile) as [H|(dn & name & E & Hremote)]; [congruence|].
    rewrite (cache_path_shape url Hnetloc) in E |- *.
    apply app_inv_head in E.
    destruct (String.eqb (netloc (urlparse url)) "."); [discriminate|].
    injection E as <- <-. cbn [app].
    change (S3.relative_to (CACHE ++ ?l) S3.DEFAULT_CACHE_PATH)
      with (Ret (A := list string) l).
    unfold Eff.bind at 1. unfold Eff.bind at 1. unfold Eff.lift at 1.
    cbn [S3.as_posix Py.join]. rewrite Hremote. unfold Eff.of_option at 1.
    unfold Eff.ret at 1. apply GetResourceProperties.decode_entry.
Qed.

End WithLib.

#[local] Existing Instance Ref.lib.
#[local] Existing Instance RefFacts.lib_laws.

(** A cache with the finished crawl of [example.com] (the entry of its
    home page and the index) and one file of an unfinished crawl. *)
Definition sample_store : Store :=
  mkStore
    (<[WebResource.get_cache_path "https://example.com/" None
         := WebResourceFacts.entry Ref.home_resource]>
       (<[(CACHE ++ ["example.com"; "content.json"])%list := JArr []]>
          (<[(CACHE ++ ["example.org"; "robots"])%list := JNull]> ∅)))
    ∅.

Lemma sample_store_slash_free : slash_free (local sample_store).
Proof. apply slash_free_b_spec. vm_compute. reflexivity. Qed.

Lemma push_cache_loses_no_file_witness :
  slash_free (local sample_store)
  /\ local sample_store !! (CACHE ++ ["example.com"; "content.json"])%list
     = Some (JArr [])
  /\ (local (snd (push_cache (fun _ => true) true true sample_store))
        !! (CACHE ++ ["example.com"; "content.json"])%list = Some (JArr [])
      \/ (local (snd (push_cache (fun _ => true) true true sample_store))
            !! (CACHE ++ ["example.com"; "content.json"])%list = None
          /\ exists dn name,
               (CACHE ++ ["example.com"; "content.json"])%list
               = (CACHE ++ [dn; name])%list
               /\ completed (local sample_store) dn
               /\ remote (snd (push_cache (fun _ => true) true true sample_store))
                    !! (dn ++ "/" ++ name) = Some (JArr []))).
Proof.
  assert (local sample_store !! (CACHE ++ ["example.com"; "content.json"])%list
          = Some (JArr [])) as Hfile by (vm_compute; reflexivity).
  split; [exact sample_store_slash_free|]. split; [exact Hfile|].
  exact (push_cache_loses_no_file (fun _ => true) true true sample_store _ _
           sample_store_slash_free Hfile).
Defined.

Lemma unfinished_directory_is_left_alone_witness :
  path_exists (local sample_store) (CACHE ++ ["example.org"; "content.json"]) = false
  /\ local (snd (push_cache (fun _ => true) true true sample_store))
       !! (CACHE ++ ["example.org"; "robots"])%list
     = local sample_store !! (CACHE ++ ["example.org"; "robots"])%list.
Proof.
  assert (path_exists (local sample_store) (CACHE ++ ["example.org"; "content.json"])
          = false) as Hnot by (vm_compute; reflexivity).
  split; [exact Hnot|].
  exact (unfinished_directory_is_left_alone (fun _ => true) true true sample_store
           "example.org" ["robots"] Hnot).
Defined.

Lemma get_resource_survives_push_witness :
  let s' := snd (push_cache (fun _ => true) true true sample_store) in
  slash_free (local sample_store)
  /\ netloc (urlparse "https://example.com/") <> ""
  /\ local sample_store !! WebResource.get_cache_path "https://example.com/" None
     = Some (WebResourceFacts.entry Ref.home_resource)
  /\ GetResource.get_resource (remote s') "https://example.com/"
       (mkState (local s') [] 0 0 [])
     = (Ret Ref.rendered_page, mkState (local s') [] 0 0 []).
Proof.
  cbv zeta.
  assert (local sample_store !! WebResource.get_cache_path "https://example.com/" None
          = Some (WebResourceFacts.entry Ref.home_resource)) as Hfile
    by apply lookup_insert_eq.
  split; [exact sample_store_slash_free|]. split; [discriminate|].
  split; [exact Hfile|].
  exact (get_resource_survives_push (fun _ => true) true true sample_store
           "https://example.com/" Ref.home_resource
           (mkState (local (snd (push_cache (fun _ => true) true true sample_store)))
              [] 0 0 [])
           sample_store_slash_free ltac:(discriminate) Hfile eq_refl).
Defined.

End PushProperties.

(** ** The sequential collection loop *)

Module CollectSitesProperties.

Section WithWorld.
Context {L : PyLib} (W : World L) (CONFIG : Config).

(** With a weight table that has no row or a total of zero or less,
    [generate()] raises at its first draw, before any random number is
    taken. *)
Lemma generate_without_weight domain_generator gen_fuel tape :
  (forall total,
      GeneratorProperties.total_weight (domain_weights CONFIG) = Ret total ->
      Float.leb total Float.zero = true) ->
  DomainGenerator.generate domain_generator CONFIG gen_fuel None tape = (Ret None, tape)
  \/ exists e,
       DomainGenerator.generate domain_generator CONFIG gen_fuel None tape
       = (Raise e, tape).
Proof.
  intros Hbad. unfold DomainGenerator.generate.
  destruct gen_fuel as [|gen_fuel]; [now left|]. right.
  cbn [DomainGenerator.generate_loop]. unfold Random.bind, Random.choices_one.
  unfold GeneratorProperties.total_weight in Hbad.
  destruct (Random.accumulate (map snd (domain_weights CONFIG))) as [cum|e];
    [|now eexists].
  destruct (last cum) as [last_weight|]; [|now eexists].
  destruct (Number.plus_zero last_weight) as [total|e]; [|now eexists].
  rewrite (Hbad total eq_refl). now eexists.
Qed.

(** X21.  With such a weight table [collect_sites] neither returns nor
    does anything: every passage of its loop ends in the [except] branch
    with the [ValueError] of [random.choices], whatever [max_sites] asks
    for (unless it asks for no site at all). *)
Theorem collect_sites_spins_on_bad_weights (domain_generator : DomainGenerator.t)
    (max_sites : option Z) (fuel gen_fuel : nat) (tape : list nat) (st : State) :
  (forall total,
      GeneratorProperties.total_weight (domain_weights CONFIG) = Ret total ->
      Float.leb total Float.zero = true) ->
  (forall m, max_sites = Some m -> (0 < m)%Z) ->
  CollectWeb.collect_sites W CONFIG fuel (Some domain_generator) gen_fuel max_sites
    tape st
  = (None, tape, st).
Proof.
  intros Hbad Hmax. unfold CollectWeb.collect_sites.
  assert (CollectWeb.collect_loop W CONFIG fuel domain_generator gen_fuel max_sites 0
            tape st = (None, tape, st)) as ->; [|reflexivity].
  induction fuel as [|fuel IH]; [reflexivity|].
  cbn [CollectWeb.collect_loop].
  assert (CollectWeb.reached max_sites 0 = false) as ->.
  { unfold CollectWeb.reached. destruct max_sites as [m|]; [|reflexivity].
    specialize (Hmax m eq_refl). apply Z.leb_gt. exact Hmax. }
  unfold CollectWeb.passage.
  destruct (generate_without_weight domain_generator gen_fuel tape Hbad)
    as [->|[e ->]]; [reflexivity | exact IH].
Qed.

Lemma collect_loop_breaks fuel domain_generator gen_fuel max_sites n tape st k tape' st' :
  CollectWeb.collect_loop W CONFIG fuel domain_generator gen_fuel max_sites n tape st
  = (Some k, tape', st') ->
  exists m, max_sites = Some m /\ k = Z.max n m.
Proof.
  revert n tape st. induction fuel as [|fuel IH]; intros n tape st; [discriminate|].
  cbn [CollectWeb.collect_loop].
  destruct (CollectWeb.reached max_sites n) eqn:Hreached.
  - intros [= <- <- <-]. unfold CollectWeb.reached in Hreached.
    destruct max_sites as [m|]; [|discriminate].
    apply Z.leb_le in Hreached. exists m. split; [reflexivity | lia].
  - destruct (CollectWeb.passage W CONFIG domain_generator gen_fuel tape st)
      as [[[]  tape1] st1]; [| |discriminate].
    + intros H. apply IH in H as (m & -> & ->). exists m. split; [reflexivity|].
      cbn in Hreached. apply Z.leb_gt in Hreached. lia.
    + apply IH.
Qed.

(** X22.  [collect_sites] returns [False] only when the generator could
    not be constructed, and then it has done nothing.  It returns
    [True] only for a [max_sites] that is not [None], at the [break],
    and [num_sites] then is [max_sites] (zero for a negative
    [max_sites]): passages that end in the [except] branch are not
    counted and do not end the loop. *)
Theorem collect_sites_outcome (fuel : nat)
    (domain_generator : option DomainGenerator.t) (gen_fuel : nat)
    (max_sites : option Z) (tape : list nat) (st : State)
    (result : bool) (tape' : list nat) (st' : State) :
  CollectWeb.collect_sites W CONFIG fuel domain_generator gen_fuel max_sites tape st
  = (Some result, tape', st') ->
  (domain_generator = None /\ result = false /\ tape' = tape /\ st' = st)
  \/ (result = true
      /\ exists generator m,
           domain_generator = Some generator
           /\ max_sites = Some m
           /\ CollectWeb.collect_loop W CONFIG fuel generator gen_fuel max_sites 0
                tape st
              = (Some (Z.max 0 m), tape', st')).
Proof.
  unfold CollectWeb.collect_sites.
  destruct domain_generator as [generator|]; [|intros [= <- <- <-]; now left].
  destruct (CollectWeb.collect_loop W CONFIG fuel generator gen_fuel max_sites 0 tape st)
    as [[[k|] tape1] st1] eqn:Hloop; [|discriminate].
  intros [= <- <- <-]. right. split; [reflexivity|].
  destruct (collect_loop_breaks _ _ _ _ _ _ _ _ _ _ Hloop) as (m & -> & ->).
  now exists generator, m.
Qed.



End WithWorld.

#[local] Existing Instance Ref.lib.

(** The default configuration with all the weight on one strategy, and
    that weight zero. *)
Definition weightless : Config := {|
  s3_bucket := s3_bucket default_config;
  domain_path := domain_path default_config;
  user_agent := user_agent default_config;
  dns_resolve_timeout := dns_resolve_timeout default_config;
  http_pool_size := http_pool_size default_config;
  http_keep_alive := http_keep_alive default_config;
  http_network_timeout := http_network_timeout default_config;
  http_connect_timeout := http_connect_timeout default_config;
  http_read_timeout := http_read_timeout default_config;
  http_write_timeout := http_write_timeout default_config;
  playwright_timeout := playwright_timeout default_config;
  path_list := path_list default_config;
  domain_weights := [("get_random_known_domain", Flt Float.zero)];
|}.

Lemma collect_sites_spins_on_bad_weights_witness :
  CollectWeb.collect_sites Ref.world weightless 7
    (Some StrategyProperties.sample_generator) 3 (Some 1%Z) [4; 2]%nat Ref.init
  = (None, [4; 2]%nat, Ref.init).
Proof.
  apply collect_sites_spins_on_bad_weights.
  - intros total [= <-]. reflexivity.
  - intros m [= <-]. reflexivity.
Defined.

(** A generator that knows two domains, neither of which resolves in the
    reference world. *)
Definition two_dead_domains : DomainGenerator.t :=
  DomainGenerator.mk ["example.org"; "example.net"] [] ["org"] (fun _ => None)
    (fun _ => Random.raise "AttributeError").

(** A call that asks for no site returns [True] at once. *)
Definition no_site : option bool * list nat * State :=
  CollectWeb.collect_sites Ref.world Ref.config 5 (Some two_dead_domains) 3
    (Some 0%Z) [0; 0; 0; 1]%nat Ref.init.

Lemma collect_sites_outcome_witness :
  no_site = (Some true, [0; 0; 0; 1]%nat, Ref.init)
  /\ exists generator m,
       Some two_dead_domains = Some generator
       /\ Some 0%Z = Some m
       /\ CollectWeb.collect_loop Ref.world Ref.config 5 generator 3 (Some 0%Z) 0
            [0; 0; 0; 1]%nat Ref.init
          = (Some (Z.max 0 m), [0; 0; 0; 1]%nat, Ref.init).
Proof.
  assert (no_site = (Some true, [0; 0; 0; 1]%nat, Ref.init)) as Hrun by reflexivity.
  split; [exact Hrun|].
  destruct (collect_sites_outcome Ref.world Ref.config 5 (Some two_dead_domains) 3
              (Some 0%Z) [0; 0; 0; 1]%nat Ref.init true _ _ Hrun)
    as [(H & _)|(_ & H)]; [discriminate | exact H].
Defined.


End CollectSitesProperties.

(** ** Sizes for the progress bar *)

Module SizeProperties.

Lemma float_exact (n : Z) :
  (Z.abs n < 2 ^ 53)%Z -> SizeToStr.float_of_int n = Some n.
Proof.
  intros Hn. unfold SizeToStr.float_of_int. cbv zeta.
  assert (2 ^ 53 < 2 ^ 1024)%Z as Hbig by (apply Z.pow_lt_mono_r; lia).
  assert ((if (Z.abs n =? 0)%Z then 0 else Z.log2 (Z.abs n) + 1) <= 53)%Z as Hbits.
  { destruct (Z.eqb_spec (Z.abs n) 0) as [_|Hnz]; [lia|].
    assert (Z.log2 (Z.abs n) < 53)%Z by (apply Z.log2_lt_pow2; lia). lia. }
  apply Z.leb_le in Hbits. rewrite Hbits.
  assert ((2 ^ 1024 <=? Z.abs n)%Z = false) as -> by (apply Z.leb_gt; lia).
  f_equal. lia.
Qed.

Lemma pow_1024_pos j : (0 < 1024 ^ Z.of_nat j)%Z.
Proof. apply Z.pow_pos_nonneg; lia. Qed.

(** X24.  A number of bytes below 1024 is shown as it is, with [.0]
    and the unit [B]. *)
Theorem size_to_str_below_1024 (num_bytes : Z) :
  (0 <= num_bytes < 1024)%Z ->
  SizeToStr.size_to_str num_bytes = Ret (pretty num_bytes ++ ".0 B").
Proof.
  intros Hn. unfold SizeToStr.size_to_str.
  rewrite float_exact by lia.
  cbn [SizeToStr.scan SizeToStr.units].
  assert ((Z.abs num_bytes <? 1024 ^ Z.of_nat 1)%Z = true) as ->
    by (apply Z.ltb_lt; change (1024 ^ Z.of_nat 1)%Z with 1024%Z; lia).
  unfold SizeToStr.format_1f. cbv zeta.
  assert (SizeToStr.tenths num_bytes 0 = 10 * num_bytes)%Z as ->.
  { unfold SizeToStr.tenths. change (1024 ^ Z.of_nat 0)%Z with 1%Z. cbv zeta.
    rewrite Z.div_1_r, Z.mod_1_r.
    change (1 <? 2 * 0)%Z with false. change (2 * 0 =? 1)%Z with false.
    cbn [orb andb]. lia. }
  assert ((num_bytes <? 0)%Z = false) as -> by (apply Z.ltb_ge; lia).
  replace (10 * num_bytes / 10)%Z with num_bytes
    by (rewrite Z.mul_comm, Z.div_mul; lia).
  replace ((10 * num_bytes) mod 10)%Z with 0%Z
    by (rewrite Z.mul_comm, Z.mod_mul; lia).
  f_equal. change (pretty 0%Z) with "0".
  change ("" ++ pretty num_bytes ++ "." ++ "0")%string
    with (pretty num_bytes ++ ".0")%string.
  rewrite StrategyProperties.append_assoc. reflexivity.
Qed.

Lemma tenths_1024 (n : Z) (j : nat) :
  (0 <= n)%Z ->
  (20479 * 1024 ^ Z.of_nat j <= 20 * n)%Z ->
  (n < 1024 * 1024 ^ Z.of_nat j)%Z ->
  SizeToStr.tenths n j = 10240%Z.
Proof.
  intros Hn Hlow Hhigh. unfold SizeToStr.tenths. cbv zeta.
  pose proof (pow_1024_pos j) as Hd. set (d := (1024 ^ Z.of_nat j)%Z) in *.
  rewrite Z.abs_eq by exact Hn.
  pose proof (Z.div_mod (10 * n) d ltac:(lia)) as Hdm.
  pose proof (Z.mod_pos_bound (10 * n) d Hd) as Hr.
  assert (10 * n / d = 10239)%Z as Hq by nia.
  rewrite Hq in *. change (Z.odd 10239) with true. rewrite andb_true_r.
  assert ((d <? 2 * ((10 * n) mod d))%Z || (2 * ((10 * n) mod d) =? d)%Z = true) as ->;
    [|reflexivity].
  destruct (Z.ltb_spec d (2 * ((10 * n) mod d))) as [_|Hle]; [reflexivity|].
  cbn [orb]. apply Z.eqb_eq. lia.
Qed.

Ltac pow_literals :=
  repeat match goal with
         | |- context [(1024 ^ Z.of_nat ?k)%Z] =>
             let v := eval vm_compute in (1024 ^ Z.of_nat k)%Z in
             change (1024 ^ Z.of_nat k)%Z with v
         | H : context [(1024 ^ Z.of_nat ?k)%Z] |- _ =>
             let v := eval vm_compute in (1024 ^ Z.of_nat k)%Z in
             change (1024 ^ Z.of_nat k)%Z with v in H
         end.

(** X25.  Rounding can show the number 1024.0 under a unit: a size
    within a twentieth of a unit below the next unit is shown as
    [1024.0 KB] (or MB, GB, TB), not as [1.0] of the next unit, because
    the unit is chosen before the number is rounded. *)
Theorem size_to_str_shows_1024 (num_bytes : Z) (j : nat) (unit : string) :
  (1 <= j <= 4)%nat ->
  SizeToStr.units !! j = Some unit ->
  (20479 * 1024 ^ Z.of_nat j <= 20 * num_bytes)%Z ->
  (num_bytes < 1024 * 1024 ^ Z.of_nat j)%Z ->
  SizeToStr.size_to_str num_bytes = Ret ("1024.0 " ++ unit).
Proof.
  intros Hj Hunit Hlow Hhigh.
  pose proof (pow_1024_pos j) as Hd.
  assert (0 <= num_bytes)%Z as Hn by lia.
  pose proof (tenths_1024 num_bytes j Hn Hlow Hhigh) as Ht.
  assert (1024 ^ Z.of_nat j <= num_bytes)%Z as Hge by lia.
  unfold SizeToStr.size_to_str.
  assert (j = 1 \/ j = 2 \/ j = 3 \/ j = 4)%nat as Hcases by lia.
  destruct Hcases as [-> | [-> | [-> | ->]]]; injection Hunit as <-;
    pow_literals;
    (rewrite float_exact by (change (2 ^ 53)%Z with 9007199254740992%Z; lia));
    cbn [SizeToStr.scan SizeToStr.units]; pow_literals;
    repeat match goal with
           | |- context [(Z.abs num_bytes <? ?c)%Z] =>
               destruct (Z.ltb_spec (Z.abs num_bytes) c); [try lia | try lia]
           end;
    unfold SizeToStr.format_1f; rewrite Ht;
    (assert ((num_bytes <? 0)%Z = false) as -> by (apply Z.ltb_ge; lia));
    reflexivity.
Qed.

Lemma size_to_str_below_1024_witness :
  (0 <= 512 < 1024)%Z /\ SizeToStr.size_to_str 512 = Ret "512.0 B".
Proof. split; [lia|]. apply (size_to_str_below_1024 512). lia. Defined.

Lemma size_to_str_shows_1024_witness :
  (1 <= 1 <= 4)%nat
  /\ SizeToStr.units !! 1%nat = Some "KB"
  /\ (20479 * 1024 ^ Z.of_nat 1 <= 20 * 1048575)%Z
  /\ (1048575 < 1024 * 1024 ^ Z.of_nat 1)%Z
  /\ SizeToStr.size_to_str 1048575 = Ret "1024.0 KB".
Proof.
  assert (20479 * 1024 ^ Z.of_nat 1 <= 20 * 1048575)%Z as Hlow
    by (change (1024 ^ Z.of_nat 1)%Z with 1024%Z; lia).
  assert (1048575 < 1024 * 1024 ^ Z.of_nat 1)%Z as Hhigh
    by (change (1024 ^ Z.of_nat 1)%Z with 1024%Z; lia).
  split; [lia|]. split; [reflexivity|]. split; [exact Hlow|]. split; [exact Hhigh|].
  exact (size_to_str_shows_1024 1048575 1 "KB" ltac:(lia) eq_refl Hlow Hhigh).
Defined.

End SizeProperties.
